(** * Excel import microservice: the bulk import pipeline

    A shallow embedding of the import pipeline of the service
    ([services/excel.service.ts], [repositories/data.repository.ts],
    [services/import.service.ts]) and the properties of its specification.

    Conventions of the embedding.
    - JavaScript numbers that hold counts (lengths, row numbers, counters)
      are integers [Z]; numbers stored in cells and the progress percentage
      are IEEE-754 binary64 values ([spec_float] with [prec = 53] and
      [emax = 1024]).
    - A JavaScript string is a [string], one character per code unit.
    - A thrown value is an [exn]; a computation that may throw returns a
      [result].
    - The database client and the file system are collaborators outside the
      repository: their replies are functions handed to the pipeline
      ([DbClient], [FileSystem]), the calls made to the database are logged
      in a [History]. Reading the same path twice gives the same workbook;
      the one place where a property depends on the file changing between
      two reads gives each read its own file system ([processImportAt]).
    - The spreadsheet library is outside the repository too: module [Excel]
      states what the service relies on, as ExcelJS 4 behaves.
    - The logger has no observable effect and never throws.

    Around the pipeline the development also embeds the connection
    ([config/database.config.ts]) and the pool lookup that opens every
    repository method, the two gates of an upload
    ([validators/upload.validator.ts], [middleware/upload.middleware.ts]),
    the worker ([workers/import.worker.ts]), the upload handlers
    ([controllers/upload.controller.ts]) and the job status
    ([services/job.service.ts]). The upload directory is a finite map from
    paths to what reading each file gives; the queue and the pool are
    collaborators whose answers are handed in. *)

From Stdlib Require Import ZArith List String Ascii Bool Lia SpecFloat.
From stdpp Require Import base option list strings gmap pretty.
Import ListNotations.
Open Scope string_scope.
Open Scope list_scope.
Open Scope Z_scope.

(* ===================================================================== *)
(** * JavaScript values and control flow                                  *)
(* ===================================================================== *)

Module Js.

(** A thrown value: an [Error] instance with its [message], or anything
    else ([error instanceof Error] is false for it). *)
Inductive exn : Type :=
| JsError (message : string)
| JsThrown (description : string).

(** [(error as Error).message] inside a template literal: a value that is
    not an [Error] has no [message], which prints as [undefined]. *)
Definition messageOf (e : exn) : string :=
  match e with
  | JsError m => m
  | JsThrown _ => "undefined"
  end.

Inductive result (A : Type) : Type :=
| Ok (a : A)
| Throw (e : exn).
Arguments Ok {A} a.
Arguments Throw {A} e.

Definition isOk {A} (r : result A) : bool :=
  match r with Ok _ => true | Throw _ => false end.


(** ** Numbers *)

Definition prec : Z := 53.
Definition emax : Z := 1024.

Definition number : Type := spec_float.

(** The number denoted by an integer literal or held by an integer
    counter. *)
Definition ofZ (n : Z) : number := binary_normalize prec emax n 0 false.

Definition div (x y : number) : number := SFdiv prec emax x y.
Definition mul (x y : number) : number := SFmul prec emax x y.
Definition ltb (x y : number) : bool := SFltb x y.

(** [floor (x + 1/2)] for the finite value [(-1)^s * m * 2^e], computed
    exactly. *)
Definition floorHalfUp (s : bool) (m : positive) (e : Z) : Z :=
  let num := if s then Zneg m else Zpos m in
  if 0 <=? e then num * 2 ^ e
  else (2 * num + 2 ^ (- e)) / 2 ^ (- e + 1).

(** [Math.round]: the integer closest to [x], ties towards +infinity;
    NaN, the infinities and the zeros are returned unchanged, and a
    negative [x] that rounds to zero gives [-0]. *)
Definition mathRound (x : number) : number :=
  match x with
  | S754_finite s m e => binary_normalize prec emax (floorHalfUp s m e) 0 s
  | _ => x
  end.

(** [Number.isInteger]. *)
Definition isInteger (x : number) : bool :=
  match x with
  | S754_zero _ => true
  | S754_finite _ m e =>
      if 0 <=? e then true else (Zpos m mod 2 ^ (- e) =? 0)
  | S754_infinity _ | S754_nan => false
  end.

(** ** Values held by cells and records *)

Inductive value : Type :=
| VNull
| VUndefined
| VNumber (x : number)
| VBool (b : bool)
| VDate (ms : Z)
| VString (s : string)
| VObject (description : string).

(** ** Strings *)

Definition isDigit (c : ascii) : bool :=
  let n := nat_of_ascii c in ((48 <=? n) && (n <=? 57))%nat.

(** White space removed by [String.prototype.trim] among the code units
    below 256: TAB, LF, VT, FF, CR, SP and NBSP. *)
Definition isWhiteSpace (c : ascii) : bool :=
  let n := nat_of_ascii c in
  ((9 <=? n) && (n <=? 13) || (n =? 32) || (n =? 160))%nat.

Fixpoint trimStart (s : string) : string :=
  match s with
  | String c rest => if isWhiteSpace c then trimStart rest else s
  | EmptyString => EmptyString
  end.

Fixpoint trimEnd (s : string) : string :=
  match s with
  | String c rest =>
      match trimEnd rest with
      | EmptyString => if isWhiteSpace c then EmptyString else String c EmptyString
      | rest' => String c rest'
      end
  | EmptyString => EmptyString
  end.

Definition trim (s : string) : string := trimEnd (trimStart s).

(** [Array.prototype.join]. *)
Fixpoint join (sep : string) (l : list string) : string :=
  match l with
  | [] => ""
  | [s] => s
  | s :: rest => s +:+ sep +:+ join sep rest
  end.

(** A string is truthy when it is not empty. *)
Definition truthy (s : string) : bool :=
  match s with EmptyString => false | _ => true end.

(** What the engine supplies and the repository relies on:
    [Number.prototype.toString], [Date.prototype.toString], and whether
    [new Date(s).getTime()] is a number for a string [s]. *)
Record Engine : Type := {
  numberToString : number -> string;
  dateToString : Z -> string;
  dateParses : string -> bool
}.

End Js.

Export Js.

(* ===================================================================== *)
(** * Import records ([types/index.ts])                                   *)
(* ===================================================================== *)

Module Record_.

(** [ImportRecord]: an object used as a map from column name to value.
    The pairs are kept in property-creation order, each key once.
    Properties inherited from [Object.prototype] are not modelled: a key
    such as [constructor], [toString] or [__proto__] is read and written
    here as any other key, which is not what the engine does. *)
Definition ImportRecord : Type := list (string * Js.value).

(** [record[key]]: [undefined] for a missing key. *)
Fixpoint get (r : ImportRecord) (key : string) : Js.value :=
  match r with
  | [] => VUndefined
  | (k, v) :: rest => if String.eqb k key then v else get rest key
  end.

(** [record[key] = v]: an existing property keeps its place. *)
Fixpoint set (r : ImportRecord) (key : string) (v : Js.value) : ImportRecord :=
  match r with
  | [] => [(key, v)]
  | (k, v') :: rest =>
      if String.eqb k key then (k, v) :: rest else (k, v') :: set rest key v
  end.

Fixpoint digitsValue (s : string) (acc : N) : option N :=
  match s with
  | EmptyString => Some acc
  | String c rest =>
      if Js.isDigit c
      then digitsValue rest (acc * 10 + (N_of_ascii c - 48))%N
      else None
  end.

(** A key that is an array index: a canonical decimal numeral below
    [2^32 - 1]. *)
Definition arrayIndex (key : string) : option N :=
  match key with
  | EmptyString => None
  | String c rest =>
      if Ascii.eqb c "0"%char && Js.truthy rest then None
      else match digitsValue key 0 with
           | Some n => if (n <=? 4294967294)%N then Some n else None
           | None => None
           end
  end.

Fixpoint insertIndex (n : N) (key : string) (l : list (N * string))
  : list (N * string) :=
  match l with
  | [] => [(n, key)]
  | (m, k) :: rest =>
      if (n <=? m)%N then (n, key) :: l else (m, k) :: insertIndex n key rest
  end.

Fixpoint indexKeys (r : ImportRecord) : list (N * string) :=
  match r with
  | [] => []
  | (k, _) :: rest =>
      match arrayIndex k with
      | Some n => insertIndex n k (indexKeys rest)
      | None => indexKeys rest
      end
  end.

Fixpoint otherKeys (r : ImportRecord) : list string :=
  match r with
  | [] => []
  | (k, _) :: rest =>
      match arrayIndex k with
      | Some _ => otherKeys rest
      | None => k :: otherKeys rest
      end
  end.

(** [Object.keys]: array-index keys in ascending order, then the other
    keys in creation order. *)
Definition keys (r : ImportRecord) : list string :=
  map snd (indexKeys r) ++ otherKeys r.

End Record_.

Export Record_.

(* ===================================================================== *)
(** * The database client (mssql)                                          *)
(* ===================================================================== *)

Module Sql.

Inductive SqlLength : Type :=
| Len (n : Z)
| MAX.

Inductive SqlType : Type :=
| NVarChar (length : SqlLength)
| Int
| Decimal (precision scale : Z)
| Bit
| DateTime.

Record Column : Type := {
  columnName : string;
  columnType : SqlType;
  nullable : bool
}.

(** [sql.Table]. *)
Record Table : Type := {
  tableName : string;
  create : bool;
  columns : list Column;
  rows : list (list Js.value)
}.

(** One [request.input(name, type, value)]. *)
Record Param : Type := {
  paramName : string;
  paramType : SqlType;
  paramValue : Js.value
}.

(** The calls the repository makes to the connection pool. *)
Inductive DbCall : Type :=
| QueryTableCount (table : string)
| QueryColumns (table : string)
| Bulk (table : Table)
| TxBegin
| TxQuery (statement : string) (params : list Param)
| TxCommit
| TxRollback.

Definition History : Type := list DbCall.

(** The replies of the database: each may depend on every call made
    before it. A query replies with its [recordset]. *)
Record DbClient : Type := {
  tableCountReply : History -> string -> Js.result (list Z);
  columnsReply : History -> string -> Js.result (list string);
  bulkReply : History -> Table -> Js.result unit;
  beginReply : History -> Js.result unit;
  queryReply : History -> string -> list Param -> Js.result unit;
  commitReply : History -> Js.result unit;
  rollbackReply : History -> Js.result unit
}.

Definition isBulk (c : DbCall) : bool :=
  match c with Bulk _ => true | _ => false end.

End Sql.

Export Sql.

(* ===================================================================== *)
(** * Job progress ([types/job.types.ts])                                  *)
(* ===================================================================== *)

Record JobProgress : Type := {
  total : Z;
  processed : Z;
  failed : Z;
  percentage : Js.number
}.

(* ===================================================================== *)
(** * Effects                                                              *)
(* ===================================================================== *)

(** What a run leaves behind: the calls made to the database and the
    progress updates handed to the [onProgress] callback, oldest first. *)
Record World : Type := {
  calls : History;
  updates : list JobProgress
}.

Definition emptyWorld : World := {| calls := []; updates := [] |}.

Module Eff.

(** A computation that may throw and that acts on the [World]. *)
Definition M (A : Type) : Type := World -> Js.result A * World.

Definition ret {A} (a : A) : M A := fun w => (Ok a, w).

Definition throw {A} (e : Js.exn) : M A := fun w => (Throw e, w).

Definition bind {A B} (m : M A) (k : A -> M B) : M B :=
  fun w =>
    match m w with
    | (Ok a, w') => k a w'
    | (Throw e, w') => (Throw e, w')
    end.

(** [try { m } catch (error) { handler error }]. *)
Definition tryCatch {A} (m : M A) (handler : Js.exn -> M A) : M A :=
  fun w =>
    match m w with
    | (Ok a, w') => (Ok a, w')
    | (Throw e, w') => handler e w'
    end.

Definition lift {A} (r : Js.result A) : M A := fun w => (r, w).

(** A call to the database: logged, answered from the calls before it. *)
Definition call {A} (c : DbCall) (reply : History -> Js.result A) : M A :=
  fun w =>
    (reply (calls w), {| calls := calls w ++ [c]; updates := updates w |}).

(** [onProgress(progress)]: the update is recorded, the callback may
    throw. *)
Definition report (onProgress : JobProgress -> Js.result unit)
  (p : JobProgress) : M unit :=
  fun w =>
    (onProgress p, {| calls := calls w; updates := updates w ++ [p] |}).

End Eff.

Export Eff.

Declare Scope eff_scope.
Delimit Scope eff_scope with eff.
Notation "x <- m ;; k" := (Eff.bind m (fun x => k))
  (at level 20, m at level 99, k at level 200, only parsing) : eff_scope.
Notation "m ;;; k" := (Eff.bind m (fun _ => k))
  (at level 20, k at level 200, only parsing) : eff_scope.

(* ===================================================================== *)
(** * The spreadsheet library (ExcelJS), as the service uses it           *)
(* ===================================================================== *)

(** A worksheet keeps its rows in an array indexed by row number. Of the
    library the service uses:
    - [worksheet.rowCount], the number of the last row in that array;
    - [worksheet.getRow(n)], which returns row [n] and, when the array has
      no such row, creates an empty one and stores it there;
    - [worksheet.eachRow({ includeEmpty: false }, f)], which visits the
      rows that have a value, in order;
    - [row.eachCell(f)], which visits the cells that are not empty, and
      [row.eachCell({ includeEmpty: true }, f)], which visits every
      position up to the last cell of the row;
    - [cell.value] and [cell.type]. *)

Module Excel.

(** The cached result of a formula cell. *)
Inductive FormulaResult : Type :=
| FRUndefined
| FRNull
| FRNumber (x : Js.number)
| FRString (s : string)
| FRBool (b : bool)
| FRDate (ms : Z)
| FRError (code : string).

(** [cell.value]. *)
Inductive CellValue : Type :=
| CNull
| CNumber (x : Js.number)
| CString (s : string)
| CBool (b : bool)
| CDate (ms : Z)
| CError (code : string)
| CRichText (runs : list string)
| CHyperlink (text hyperlink : string)
| CFormula (formula : string) (result : FormulaResult).

(** [ExcelJS.ValueType], the tag [cell.type] of a value. *)
Inductive ValueType : Type :=
| TNull | TNumber | TString | TBoolean | TDate
| TError | TRichText | THyperlink | TFormula.

Definition cellType (c : CellValue) : ValueType :=
  match c with
  | CNull => TNull
  | CNumber _ => TNumber
  | CString _ => TString
  | CBool _ => TBoolean
  | CDate _ => TDate
  | CError _ => TError
  | CRichText _ => TRichText
  | CHyperlink _ _ => THyperlink
  | CFormula _ _ => TFormula
  end.

(** [cell.type === ValueType.Null]. *)
Definition isNullCell (c : CellValue) : bool :=
  match cellType c with TNull => true | _ => false end.

(** A row: its cells from column 1 on, [CNull] where a cell is empty. *)
Definition Row : Type := list CellValue.

Record Worksheet : Type := {
  sheetName : string;
  sheetRows : list Row
}.

Definition Workbook : Type := list Worksheet.

(** [workbook.xlsx.readFile(filePath)]: the workbook stored at a path, or
    the error thrown for an unreadable file. *)
Definition FileSystem : Type := string -> Js.result Workbook.

Definition getWorksheet (wb : Workbook) (name : string) : option Worksheet :=
  List.find (fun ws => String.eqb (sheetName ws) name) wb.

(** [worksheet.rowCount]: the number of the last row the sheet holds. *)
Definition rowCount (ws : Worksheet) : Z := Z.of_nat (length (sheetRows ws)).

(** The sheet once row [n] has been asked for: ExcelJS creates a row that
    is missing, empty, and stores it in the sheet, which from then on
    reaches down to row [n] at least. *)
Definition touchRow (ws : Worksheet) (n : nat) : Worksheet :=
  {| sheetName := sheetName ws;
     sheetRows := sheetRows ws ++ repeat [] (n - length (sheetRows ws)) |}.

(** [worksheet.getRow(n)], for [n >= 1]: row [n], and the sheet as the
    call leaves it. *)
Definition getRow (ws : Worksheet) (n : nat) : Row * Worksheet :=
  (nth (n - 1) (sheetRows ws) [], touchRow ws n).

(** [row.hasValues]. *)
Definition hasValues (r : Row) : bool :=
  existsb (fun c => negb (isNullCell c)) r.

(** Cells or rows with their 1-based number. *)
Definition numbered {A} (l : list A) : list (nat * A) :=
  combine (seq 1 (length l)) l.

(** The rows visited by [worksheet.eachRow({ includeEmpty: false }, f)]. *)
Definition eachRow (ws : Worksheet) : list (nat * Row) :=
  List.filter (fun nr => hasValues (snd nr)) (numbered (sheetRows ws)).

(** The cells visited by [row.eachCell(f)]: those that are not empty. *)
Definition eachCell (r : Row) : list (nat * CellValue) :=
  List.filter (fun nc => negb (isNullCell (snd nc))) (numbered r).

(** The cells visited by [row.eachCell({ includeEmpty: true }, f)]. *)
Definition eachCellIncludeEmpty (r : Row) : list (nat * CellValue) :=
  numbered r.

End Excel.

Export Excel.

(* ===================================================================== *)
(** * [services/excel.service.ts]                                          *)
(* ===================================================================== *)

Record ValidationError : Type := {
  field : string;
  message : string
}.

Record ExcelValidationResult : Type := {
  isValid : bool;
  errors : list ValidationError;
  validRowCount : Z;
  detectedColumns : list (option string)
}.

Module ExcelService.

Definition boolToString (b : bool) : string := if b then "true" else "false".

(** [String(cell.value)]. *)
Definition stringOfCell (eng : Js.Engine) (c : CellValue) : string :=
  match c with
  | CNull => "null"
  | CNumber x => numberToString eng x
  | CString s => s
  | CBool b => boolToString b
  | CDate ms => dateToString eng ms
  | CError _ | CRichText _ | CHyperlink _ _ | CFormula _ _ => "[object Object]"
  end.

(** [String(formulaValue)] for a result that is neither a number nor a
    string. *)
Definition stringOfFormulaResult (eng : Js.Engine) (r : FormulaResult) : string :=
  match r with
  | FRUndefined => "undefined"
  | FRNull => "null"
  | FRNumber x => numberToString eng x
  | FRString s => s
  | FRBool b => boolToString b
  | FRDate ms => dateToString eng ms
  | FRError _ => "[object Object]"
  end.

(** [getCellValue]; the source tests, in this order, a null value, the
    Date type, the Formula type, a [richText] property and a [text]
    property, and returns any other value as it is. *)
Definition getCellValue (eng : Js.Engine) (c : CellValue) : Js.value :=
  match c with
  | CNull => VNull
  | CDate ms => VDate ms
  | CFormula _ r =>
      match r with
      | FRUndefined | FRNull => VNull
      | FRNumber x => VNumber x
      | FRString s => VString s
      | _ => VString (stringOfFormulaResult eng r)
      end
  | CRichText runs => VString (Js.join "" runs)
  | CHyperlink text _ => VString text
  | CNumber x => VNumber x
  | CString s => VString s
  | CBool b => VBool b
  | CError code => VObject code
  end.

(** [headers[index] = text] on the sparse array [headers]: [None] is a
    hole; the array grows, with holes, up to [index]. *)
Fixpoint setIndex (headers : list (option string)) (index : nat) (text : string)
  : list (option string) :=
  match index, headers with
  | O, [] => [Some text]
  | O, _ :: rest => Some text :: rest
  | S index', [] => None :: setIndex [] index' text
  | S index', h :: rest => h :: setIndex rest index' text
  end.

(** The callback of [headerRow.eachCell] on the array [headers]. *)
Definition visitHeader (eng : Js.Engine) (headers : list (option string))
  (nc : nat * CellValue) : list (option string) :=
  let '(colNumber, cell) := nc in
  setIndex headers (colNumber - 1) (Js.trim (stringOfCell eng cell)).

(** The array [headers] read from the header row. *)
Definition readHeaders (eng : Js.Engine) (headerRow : Row) : list (option string) :=
  fold_left (visitHeader eng) (eachCell headerRow) [].

(** [headers[colNumber - 1]]. *)
Definition headerAt (headers : list (option string)) (colNumber : nat)
  : option string :=
  mjoin (nth_error headers (colNumber - 1)).

(** [headers.includes(col)]. *)
Definition includes (headers : list (option string)) (col : string) : bool :=
  existsb (fun h => match h with Some s => String.eqb s col | None => false end)
    headers.

(** [value !== null && value !== '']. *)
Definition isData (v : Js.value) : bool :=
  match v with
  | VNull => false
  | VString EmptyString => false
  | _ => true
  end.

(** The callback of [row.eachCell] in [streamExcelRows], on the pair
    [(record, hasData)]. *)
Definition visitCell (eng : Js.Engine) (headers : list (option string))
  (acc : ImportRecord * bool) (nc : nat * CellValue) : ImportRecord * bool :=
  let '(record, hasData) := acc in
  let '(colNumber, cell) := nc in
  match headerAt headers colNumber with
  | Some header =>
      if Js.truthy header then
        let value := getCellValue eng cell in
        (Record_.set record header value, hasData || isData value)
      else acc
  | None => acc
  end.

Definition readRow (eng : Js.Engine) (headers : list (option string)) (r : Row)
  : ImportRecord * bool :=
  fold_left (visitCell eng headers) (eachCellIncludeEmpty r) ([], false).

(** The callback of [worksheet.eachRow] in [streamExcelRows], on the
    array [batch]. *)
Definition visitRow (eng : Js.Engine) (headers : list (option string))
  (skipRows : nat) (batch : list ImportRecord) (nr : nat * Row)
  : list ImportRecord :=
  let '(rowNumber, row) := nr in
  if (rowNumber <=? 1 + skipRows)%nat then batch
  else
    let '(record, hasData) := readRow eng headers row in
    if hasData then batch ++ [record] else batch.

(** [sheetName ? workbook.getWorksheet(sheetName) : workbook.worksheets[0]]. *)
Definition selectWorksheet (wb : Workbook) (sheet : option string)
  : option Worksheet :=
  match sheet with
  | Some name => if Js.truthy name then getWorksheet wb name else head wb
  | None => head wb
  end.

(** [`Worksheet ${sheetName || 'default'} not found`]. *)
Definition notFoundMessage (sheet : option string) : string :=
  "Worksheet " +:+
  match sheet with
  | Some name => if Js.truthy name then name else "default"
  | None => "default"
  end +:+ " not found".

Definition batchSize : nat := 500.

(** [array.slice(i, j)] for [i <= j]. *)
Definition slice {A} (i j : nat) (l : list A) : list A :=
  firstn (j - i) (skipn i l).

(** [streamExcelRows] up to its first [yield]: the file is read, the
    sheet chosen, the headers resolved and every admitted row pushed on
    [batch]. *)
Definition collectRows (eng : Js.Engine) (fs : FileSystem) (filePath : string)
  (sheet : option string) (skipRows : nat) : Js.result (list ImportRecord) :=
  match fs filePath with
  | Throw e => Throw e
  | Ok wb =>
      match selectWorksheet wb sheet with
      | None => Throw (JsError (notFoundMessage sheet))
      | Some ws =>
          let '(headerRow, ws1) := getRow ws (1 + skipRows) in
          let headers := readHeaders eng headerRow in
          Ok (fold_left (visitRow eng headers skipRows) (eachRow ws1) [])
      end
  end.

(** The loop [for (let i = 0; i < batch.length; i += batchSize)
    yield batch.slice(i, i + batchSize)], entered at [i]; it runs at most
    [fuel] times. *)
Fixpoint yieldLoop (fuel i : nat) (batch : list ImportRecord)
  : list (list ImportRecord) :=
  match fuel with
  | O => []
  | S fuel' =>
      if (i <? length batch)%nat
      then slice i (i + batchSize) batch :: yieldLoop fuel' (i + batchSize) batch
      else []
  end.

(** The batches yielded for [batch]: [batch.length] rounds are enough
    (see [yieldLoop_fuel]). *)
Definition yieldAll (batch : list ImportRecord) : list (list ImportRecord) :=
  yieldLoop (length batch) 0 batch.

(** [streamExcelRows], as the sequence of batches a consumer receives
    from [for await]: the batches in order, or the error thrown. *)
Definition streamExcelRows (eng : Js.Engine) (fs : FileSystem)
  (filePath : string) (sheet : option string) (skipRows : nat)
  : Js.result (list (list ImportRecord)) :=
  match collectRows eng fs filePath sheet skipRows with
  | Throw e => Throw e
  | Ok batch => Ok (yieldAll batch)
  end.

(** ** The generator, one [next()] at a time *)

(** Where the generator object stands: not started, suspended at the
    [yield] with its local variables [batch] and [i] alive, or done. *)
Inductive GenState : Type :=
| GenStart
| GenSuspended (batch : list ImportRecord) (i : nat)
| GenDone.

Inductive GenStep : Type :=
| Yielded (b : list ImportRecord)
| Returned
| Raised (e : Js.exn).

(** The head of the [for] loop: test [i < batch.length], then [yield]. *)
Definition loopHead (batch : list ImportRecord) (i : nat) : GenStep * GenState :=
  if (i <? length batch)%nat
  then (Yielded (slice i (i + batchSize) batch), GenSuspended batch i)
  else (Returned, GenDone).

(** One [next()] on the generator made by [streamExcelRows]. *)
Definition next (eng : Js.Engine) (fs : FileSystem) (filePath : string)
  (sheet : option string) (skipRows : nat) (st : GenState) : GenStep * GenState :=
  match st with
  | GenStart =>
      match collectRows eng fs filePath sheet skipRows with
      | Throw e => (Raised e, GenDone)
      | Ok batch => loopHead batch 0
      end
  | GenSuspended batch i => loopHead batch (i + batchSize)
  | GenDone => (Returned, GenDone)
  end.

(** The records the generator object keeps alive. *)
Definition held (st : GenState) : list ImportRecord :=
  match st with
  | GenSuspended batch _ => batch
  | _ => []
  end.

(** [for await (const b of generator)] collecting what it receives, at
    most [fuel] calls of [next()]; [None] when the fuel runs out. *)
Fixpoint drain (eng : Js.Engine) (fs : FileSystem) (filePath : string)
  (sheet : option string) (skipRows : nat) (fuel : nat) (st : GenState)
  : option (Js.result (list (list ImportRecord))) :=
  match fuel with
  | O => None
  | S fuel' =>
      match next eng fs filePath sheet skipRows st with
      | (Yielded b, st') =>
          match drain eng fs filePath sheet skipRows fuel' st' with
          | Some (Ok bs) => Some (Ok (b :: bs))
          | other => other
          end
      | (Returned, _) => Some (Ok [])
      | (Raised e, _) => Some (Throw e)
      end
  end.

(** ** Validation and row count *)

(** [validateExcel]. *)
Definition validateExcel (eng : Js.Engine) (fs : FileSystem) (filePath : string)
  (requiredColumns : list string) (sheet : option string) (skipRows : nat)
  : ExcelValidationResult :=
  match fs filePath with
  | Throw e =>
      {| isValid := false;
         errors := [ {| field := "file";
                        message := "Failed to read Excel file: " +:+ Js.messageOf e |} ];
         validRowCount := 0;
         detectedColumns := [] |}
  | Ok wb =>
      match selectWorksheet wb sheet with
      | None =>
          {| isValid := false;
             errors := [ {| field := "worksheet";
                            message := notFoundMessage sheet |} ];
             validRowCount := 0;
             detectedColumns := [] |}
      | Some ws =>
          let '(headerRow, ws1) := getRow ws (1 + skipRows) in
          let headers := readHeaders eng headerRow in
          let missingColumns :=
            List.filter (fun col => negb (includes headers col)) requiredColumns in
          let errors1 :=
            if (0 <? length requiredColumns)%nat && (0 <? length missingColumns)%nat
            then [ {| field := "columns";
                      message := "Missing required columns: "
                                 +:+ Js.join ", " missingColumns |} ]
            else [] in
          let rowCount := Excel.rowCount ws1 - (1 + Z.of_nat skipRows) in
          let errors2 :=
            if rowCount =? 0
            then errors1 ++ [ {| field := "rows";
                                 message := "Excel file contains no data rows" |} ]
            else errors1 in
          {| isValid := (length errors2 =? 0)%nat;
             errors := errors2;
             validRowCount := Z.max 0 rowCount;
             detectedColumns := headers |}
      end
  end.

(** [getRowCount]. *)
Definition getRowCount (fs : FileSystem) (filePath : string)
  (sheet : option string) (skipRows : nat) : Js.result Z :=
  match fs filePath with
  | Throw e => Throw e
  | Ok wb =>
      match selectWorksheet wb sheet with
      | None => Throw (JsError (notFoundMessage sheet))
      | Some ws => Ok (Z.max 0 (Excel.rowCount ws - (1 + Z.of_nat skipRows)))
      end
  end.

End ExcelService.

(* ===================================================================== *)
(** * [repositories/data.repository.ts]                                    *)
(* ===================================================================== *)

Record RowError : Type := {
  row : Z;
  error : string
}.

Record BatchInsertResult : Type := {
  inserted : Z;
  batchFailed : Z;
  batchErrors : list RowError
}.

Module DataRepository.

(** The pattern [/^\d{4}-\d{2}-\d{2}/]. *)
Definition datePattern (s : string) : bool :=
  match s with
  | String y1 (String y2 (String y3 (String y4 (String d1
      (String m1 (String m2 (String d2 (String a1 (String a2 _))))))))) =>
      Js.isDigit y1 && Js.isDigit y2 && Js.isDigit y3 && Js.isDigit y4
      && Ascii.eqb d1 "-"%char
      && Js.isDigit m1 && Js.isDigit m2
      && Ascii.eqb d2 "-"%char
      && Js.isDigit a1 && Js.isDigit a2
  | _ => false
  end.

Definition stringLength (s : string) : Z := Z.of_nat (String.length s).

(** [inferSqlType]. *)
Definition inferSqlType (eng : Js.Engine) (value : Js.value) : SqlType :=
  match value with
  | VNull | VUndefined => NVarChar MAX
  | VNumber x => if Js.isInteger x then Int else Decimal 18 2
  | VBool _ => Bit
  | VDate _ => DateTime
  | VString s =>
      if dateParses eng s && datePattern s then DateTime
      else if 4000 <? stringLength s then NVarChar MAX
      else NVarChar (Len (if 255 <? stringLength s then 4000 else 255))
  | VObject _ => NVarChar MAX
  end.

(** [columnMapping?.[col] || col], for a column name the mapping object
    does not inherit from [Object.prototype]. *)
Definition mapColumn (columnMapping : option (gmap string string)) (col : string)
  : string :=
  match columnMapping with
  | Some mapping =>
      match mapping !! col with
      | Some mapped => if Js.truthy mapped then mapped else col
      | None => col
      end
  | None => col
  end.

(** What [Object.keys(undefined)] throws. *)
Definition keysOfUndefined : Js.exn :=
  JsError "Cannot convert undefined or null to object".

(** The [sql.Table] built by [bulkInsertWithTVP]. *)
Definition tvpTable (eng : Js.Engine) (table : string)
  (sampleRecord : ImportRecord) (records : list ImportRecord)
  (columnMapping : option (gmap string string)) : Table :=
  let columns := Record_.keys sampleRecord in
  {| tableName := table;
     create := false;
     columns :=
       map (fun col =>
              {| columnName := mapColumn columnMapping col;
                 columnType := inferSqlType eng (Record_.get sampleRecord col);
                 nullable := true |}) columns;
     rows := map (fun record => map (Record_.get record) columns) records |}.

(** [bulkInsertWithTVP]: its [catch] logs and throws the error again. *)
Definition bulkInsertWithTVP (db : DbClient) (eng : Js.Engine) (table : string)
  (records : list ImportRecord) (columnMapping : option (gmap string string))
  : M BatchInsertResult :=
  match records with
  | [] => Eff.throw keysOfUndefined
  | sampleRecord :: _ =>
      let t := tvpTable eng table sampleRecord records columnMapping in
      (Eff.call (Bulk t) (fun h => bulkReply db h t) ;;;
       Eff.ret {| inserted := Z.of_nat (length records);
                  batchFailed := 0;
                  batchErrors := [] |})%eff
  end.

(** The parameters bound for one record by the per-row strategy. *)
Definition rowParams (eng : Js.Engine) (columns : list string)
  (record : ImportRecord) : list Param :=
  imap (fun index col =>
          let value := Record_.get record col in
          {| paramName := "col" +:+ pretty index;
             paramType := inferSqlType eng value;
             paramValue := value |}) columns.

(** [error instanceof Error ? error.message : 'Unknown error']. *)
Definition errorMessage (e : Js.exn) : string :=
  match e with
  | JsError m => m
  | JsThrown _ => "Unknown error"
  end.

(** The loop [for (let i = 0; i < records.length; i++)] of [bulkInsert],
    from index [i] on, over the records left. *)
Fixpoint insertRows (db : DbClient) (eng : Js.Engine) (insertQuery : string)
  (columns : list string) (records : list ImportRecord) (i : Z)
  (inserted : Z) (errors : list RowError) : M (Z * list RowError) :=
  match records with
  | [] => Eff.ret (inserted, errors)
  | record :: rest =>
      let params := rowParams eng columns record in
      fun w =>
        match Eff.call (TxQuery insertQuery params)
                (fun h => queryReply db h insertQuery params) w with
        | (Ok _, w') =>
            insertRows db eng insertQuery columns rest (i + 1)
              (inserted + 1) errors w'
        | (Throw e, w') =>
            insertRows db eng insertQuery columns rest (i + 1) inserted
              (errors ++ [ {| row := i + 1; error := errorMessage e |} ]) w'
        end
  end.

Definition insertStatement (table : string) (mappedColumns : list string)
  : string :=
  let columnList := Js.join ", " mappedColumns in
  let valuesList := Js.join ", " (imap (fun i _ => "@col" +:+ pretty i) mappedColumns) in
  "INSERT INTO " +:+ table +:+ " (" +:+ columnList +:+ ") VALUES ("
    +:+ valuesList +:+ ")".

(** [bulkInsert], the per-row strategy. *)
Definition bulkInsert (db : DbClient) (eng : Js.Engine) (table : string)
  (records : list ImportRecord) (columnMapping : option (gmap string string))
  : M BatchInsertResult :=
  Eff.tryCatch
    (Eff.call TxBegin (beginReply db) ;;;
     match records with
     | [] => Eff.throw keysOfUndefined
     | sampleRecord :: _ =>
         let columns := Record_.keys sampleRecord in
         let mappedColumns := map (mapColumn columnMapping) columns in
         let insertQuery := insertStatement table mappedColumns in
         r <- insertRows db eng insertQuery columns records 0 0 [] ;;
         Eff.call TxCommit (commitReply db) ;;;
         Eff.ret {| inserted := fst r;
                    batchFailed := Z.of_nat (length (snd r));
                    batchErrors := snd r |}
     end)%eff
    (fun error =>
       (Eff.call TxRollback (rollbackReply db) ;;; Eff.throw error)%eff).

(** [tableExists]: [recordset[0].count] throws on an empty recordset. *)
Definition tableExists (db : DbClient) (table : string) : M bool :=
  Eff.tryCatch
    (recordset <- Eff.call (QueryTableCount table)
                    (fun h => tableCountReply db h table) ;;
     match recordset with
     | count :: _ => Eff.ret (0 <? count)
     | [] => Eff.throw (JsError "Cannot read properties of undefined (reading 'count')")
     end)%eff
    (fun _ => Eff.ret false).

(** [getTableColumns]: its [catch] logs and throws the error again. *)
Definition getTableColumns (db : DbClient) (table : string) : M (list string) :=
  Eff.call (QueryColumns table) (fun h => columnsReply db h table).

End DataRepository.

(* ===================================================================== *)
(** * [services/import.service.ts]                                         *)
(* ===================================================================== *)

Record ImportResult : Type := {
  successCount : Z;
  failedCount : Z;
  duration : Z
}.

Record ImportValidation : Type := {
  importValid : bool;
  importErrors : list string;
  importRowCount : Z
}.

Module ImportService.

(** The counters [successCount], [failedCount] and [processedCount]. *)
Record Counters : Type := {
  cSuccess : Z;
  cFailed : Z;
  cProcessed : Z
}.

Definition zeroCounters : Counters :=
  {| cSuccess := 0; cFailed := 0; cProcessed := 0 |}.

Definition addFailed (c : Counters) (n : Z) : Counters :=
  {| cSuccess := cSuccess c; cFailed := cFailed c + n; cProcessed := cProcessed c |}.

(** [Math.round((processedCount / totalRecords) * 100)]. *)
Definition percentageOf (processedCount totalRecords : Z) : Js.number :=
  Js.mathRound (Js.mul (Js.div (Js.ofZ processedCount) (Js.ofZ totalRecords))
                  (Js.ofZ 100)).

Definition progressOf (totalRecords : Z) (c : Counters) : JobProgress :=
  {| total := totalRecords;
     processed := cProcessed c;
     failed := cFailed c;
     percentage := percentageOf (cProcessed c) totalRecords |}.

Definition batchLength (batch : list ImportRecord) : Z := Z.of_nat (length batch).

(** The body of [for await (const batch of rowGenerator)]: the [try]
    block and its [catch]. The counters are variables of the enclosing
    function, so what the [try] block added before it threw stays. *)
Definition processBatch (db : DbClient) (eng : Js.Engine) (table : string)
  (columnMapping : option (gmap string string))
  (onProgress : option (JobProgress -> Js.result unit))
  (totalRecords : Z) (c : Counters) (batch : list ImportRecord)
  : World -> Counters * World :=
  fun w =>
    match DataRepository.bulkInsertWithTVP db eng table batch columnMapping w with
    | (Throw _, w1) => (addFailed c (batchLength batch), w1)
    | (Ok result, w1) =>
        let c1 := {| cSuccess := cSuccess c + inserted result;
                     cFailed := cFailed c + batchFailed result;
                     cProcessed := cProcessed c + batchLength batch |} in
        match onProgress with
        | None => (c1, w1)
        | Some callback =>
            match Eff.report callback (progressOf totalRecords c1) w1 with
            | (Ok _, w2) => (c1, w2)
            | (Throw _, w2) => (addFailed c1 (batchLength batch), w2)
            end
        end
    end.

(** The loop of [processImport] over the batches it receives. *)
Fixpoint processBatches (db : DbClient) (eng : Js.Engine) (table : string)
  (columnMapping : option (gmap string string))
  (onProgress : option (JobProgress -> Js.result unit))
  (totalRecords : Z) (batches : list (list ImportRecord)) (c : Counters)
  : World -> Counters * World :=
  fun w =>
    match batches with
    | [] => (c, w)
    | batch :: rest =>
        let '(c', w') :=
          processBatch db eng table columnMapping onProgress totalRecords c batch w in
        processBatches db eng table columnMapping onProgress totalRecords rest c' w'
    end.

Definition missingTable (table : string) : string :=
  "Table " +:+ table +:+ " does not exist".

(** [processImport]; [startTime] and [endTime] are the two readings of
    [Date.now()]. Its outer [catch] logs and throws the error again. *)
Definition processImport (db : DbClient) (eng : Js.Engine) (fs : FileSystem)
  (startTime endTime : Z)
  (filePath table : string) (sheet : option string)
  (columnMapping : option (gmap string string)) (skipRows : nat)
  (onProgress : option (JobProgress -> Js.result unit)) : M ImportResult :=
  (tableExists <- DataRepository.tableExists db table ;;
   if negb tableExists then Eff.throw (JsError (missingTable table))
   else
     totalRecords <- Eff.lift (ExcelService.getRowCount fs filePath sheet skipRows) ;;
     batches <- Eff.lift (ExcelService.streamExcelRows eng fs filePath sheet skipRows) ;;
     fun w =>
       let '(c, w') :=
         processBatches db eng table columnMapping onProgress totalRecords
           batches zeroCounters w in
       (Ok {| successCount := cSuccess c;
              failedCount := cFailed c;
              duration := endTime - startTime |}, w'))%eff.

(** [processImport] on a file that may change while it runs. The function
    reads the file twice, in [getRowCount] and then in [streamExcelRows]:
    [fsCount] is the file system as the first read finds it, [fsStream] as
    the second does. With [fsCount = fsStream] this is [processImport]. *)
Definition processImportAt (db : DbClient) (eng : Js.Engine)
  (fsCount fsStream : FileSystem) (startTime endTime : Z)
  (filePath table : string) (sheet : option string)
  (columnMapping : option (gmap string string)) (skipRows : nat)
  (onProgress : option (JobProgress -> Js.result unit)) : M ImportResult :=
  (tableExists <- DataRepository.tableExists db table ;;
   if negb tableExists then Eff.throw (JsError (missingTable table))
   else
     totalRecords <-
       Eff.lift (ExcelService.getRowCount fsCount filePath sheet skipRows) ;;
     batches <-
       Eff.lift (ExcelService.streamExcelRows eng fsStream filePath sheet skipRows) ;;
     fun w =>
       let '(c, w') :=
         processBatches db eng table columnMapping onProgress totalRecords
           batches zeroCounters w in
       (Ok {| successCount := cSuccess c;
              failedCount := cFailed c;
              duration := endTime - startTime |}, w'))%eff.

(** [validateImport]. *)
Definition validateImport (db : DbClient) (eng : Js.Engine) (fs : FileSystem)
  (filePath table : string) (sheet : option string) (skipRows : nat)
  : M ImportValidation :=
  Eff.tryCatch
    (tableExists <- DataRepository.tableExists db table ;;
     let errors0 := if negb tableExists then [missingTable table] else [] in
     requiredColumns <-
       (if tableExists then DataRepository.getTableColumns db table
        else Eff.ret []) ;;
     let validation :=
       ExcelService.validateExcel eng fs filePath requiredColumns sheet skipRows in
     let errors1 :=
       if negb (isValid validation)
       then errors0 ++ map message (errors validation)
       else errors0 in
     Eff.ret {| importValid := (length errors1 =? 0)%nat;
                importErrors := errors1;
                importRowCount := validRowCount validation |})%eff
    (fun error =>
       Eff.ret {| importValid := false;
                  importErrors := ["Validation error: " +:+ Js.messageOf error];
                  importRowCount := 0 |}).

End ImportService.

(* ===================================================================== *)
(** * Sample inputs                                                        *)
(* ===================================================================== *)

Module Samples.

(** An engine for the samples; none of them prints a number or a date. *)
Definition engine : Js.Engine :=
  {| numberToString := fun _ => "0";
     dateToString := fun _ => "Thu Jan 01 1970";
     dateParses := DataRepository.datePattern |}.

(** A database that answers every call: the table exists and has the
    columns [columns]. *)
Definition healthyDb (columns : list string) : DbClient :=
  {| tableCountReply := fun _ _ => Ok [1];
     columnsReply := fun _ _ => Ok columns;
     bulkReply := fun _ _ => Ok tt;
     beginReply := fun _ => Ok tt;
     queryReply := fun _ _ _ => Ok tt;
     commitReply := fun _ => Ok tt;
     rollbackReply := fun _ => Ok tt |}.

(** A sheet [Data] with the header [Name] in row 1 and [n] rows below it,
    each holding the number 1. *)
Definition sheetOf (n : nat) : Worksheet :=
  {| sheetName := "Data";
     sheetRows := [CString "Name"] :: repeat [CNumber (Js.ofZ 1)] n |}.

Definition fileOf (n : nat) : FileSystem := fun _ => Ok [sheetOf n].

Definition person (name : string) : ImportRecord := [("Name", VString name)].

(** A batch of 500 records for an integer column [Qty]; record 250 holds
    text instead. *)
Definition quantity (v : Js.value) : ImportRecord := [("Qty", v)].

Definition batchWithBadRow : list ImportRecord :=
  repeat (quantity (VNumber (Js.ofZ 1))) 249
  ++ [quantity (VString "abc")]
  ++ repeat (quantity (VNumber (Js.ofZ 1))) 250.

Definition conversionError : Js.exn :=
  JsError "Conversion failed when converting the nvarchar value 'abc' to data type int.".

Definition isIntParam (p : Param) : bool :=
  match paramType p with Int => true | _ => false end.

(** A database whose table has integer columns only: a statement is
    refused when one of its parameters is not an integer. *)
Definition intColumnsDb : DbClient :=
  {| tableCountReply := fun _ _ => Ok [1];
     columnsReply := fun _ _ => Ok ["Qty"];
     bulkReply := fun _ _ => Ok tt;
     beginReply := fun _ => Ok tt;
     queryReply := fun _ _ params =>
       if forallb isIntParam params then Ok tt else Throw conversionError;
     commitReply := fun _ => Ok tt;
     rollbackReply := fun _ => Ok tt |}.

(** A database that cannot be reached: every call throws. *)
Definition connectionError : Js.exn :=
  JsError "Failed to connect to localhost:1433 - Could not connect (sequence)".

Definition unreachableDb : DbClient :=
  {| tableCountReply := fun _ _ => Throw connectionError;
     columnsReply := fun _ _ => Throw connectionError;
     bulkReply := fun _ _ => Throw connectionError;
     beginReply := fun _ => Throw connectionError;
     queryReply := fun _ _ _ => Throw connectionError;
     commitReply := fun _ => Throw connectionError;
     rollbackReply := fun _ => Throw connectionError |}.

(** A sheet whose only row below the header has its text in column 2,
    a column without a header. *)
Definition strayCellSheet : Worksheet :=
  {| sheetName := "Data";
     sheetRows := [ [CString "Name"]; [CNull; CString "x"] ] |}.

(** The record read from a row of [sheetOf]. *)
Definition one : ImportRecord := [("Name", VNumber (Js.ofZ 1))].

(** A database whose first bulk operation is refused and whose later
    ones succeed. *)
Definition deadlock : Js.exn :=
  JsError "Transaction was deadlocked on lock resources with another process".

Definition firstBulkFailsDb : DbClient :=
  {| tableCountReply := fun _ _ => Ok [1];
     columnsReply := fun _ _ => Ok ["Name"];
     bulkReply := fun h _ => if existsb isBulk h then Ok tt else Throw deadlock;
     beginReply := fun _ => Ok tt;
     queryReply := fun _ _ _ => Ok tt;
     commitReply := fun _ => Ok tt;
     rollbackReply := fun _ => Ok tt |}.

(** A progress callback that never throws. *)
Definition quietCallback : option (JobProgress -> Js.result unit) :=
  Some (fun _ => Ok tt).

End Samples.

(* ===================================================================== *)
(** * Vocabulary of the specification                                      *)
(* ===================================================================== *)

Module Spec.

(** ** Type inference *)

(** The words "starts with an ISO-like date pattern (YYYY-MM-DD)": four
    digits, a dash, two digits, a dash, two digits, then anything. *)
Definition allDigits (s : string) : Prop :=
  Forall (fun c => Js.isDigit c = true) (list_ascii_of_string s).

Definition IsoDatePrefix (s : string) : Prop :=
  exists y m d rest : string,
    s = y +:+ "-" +:+ m +:+ "-" +:+ d +:+ rest
    /\ String.length y = 4%nat /\ String.length m = 2%nat
    /\ String.length d = 2%nat
    /\ allDigits y /\ allDigits m /\ allDigits d.

(** ** Per-row insertion *)

(** The replies of the database to the statements of the rows of a batch,
    in turn, the first one given after the calls [h]. *)
Fixpoint rowReplies (db : DbClient) (eng : Js.Engine) (statement : string)
  (columns : list string) (records : list ImportRecord) (h : History)
  : list (Js.result unit) :=
  match records with
  | [] => []
  | record :: rest =>
      let params := DataRepository.rowParams eng columns record in
      queryReply db h statement params
      :: rowReplies db eng statement columns rest (h ++ [TxQuery statement params])
  end.

(** The statements issued for the rows of a batch. *)
Definition rowCalls (eng : Js.Engine) (statement : string)
  (columns : list string) (records : list ImportRecord) : list DbCall :=
  map (fun record => TxQuery statement (DataRepository.rowParams eng columns record))
    records.

(** The rows that succeeded. *)
Definition insertedCount (replies : list (Js.result unit)) : Z :=
  Z.of_nat (length (List.filter Js.isOk replies)).

(** The message recorded for a row that was refused: the [message] of the
    error thrown, or [Unknown error] for a thrown value that is no
    [Error]. *)
Definition recordedMessage (e : Js.exn) : string :=
  match e with
  | JsError message => message
  | JsThrown _ => "Unknown error"
  end.

(** One entry per row that failed: its number, counting from [i + 1], and
    the message of its error. *)
Fixpoint failedRows (replies : list (Js.result unit)) (i : Z) : list RowError :=
  match replies with
  | [] => []
  | Ok _ :: rest => failedRows rest (i + 1)
  | Throw e :: rest =>
      {| row := i + 1; error := recordedMessage e |}
      :: failedRows rest (i + 1)
  end.

(** The statement and the columns [bulkInsert] derives from a batch. *)
Definition columnsOf (records : list ImportRecord) : list string :=
  Record_.keys (hd [] records).

Definition statementOf (table : string) (records : list ImportRecord)
  (columnMapping : option (gmap string string)) : string :=
  DataRepository.insertStatement table
    (map (DataRepository.mapColumn columnMapping) (columnsOf records)).

(** ** Rows and batches *)

(** The rows below the header row. *)
Definition dataRows (ws : Worksheet) (skipRows : nat) : list Row :=
  skipn (1 + skipRows) (sheetRows ws).

(** The headers resolved for a sheet. *)
Definition headersOf (eng : Js.Engine) (ws : Worksheet) (skipRows : nat)
  : list (option string) :=
  ExcelService.readHeaders eng (fst (getRow ws (1 + skipRows))).

(** The record made from a row. *)
Definition recordOf (eng : Js.Engine) (headers : list (option string)) (r : Row)
  : ImportRecord :=
  fst (ExcelService.readRow eng headers r).

(** "A non-null, non-empty value": any value but [null] and the empty
    string. *)
Definition isNull (v : Js.value) : bool :=
  match v with VNull => true | _ => false end.

Definition isEmptyString (v : Js.value) : bool :=
  match v with VString s => (String.length s =? 0)%nat | _ => false end.

Definition nonBlank (v : Js.value) : bool :=
  negb (isNull v) && negb (isEmptyString v).

(** "At least one of its cells coerces to a non-null, non-empty value". *)
Definition hasNonBlankCell (eng : Js.Engine) (r : Row) : bool :=
  existsb (fun c => nonBlank (ExcelService.getCellValue eng c)) r.

(** At least one cell in a column with a non-blank header coerces to a
    non-null, non-empty value. *)
Definition underHeader (eng : Js.Engine) (headers : list (option string))
  (nc : nat * CellValue) : bool :=
  match ExcelService.headerAt headers (fst nc) with
  | Some header =>
      Js.truthy header
      && nonBlank (ExcelService.getCellValue eng (snd nc))
  | None => false
  end.

Definition hasDataUnderHeader (eng : Js.Engine) (headers : list (option string))
  (r : Row) : bool :=
  existsb (underHeader eng headers) (Excel.numbered r).

(** Batches of exactly [n] records, except possibly a smaller last one;
    none is empty. *)
Definition batchesOf (n : nat) (batches : list (list ImportRecord)) : Prop :=
  Forall (fun b => length b = n) (removelast batches)
  /\ Forall (fun b => (0 < length b <= n)%nat) batches.

(** The error that reports a file without data rows. *)
Definition noDataRows : ValidationError :=
  {| field := "rows"; message := "Excel file contains no data rows" |}.

(** ** Progress *)

(** A sequence of numbers that never decreases and starts at [lo] or
    above. *)
Fixpoint nondecreasingFrom (lo : Z) (l : list Z) : Prop :=
  match l with
  | [] => True
  | x :: rest => lo <= x /\ nondecreasingFrom x rest
  end.

(** The number of records in a sequence of batches. *)
Definition recordCount (batches : list (list ImportRecord)) : Z :=
  Z.of_nat (length (concat batches)).

End Spec.

(* ===================================================================== *)
(** * [config/database.config.ts]                                          *)
(* ===================================================================== *)

(** A connection pool of the driver: [connected] is the flag the driver
    keeps, [poolId] tells two pools apart. *)
Record ConnectionPool : Type := {
  poolId : nat;
  connected : bool
}.

Module DatabaseConnection.

(** The field [pool] of the one instance: [null] or a pool. *)
Definition State : Type := option ConnectionPool.

Definition initial : State := None.

Definition notInitialized : Js.exn :=
  JsError "Database pool not initialized. Call connect() first.".

(** [new sql.ConnectionPool(dbConfig).connect()] answers [dial]; a failure
    is logged and thrown again, [this.pool] keeping its value. *)
Definition connectNew (dial : Js.result ConnectionPool) (st : State)
  : Js.result ConnectionPool * State :=
  match dial with
  | Ok p => (Ok p, Some p)
  | Throw e => (Throw e, st)
  end.

(** [connect]. *)
Definition connect (dial : Js.result ConnectionPool) (st : State)
  : Js.result ConnectionPool * State :=
  match st with
  | Some p => if connected p then (Ok p, st) else connectNew dial st
  | None => connectNew dial st
  end.

(** [getPool]. *)
Definition getPool (st : State) : Js.result ConnectionPool :=
  match st with
  | Some p => if connected p then Ok p else Throw notInitialized
  | None => Throw notInitialized
  end.

(** [close]; [pool.close()] answers [closed]. *)
Definition close (closed : Js.result unit) (st : State) : Js.result unit * State :=
  match st with
  | Some _ =>
      match closed with
      | Ok _ => (Ok tt, None)
      | Throw e => (Throw e, st)
      end
  | None => (Ok tt, st)
  end.

(** [value === 1]. *)
Definition isOne (v : Js.value) : bool :=
  match v with
  | VNumber x => SFeqb x (Js.ofZ 1)
  | _ => false
  end.

(** [healthCheck]; the query [SELECT 1 AS health] answers [reply], the
    rows of its [recordset]. Reading [health] of a missing first row
    throws, which the [catch] turns into [false]. *)
Definition healthCheck (reply : Js.result (list ImportRecord)) (st : State)
  : bool :=
  match getPool st with
  | Throw _ => false
  | Ok _ =>
      match reply with
      | Ok (first :: _) => isOne (Record_.get first "health")
      | Ok [] => false
      | Throw _ => false
      end
  end.

End DatabaseConnection.

(* ===================================================================== *)
(** * The repository behind its pool lookup                                *)
(* ===================================================================== *)

(** Every method of [DataRepository] opens with
    [const pool = this.db.getPool()], before its [try]: an error of the
    lookup leaves the method whatever its [catch] does. Module
    [DataRepository] above is the repository over a connected pool. *)

(** The methods of the repository the import service calls. *)
Record Repository : Type := {
  repoTableExists : string -> M bool;
  repoGetTableColumns : string -> M (list string);
  repoBulkInsertWithTVP :
    string -> list ImportRecord -> option (gmap string string)
    -> M BatchInsertResult
}.

Module Pooled.

(** [const pool = this.db.getPool()] followed by the rest of a method. *)
Definition withPool {A} (conn : DatabaseConnection.State) (body : M A) : M A :=
  match DatabaseConnection.getPool conn with
  | Ok _ => body
  | Throw e => Eff.throw e
  end.

Definition bulkInsert (conn : DatabaseConnection.State) (db : DbClient)
  (eng : Js.Engine) (table : string) (records : list ImportRecord)
  (columnMapping : option (gmap string string)) : M BatchInsertResult :=
  withPool conn (DataRepository.bulkInsert db eng table records columnMapping).

Definition bulkInsertWithTVP (conn : DatabaseConnection.State) (db : DbClient)
  (eng : Js.Engine) (table : string) (records : list ImportRecord)
  (columnMapping : option (gmap string string)) : M BatchInsertResult :=
  withPool conn
    (DataRepository.bulkInsertWithTVP db eng table records columnMapping).

Definition tableExists (conn : DatabaseConnection.State) (db : DbClient)
  (table : string) : M bool :=
  withPool conn (DataRepository.tableExists db table).

Definition getTableColumns (conn : DatabaseConnection.State) (db : DbClient)
  (table : string) : M (list string) :=
  withPool conn (DataRepository.getTableColumns db table).

(** The repository as the service sees it, the connection being in state
    [conn] for the whole run. *)
Definition repository (conn : DatabaseConnection.State) (db : DbClient)
  (eng : Js.Engine) : Repository :=
  {| repoTableExists := tableExists conn db;
     repoGetTableColumns := getTableColumns conn db;
     repoBulkInsertWithTVP := bulkInsertWithTVP conn db eng |}.

End Pooled.

(** The repository over a connected pool. *)
Definition connectedRepository (db : DbClient) (eng : Js.Engine) : Repository :=
  {| repoTableExists := DataRepository.tableExists db;
     repoGetTableColumns := DataRepository.getTableColumns db;
     repoBulkInsertWithTVP := DataRepository.bulkInsertWithTVP db eng |}.

(** [services/import.service.ts] over any repository. *)
Module ImportOver.

Section Service.

Variable repo : Repository.
Variable eng : Js.Engine.
Variable fs : FileSystem.

Definition processBatch (table : string)
  (columnMapping : option (gmap string string))
  (onProgress : option (JobProgress -> Js.result unit))
  (totalRecords : Z) (c : ImportService.Counters) (batch : list ImportRecord)
  : World -> ImportService.Counters * World :=
  fun w =>
    match repoBulkInsertWithTVP repo table batch columnMapping w with
    | (Throw _, w1) =>
        (ImportService.addFailed c (ImportService.batchLength batch), w1)
    | (Ok result, w1) =>
        let c1 :=
          {| ImportService.cSuccess := ImportService.cSuccess c + inserted result;
             ImportService.cFailed := ImportService.cFailed c + batchFailed result;
             ImportService.cProcessed :=
               ImportService.cProcessed c + ImportService.batchLength batch |} in
        match onProgress with
        | None => (c1, w1)
        | Some callback =>
            match Eff.report callback (ImportService.progressOf totalRecords c1) w1 with
            | (Ok _, w2) => (c1, w2)
            | (Throw _, w2) =>
                (ImportService.addFailed c1 (ImportService.batchLength batch), w2)
            end
        end
    end.

Fixpoint processBatches (table : string)
  (columnMapping : option (gmap string string))
  (onProgress : option (JobProgress -> Js.result unit))
  (totalRecords : Z) (batches : list (list ImportRecord))
  (c : ImportService.Counters) : World -> ImportService.Counters * World :=
  fun w =>
    match batches with
    | [] => (c, w)
    | batch :: rest =>
        let '(c', w') :=
          processBatch table columnMapping onProgress totalRecords c batch w in
        processBatches table columnMapping onProgress totalRecords rest c' w'
    end.

(** [processImport]. *)
Definition processImport (startTime endTime : Z) (filePath table : string)
  (sheet : option string) (columnMapping : option (gmap string string))
  (skipRows : nat) (onProgress : option (JobProgress -> Js.result unit))
  : M ImportResult :=
  (tableExists <- repoTableExists repo table ;;
   if negb tableExists
   then Eff.throw (JsError (ImportService.missingTable table))
   else
     totalRecords <- Eff.lift (ExcelService.getRowCount fs filePath sheet skipRows) ;;
     batches <- Eff.lift (ExcelService.streamExcelRows eng fs filePath sheet skipRows) ;;
     fun w =>
       let '(c, w') :=
         processBatches table columnMapping onProgress totalRecords batches
           ImportService.zeroCounters w in
       (Ok {| successCount := ImportService.cSuccess c;
              failedCount := ImportService.cFailed c;
              duration := endTime - startTime |}, w'))%eff.

(** [validateImport]. *)
Definition validateImport (filePath table : string) (sheet : option string)
  (skipRows : nat) : M ImportValidation :=
  Eff.tryCatch
    (tableExists <- repoTableExists repo table ;;
     let errors0 :=
       if negb tableExists then [ImportService.missingTable table] else [] in
     requiredColumns <-
       (if tableExists then repoGetTableColumns repo table else Eff.ret []) ;;
     let validation :=
       ExcelService.validateExcel eng fs filePath requiredColumns sheet skipRows in
     let errors1 :=
       if negb (isValid validation)
       then errors0 ++ map message (errors validation)
       else errors0 in
     Eff.ret {| importValid := (length errors1 =? 0)%nat;
                importErrors := errors1;
                importRowCount := validRowCount validation |})%eff
    (fun error =>
       Eff.ret {| importValid := false;
                  importErrors := ["Validation error: " +:+ Js.messageOf error];
                  importRowCount := 0 |}).

End Service.

End ImportOver.

(* ===================================================================== *)
(** * The upload directory ([node:fs])                                     *)
(* ===================================================================== *)

Module Fs.

(** The files of the upload directory: what reading each of them as a
    workbook gives, and the paths the system refuses to unlink. *)
Record Disk : Type := {
  files : gmap string (Js.result Workbook);
  locked : gset string
}.

(** [fs.existsSync]. *)
Definition existsSync (d : Disk) (path : string) : bool :=
  match files d !! path with
  | Some _ => true
  | None => false
  end.

(** [fs.unlinkSync]. *)
Definition unlinkSync (d : Disk) (path : string) : Js.result unit * Disk :=
  match files d !! path with
  | None =>
      (Throw (JsError ("ENOENT: no such file or directory, unlink '" +:+ path +:+ "'")),
       d)
  | Some _ =>
      if bool_decide (elem_of path (locked d))
      then (Throw (JsError ("EPERM: operation not permitted, unlink '" +:+ path +:+ "'")),
            d)
      else (Ok tt, {| files := delete path (files d); locked := locked d |})
  end.

(** [workbook.xlsx.readFile]: the reader reports a missing file. *)
Definition readFile (d : Disk) : FileSystem :=
  fun path =>
    match files d !! path with
    | Some content => content
    | None => Throw (JsError ("File not found: " +:+ path))
    end.

End Fs.

(* ===================================================================== *)
(** * [validators/upload.validator.ts], [middleware/upload.middleware.ts]  *)
(* ===================================================================== *)

Module Upload.

(** [Express.Multer.File], the fields the service reads. *)
Record MulterFile : Type := {
  originalname : string;
  mimetype : string;
  path : string;
  size : Z
}.

Record FileValidation : Type := {
  isValid : bool;
  error : option string
}.

Definition allowedMimeTypes : list string :=
  [ "application/vnd.openxmlformats-officedocument.spreadsheetml.sheet";
    "application/vnd.ms-excel" ].

(** [Array.prototype.includes] for strings. *)
Definition includes (l : list string) (s : string) : bool :=
  existsb (String.eqb s) l.

(** [String.prototype.endsWith]. *)
Definition endsWith (s suffix : string) : bool :=
  (String.length suffix <=? String.length s)%nat
  && String.eqb
       (substring (String.length s - String.length suffix)
          (String.length suffix) s)
       suffix.

(** [validateFile]; [None] is a missing file. *)
Definition validateFile (file : option MulterFile) : FileValidation :=
  match file with
  | None => {| isValid := false; error := Some "No file uploaded" |}
  | Some file =>
      if negb (includes allowedMimeTypes (mimetype file))
      then {| isValid := false;
              error := Some "Invalid file type. Only .xlsx files are allowed" |}
      else if negb (endsWith (originalname file) ".xlsx")
      then {| isValid := false;
              error := Some "Invalid file extension. Only .xlsx files are allowed" |}
      else {| isValid := true; error := None |}
  end.

(** [fileFilter]: what it hands to its callback, [cb(null, true)] or
    [cb(error)]. *)
Definition fileFilter (file : MulterFile) : Js.result bool :=
  if includes allowedMimeTypes (mimetype file)
     && endsWith (originalname file) ".xlsx"
  then Ok true
  else Throw (JsError "Invalid file type. Only .xlsx files are allowed").

(** [cleanupFile]: an error of the removal is printed and dropped. *)
Definition cleanupFile (d : Fs.Disk) (filePath : string) : Fs.Disk :=
  if Fs.existsSync d filePath
  then match Fs.unlinkSync d filePath with
       | (Ok _, d') => d'
       | (Throw _, d') => d'
       end
  else d.

End Upload.

(* ===================================================================== *)
(** * [workers/import.worker.ts]                                           *)
(* ===================================================================== *)

Module ImportWorker.

(** [JobData], the fields the upload sets and those the worker could
    read. *)
Record JobData : Type := {
  jobId : string;
  fileName : string;
  filePath : string;
  totalRecords : Z;
  correlationId : string;
  tableName : string;
  sheetName : option string;
  columnMapping : option (gmap string string);
  skipRows : option nat
}.

Definition fileNotFound (path : string) : Js.exn :=
  JsError ("File not found: " +:+ path).

(** The callback given to [processImport]: it calls [job.updateProgress],
    which it does not await, and logs; it returns in every case. The
    updates it receives are those recorded in the [World]. *)
Definition onProgress : JobProgress -> Js.result unit := fun _ => Ok tt.

(** [processJob]: the [catch] logs and throws again, the [finally]
    removes the file. *)
Definition processJob (repo : Repository) (eng : Js.Engine)
  (startTime endTime : Z) (job : JobData) (w : World) (d : Fs.Disk)
  : Js.result ImportResult * World * Fs.Disk :=
  let '(outcome, w') :=
    if negb (Fs.existsSync d (filePath job))
    then (Throw (fileNotFound (filePath job)), w)
    else ImportOver.processImport repo eng (Fs.readFile d) startTime endTime
           (filePath job) (tableName job) None (columnMapping job) 0
           (Some onProgress) w in
  (outcome, w', Upload.cleanupFile d (filePath job)).

End ImportWorker.

(* ===================================================================== *)
(** * [services/job.service.ts]: adding a job                              *)
(* ===================================================================== *)

Module JobService.

(** The jobs the queue holds, oldest first. *)
Definition Queue : Type := list ImportWorker.JobData.

(** [queue.add]: the queue answers with the id of the job it stored, or
    refuses and stores nothing. *)
Definition QueueClient : Type :=
  Queue -> ImportWorker.JobData -> Js.result (option string).

(** [addJob]: its [catch] logs and throws again. *)
Definition addJob (client : QueueClient) (jobData : ImportWorker.JobData)
  (jobs : Queue) : Js.result string * Queue :=
  match client jobs jobData with
  | Throw e => (Throw e, jobs)
  | Ok id =>
      match id with
      | Some id' =>
          if Js.truthy id' then (Ok id', jobs ++ [jobData])
          else (Throw (JsError "Job ID is undefined"), jobs ++ [jobData])
      | None => (Throw (JsError "Job ID is undefined"), jobs ++ [jobData])
      end
  end.

(** [JobStatus]. *)
Inductive JobStatus : Type :=
| PENDING | PROCESSING | COMPLETED | FAILED | CANCELLED | PAUSED | DELAYED.

(** A job of the queue, as the service reads it: [state] is what
    [job.getState()] answers; [progress] is [None] while [job.progress]
    is the number 0 a job starts with; [returnvalue] is [None] for
    [null]. *)
Record Job : Type := {
  id : option string;
  state : string;
  progress : option JobProgress;
  processedOn : option Z;
  finishedOn : option Z;
  returnvalue : option ImportResult;
  failedReason : option string
}.

(** [JobResult], the fields the service sets. *)
Record JobResult : Type := {
  jobId : string;
  status : JobStatus;
  resultProgress : JobProgress;
  startedAt : option Z;
  completedAt : option Z;
  error : option string;
  result : option ImportResult
}.

(** What the queue answers: [getJob], the four listings, and whether it
    can be reached at all, every call throwing when it cannot. *)
Record Broker : Type := {
  reachable : bool;
  getJob : string -> option Job;
  getWaiting : list Job;
  getActive : list Job;
  getCompleted : list Job;
  getFailed : list Job
}.

(** [t ? new Date(t) : undefined] for a time stamp. *)
Definition dateOf (t : option Z) : option Z :=
  match t with
  | Some ms => if ms =? 0 then None else Some ms
  | None => None
  end.

Definition noProgress : JobProgress :=
  {| total := 0; processed := 0; failed := 0; percentage := Js.ofZ 0 |}.

(** [getJobStatus]: [None] is [null]. *)
Definition getJobStatus (broker : Broker) (jobId : string) : option JobResult :=
  if negb (reachable broker) then None
  else
    match getJob broker jobId with
    | None => None
    | Some job =>
        match id job with
        | None => None
        | Some jobId' =>
            if negb (Js.truthy jobId') then None
            else
              let status :=
                if String.eqb (state job) "active" then PROCESSING
                else if String.eqb (state job) "completed" then COMPLETED
                else if String.eqb (state job) "failed" then FAILED
                else PENDING in
              Some {| jobId := jobId';
                      status := status;
                      resultProgress :=
                        match progress job with
                        | Some p => p
                        | None => noProgress
                        end;
                      startedAt := dateOf (processedOn job);
                      completedAt := dateOf (finishedOn job);
                      error :=
                        if String.eqb (state job) "failed"
                        then match failedReason job with
                             | Some reason =>
                                 if Js.truthy reason then Some reason else None
                             | None => None
                             end
                        else None;
                      result :=
                        if String.eqb (state job) "completed"
                        then returnvalue job
                        else None |}
        end
    end.

(** The filter of [getAllJobs]. *)
Inductive StatusFilter : Type :=
| OnlyPending | OnlyActive | OnlyCompleted | OnlyFailed.

(** The jobs [getAllJobs] asks the queue for. *)
Definition listed (broker : Broker) (filter : option StatusFilter) : list Job :=
  match filter with
  | Some OnlyPending => getWaiting broker
  | Some OnlyActive => getActive broker
  | Some OnlyCompleted => getCompleted broker
  | Some OnlyFailed => getFailed broker
  | None =>
      getWaiting broker ++ getActive broker ++ getCompleted broker
      ++ getFailed broker
  end.

(** The callback of [jobs.map] in [getAllJobs], for a job with an id. *)
Definition describe (jobId' : string) (job : Job) : JobResult :=
  let jobStatus :=
    if String.eqb (state job) "active" then PROCESSING
    else if String.eqb (state job) "completed" then COMPLETED
    else if String.eqb (state job) "failed" then FAILED
    else PENDING in
  {| jobId := jobId';
     status := jobStatus;
     resultProgress :=
       match progress job with
       | Some p => p
       | None => noProgress
       end;
     startedAt := dateOf (processedOn job);
     completedAt := dateOf (finishedOn job);
     error :=
       if String.eqb (state job) "failed"
       then match failedReason job with
            | Some reason => if Js.truthy reason then Some reason else None
            | None => None
            end
       else None;
     result :=
       if String.eqb (state job) "completed" then returnvalue job else None |}.

(** [getAllJobs]: the jobs without id are filtered out; an unreachable
    queue gives the empty list. *)
Definition getAllJobs (broker : Broker) (filter : option StatusFilter)
  : list JobResult :=
  if negb (reachable broker) then []
  else
    omap (fun job =>
            match id job with
            | Some jobId' => Some (describe jobId' job)
            | None => None
            end)
      (listed broker filter).

End JobService.

(* ===================================================================== *)
(** * [utils/response.util.ts], [controllers/upload.controller.ts]         *)
(* ===================================================================== *)

Module UploadController.

(** The [data] of a success response. *)
Inductive Payload : Type :=
| Validated (rowCount : Z)
| Queued (jobId fileName : string) (totalRecords : Z).

(** What [res.status(statusCode).json(response)] sends; the time stamp is
    left out. *)
Record Response : Type := {
  statusCode : Z;
  success : bool;
  data : option Payload;
  error : option string;
  responseId : string
}.

(** [sendSuccess]. *)
Definition sendSuccess (payload : Payload) (correlationId : string)
  (status : Z) : Response :=
  {| statusCode := status;
     success := true;
     data := Some payload;
     error := None;
     responseId := correlationId |}.

(** [sendError]. *)
Definition sendError (message : string) (correlationId : string) (status : Z)
  : Response :=
  {| statusCode := status;
     success := false;
     data := None;
     error := Some message;
     responseId := correlationId |}.

(** The body of a request as the validation middleware leaves it:
    [skipRows] is the number [Number.parseInt(skipRows || '0')] returns,
    [validateOnly] is whether the field is [true] or ['true'], and
    [columnMapping] is the field as received, if any. *)
Record Body : Type := {
  tableName : string;
  sheetName : option string;
  columnMapping : option string;
  skipRows : nat;
  validateOnly : bool
}.

(** A request: [req.file], [req.body] and [getCorrelationId(req)]. *)
Record Request : Type := {
  file : option Upload.MulterFile;
  body : Body;
  correlationId : string
}.

(** What the controller calls outside the service: [uuidv4()],
    [JSON.parse] and the queue. *)
Record Env : Type := {
  uuidv4 : string;
  jsonParse : string -> Js.result (gmap string string);
  queueClient : JobService.QueueClient
}.

(** What a request acts on: the database calls, the upload directory and
    the queue. *)
Record State : Type := {
  world : World;
  disk : Fs.Disk;
  queue : JobService.Queue
}.

(** [error instanceof Error ? error.message : fallback]. *)
Definition messageOr (fallback : string) (e : Js.exn) : string :=
  match e with
  | JsError m => m
  | JsThrown _ => fallback
  end.

(** The answer to a validation: 200 with the row count, or 400 with the
    errors joined. *)
Definition validationResponse (validation : ImportValidation)
  (correlationId : string) : Response :=
  if importValid validation
  then sendSuccess (Validated (importRowCount validation)) correlationId 200
  else sendError ("Validation failed: " +:+ Js.join ", " (importErrors validation))
         correlationId 400.

Section Handlers.

Variable repo : Repository.
Variable eng : Js.Engine.
Variable env : Env.

(** The validation branch, shared by the two handlers in the source text:
    [validateImport], then [cleanupFile], then the answer. *)
Definition validateBranch (req : Request) (filePath : string) (st : State)
  : Js.result Response * State :=
  match ImportOver.validateImport repo eng (Fs.readFile (disk st)) filePath
          (tableName (body req)) (sheetName (body req)) (skipRows (body req))
          (world st) with
  | (Throw e, w') =>
      (Throw e, {| world := w'; disk := disk st; queue := queue st |})
  | (Ok validation, w') =>
      (Ok (validationResponse validation (correlationId req)),
       {| world := w';
          disk := Upload.cleanupFile (disk st) filePath;
          queue := queue st |})
  end.

(** The queueing branch of [uploadFile]. *)
Definition queueBranch (req : Request) (upload : Upload.MulterFile)
  (filePath : string) (st : State) : Js.result Response * State :=
  match ExcelService.getRowCount (Fs.readFile (disk st)) filePath
          (sheetName (body req)) (skipRows (body req)) with
  | Throw e => (Throw e, st)
  | Ok rowCount =>
      let jobId := uuidv4 env in
      match (match columnMapping (body req) with
             | Some raw => if Js.truthy raw
                           then match jsonParse env raw with
                                | Ok mapping => Ok (Some mapping)
                                | Throw e => Throw e
                                end
                           else Ok None
             | None => Ok None
             end) with
      | Throw e => (Throw e, st)
      | Ok mapping =>
          let jobData :=
            {| ImportWorker.jobId := jobId;
               ImportWorker.fileName := Upload.originalname upload;
               ImportWorker.filePath := filePath;
               ImportWorker.totalRecords := rowCount;
               ImportWorker.correlationId := correlationId req;
               ImportWorker.tableName := tableName (body req);
               ImportWorker.sheetName := None;
               ImportWorker.columnMapping := mapping;
               ImportWorker.skipRows := None |} in
          match JobService.addJob (queueClient env) jobData (queue st) with
          | (Throw e, jobs) =>
              (Throw e, {| world := world st; disk := disk st; queue := jobs |})
          | (Ok _, jobs) =>
              (Ok (sendSuccess
                     (Queued jobId (Upload.originalname upload) rowCount)
                     (correlationId req) 202),
               {| world := world st; disk := disk st; queue := jobs |})
          end
      end
  end.

(** The [catch] of a handler, [filePath] being set: the file is cleaned up
    and the error answered with 500. *)
Definition caught (fallback : string) (req : Request) (filePath : string)
  (r : Js.result Response * State) : Response * State :=
  match r with
  | (Ok response, st) => (response, st)
  | (Throw e, st) =>
      (sendError (messageOr fallback e) (correlationId req) 500,
       {| world := world st;
          disk := Upload.cleanupFile (disk st) filePath;
          queue := queue st |})
  end.

(** The opening of both handlers: a missing file, then [validateFile]. *)
Definition guarded (req : Request)
  (rest : Upload.MulterFile -> string -> State -> Response * State)
  (st : State) : Response * State :=
  match file req with
  | None => (sendError "No file uploaded" (correlationId req) 400, st)
  | Some upload =>
      let fileValidation := Upload.validateFile (Some upload) in
      if negb (Upload.isValid fileValidation)
      then (sendError
              (match Upload.error fileValidation with
               | Some message => message
               | None => "File validation failed"
               end)
              (correlationId req) 400,
            {| world := world st;
               disk := Upload.cleanupFile (disk st) (Upload.path upload);
               queue := queue st |})
      else rest upload (Upload.path upload) st
  end.

(** [uploadFile]. *)
Definition uploadFile (req : Request) (st : State) : Response * State :=
  guarded req
    (fun upload filePath st =>
       caught "Upload failed" req filePath
         (if validateOnly (body req)
          then validateBranch req filePath st
          else queueBranch req upload filePath st))
    st.

(** [validateFile], the handler. *)
Definition validateFile (req : Request) (st : State) : Response * State :=
  guarded req
    (fun _ filePath st =>
       caught "Validation failed" req filePath
         (validateBranch req filePath st))
    st.

End Handlers.

End UploadController.

(* ===================================================================== *)
(** * More sample inputs                                                   *)
(* ===================================================================== *)

Module Cases.

(** A sheet whose header [Name] stands in two columns, once with blanks
    around it, next to a blank header and the header [Age]. *)
Definition repeatedHeaderSheet : Worksheet :=
  {| sheetName := "Data";
     sheetRows :=
       [ [CString " Name "; CString "Name"; CString "  "; CString "Age"];
         [CString "a"; CString "b"; CString "c"; CNumber (Js.ofZ 30)] ] |}.

Definition repeatedHeaderRecord : ImportRecord :=
  [("Name", VString "b"); ("Age", VNumber (Js.ofZ 30))].

(** A sheet with a blank header between [Name] and [Age], and five rows
    below: data, a value under the blank header only, an empty string, no
    value at all, data. *)
Definition mixedSheet : Worksheet :=
  {| sheetName := "Data";
     sheetRows :=
       [ [CString "Name"; CString "  "; CString "Age"];
         [CString "Ada"; CString "x"; CNumber (Js.ofZ 36)];
         [CNull; CString "stray"; CNull];
         [CString ""; CNull; CNull];
         [CNull; CNull; CNull];
         [CString "Grace"] ] |}.

(** A sheet whose header row holds blanks only, above a row of data. *)
Definition blankHeaderSheet : Worksheet :=
  {| sheetName := "Data";
     sheetRows := [ [CString "  "; CNull]; [CString "x"; CNumber (Js.ofZ 1)] ] |}.

(** A database whose table exists and whose columns cannot be listed. *)
Definition permissionOnColumns : Js.exn :=
  JsError "The SELECT permission was denied on the object 'COLUMNS'.".

Definition hiddenColumnsDb : DbClient :=
  {| tableCountReply := fun _ _ => Ok [1];
     columnsReply := fun _ _ => Throw permissionOnColumns;
     bulkReply := fun _ _ => Ok tt;
     beginReply := fun _ => Ok tt;
     queryReply := fun _ _ _ => Ok tt;
     commitReply := fun _ => Ok tt;
     rollbackReply := fun _ => Ok tt |}.

(** A database whose table exists and refuses every bulk operation. *)
Definition permissionDenied : Js.exn :=
  JsError "The INSERT permission was denied on the object 'People'.".

Definition readOnlyDb : DbClient :=
  {| tableCountReply := fun _ _ => Ok [1];
     columnsReply := fun _ _ => Ok ["Name"];
     bulkReply := fun _ _ => Throw permissionDenied;
     beginReply := fun _ => Ok tt;
     queryReply := fun _ _ _ => Throw permissionDenied;
     commitReply := fun _ => Ok tt;
     rollbackReply := fun _ => Ok tt |}.


(** An upload directory that holds one file, a sheet of three rows under
    its header, and a job for it. *)
Definition uploaded : string := "/tmp/uploads/7f9c-1730600000000.xlsx".

Definition oneUpload : Fs.Disk :=
  {| Fs.files := {[ uploaded := Ok [Samples.sheetOf 3] ]};
     Fs.locked := empty |}.

Definition importPeople : ImportWorker.JobData :=
  {| ImportWorker.jobId := "7f9c";
     ImportWorker.fileName := "people.xlsx";
     ImportWorker.filePath := uploaded;
     ImportWorker.totalRecords := 3;
     ImportWorker.correlationId := "unknown";
     ImportWorker.tableName := "People";
     ImportWorker.sheetName := None;
     ImportWorker.columnMapping := None;
     ImportWorker.skipRows := None |}.

(** A request to import [uploaded] into [People], one row skipped, and one
    to validate it only. *)
Definition spreadsheet : Upload.MulterFile :=
  {| Upload.originalname := "people.xlsx";
     Upload.mimetype :=
       "application/vnd.openxmlformats-officedocument.spreadsheetml.sheet";
     Upload.path := uploaded;
     Upload.size := 9216 |}.

Definition importRequest : UploadController.Request :=
  {| UploadController.file := Some spreadsheet;
     UploadController.body :=
       {| UploadController.tableName := "People";
          UploadController.sheetName := None;
          UploadController.columnMapping := None;
          UploadController.skipRows := 1;
          UploadController.validateOnly := false |};
     UploadController.correlationId := "unknown" |}.

Definition validateRequest : UploadController.Request :=
  {| UploadController.file := Some spreadsheet;
     UploadController.body :=
       {| UploadController.tableName := "People";
          UploadController.sheetName := None;
          UploadController.columnMapping := None;
          UploadController.skipRows := 1;
          UploadController.validateOnly := true |};
     UploadController.correlationId := "unknown" |}.

(** A queue that stores every job under the id it comes with. *)
Definition calm : UploadController.Env :=
  {| UploadController.uuidv4 := "7f9c";
     UploadController.jsonParse :=
       fun _ => Throw (JsError "Unexpected token o in JSON at position 1");
     UploadController.queueClient :=
       fun _ jobData => Ok (Some (ImportWorker.jobId jobData)) |}.

(** A queue that stores every job and returns it without an id. *)
Definition forgetful : UploadController.Env :=
  {| UploadController.uuidv4 := "7f9c";
     UploadController.jsonParse :=
       fun _ => Throw (JsError "Unexpected token o in JSON at position 1");
     UploadController.queueClient := fun _ _ => Ok None |}.

Definition fresh : UploadController.State :=
  {| UploadController.world := emptyWorld;
     UploadController.disk := oneUpload;
     UploadController.queue := [] |}.

(** A callback that returns on every update. *)
Definition quiet : JobProgress -> Js.result unit := fun _ => Ok tt.

(** A progress callback that throws on every update. *)
Definition brokenCallback : option (JobProgress -> Js.result unit) :=
  Some (fun _ => Throw (JsError "Missing lock for job 42. updateProgress")).

End Cases.

(* ===================================================================== *)
(** * Further vocabulary                                                   *)
(* ===================================================================== *)

Module Terms.

(** No progress callback, or one that returns on every update. *)
Definition neverThrows (onProgress : option (JobProgress -> Js.result unit))
  : Prop :=
  match onProgress with
  | None => True
  | Some callback => forall p, Js.isOk (callback p) = true
  end.

(** A progress callback that throws on every update. *)
Definition alwaysThrows (onProgress : option (JobProgress -> Js.result unit))
  : Prop :=
  exists callback,
    onProgress = Some callback /\ forall p, Js.isOk (callback p) = false.

(** The number of records read once each batch is done, [acc] having been
    read before the first. *)
Fixpoint runningTotals (acc : Z) (batches : list (list ImportRecord)) : list Z :=
  match batches with
  | [] => []
  | batch :: rest =>
      (acc + ImportService.batchLength batch)
      :: runningTotals (acc + ImportService.batchLength batch) rest
  end.

(** The update that reports [done] records of [totalRecords] and [bad]
    failures. *)
Definition update (totalRecords done bad : Z) : JobProgress :=
  {| total := totalRecords;
     processed := done;
     failed := bad;
     percentage := ImportService.percentageOf done totalRecords |}.

(** The updates a callback receives, none being sent without one. *)
Definition sentTo (onProgress : option (JobProgress -> Js.result unit))
  (l : list JobProgress) : list JobProgress :=
  match onProgress with
  | None => []
  | Some _ => l
  end.

(** The names of the properties every object inherits from
    [Object.prototype]. Reading such a name from a record or a mapping
    that has no property of its own by that name finds the inherited one,
    and assigning to [__proto__] creates no property: records and mappings
    with such keys are outside what [Record_] and [mapColumn] describe. *)
Definition inheritedKeys : list string :=
  [ "constructor"; "__defineGetter__"; "__defineSetter__"; "hasOwnProperty";
    "__lookupGetter__"; "__lookupSetter__"; "isPrototypeOf";
    "propertyIsEnumerable"; "toString"; "valueOf"; "__proto__";
    "toLocaleString" ].

(** No key of the records is the name of an inherited property. *)
Definition plainKeys (records : list ImportRecord) : bool :=
  forallb (fun record =>
             forallb (fun key => negb (existsb (String.eqb key) inheritedKeys))
               (map fst record))
    records.

(** [columnMapping ? JSON.parse(columnMapping) : undefined] for the
    mapping of a request. *)
Definition mappingOf (env : UploadController.Env) (req : UploadController.Request)
  : Js.result (option (gmap string string)) :=
  match UploadController.columnMapping (UploadController.body req) with
  | Some raw =>
      if Js.truthy raw
      then match UploadController.jsonParse env raw with
           | Ok mapping => Ok (Some mapping)
           | Throw e => Throw e
           end
      else Ok None
  | None => Ok None
  end.

(** The job an upload asks the queue to store. *)
Definition jobOf (env : UploadController.Env) (req : UploadController.Request)
  (upload : Upload.MulterFile) (rowCount : Z)
  (mapping : option (gmap string string)) : ImportWorker.JobData :=
  {| ImportWorker.jobId := UploadController.uuidv4 env;
     ImportWorker.fileName := Upload.originalname upload;
     ImportWorker.filePath := Upload.path upload;
     ImportWorker.totalRecords := rowCount;
     ImportWorker.correlationId := UploadController.correlationId req;
     ImportWorker.tableName :=
       UploadController.tableName (UploadController.body req);
     ImportWorker.sheetName := None;
     ImportWorker.columnMapping := mapping;
     ImportWorker.skipRows := None |}.

End Terms.

(* ===================================================================== *)
(** * Properties                                                           *)
(* ===================================================================== *)

Import ExcelService DataRepository ImportService.

(** ** Type inference *)

Lemma string_length_0 (s : string) : String.length s = 0%nat -> s = "".
Proof. destruct s; [reflexivity | discriminate]. Qed.

Lemma string_length_S (s : string) (n : nat) :
  String.length s = S n ->
  exists c rest, s = String c rest /\ String.length rest = n.
Proof.
  destruct s as [| c rest]; [discriminate |].
  intros H. injection H as H. eauto.
Qed.

Ltac split_string H :=
  let c := fresh "c" in
  let rest := fresh "rest" in
  let E := fresh "E" in
  apply string_length_S in H; destruct H as (c & rest & E & H); subst.

Lemma allDigits_cons (c : ascii) (s : string) :
  Spec.allDigits (String c s) <-> Js.isDigit c = true /\ Spec.allDigits s.
Proof.
  unfold Spec.allDigits; simpl. split.
  - intros H. inversion H; subst. auto.
  - intros [H1 H2]. constructor; assumption.
Qed.

Lemma datePattern_spec (s : string) :
  datePattern s = true <-> Spec.IsoDatePrefix s.
Proof.
  split.
  - intros H.
    destruct s as [| y1 [| y2 [| y3 [| y4 [| d1 [| m1 [| m2 [| d2 [| a1 [| a2 rest]]]]]]]]]];
      simpl in H; try discriminate.
    repeat match goal with
           | B : _ && _ = true |- _ => apply andb_prop in B; destruct B
           end.
    repeat match goal with
           | B : Ascii.eqb _ _ = true |- _ => apply Ascii.eqb_eq in B; subst
           end.
    exists (String y1 (String y2 (String y3 (String y4 ""))))%string,
           (String m1 (String m2 "")), (String a1 (String a2 "")), rest.
    repeat split; try reflexivity;
      repeat (apply allDigits_cons; split; try assumption); constructor.
  - intros (y & m & d & rest & -> & Hy & Hm & Hd & Dy & Dm & Dd).
    do 4 split_string Hy. apply string_length_0 in Hy. subst.
    do 2 split_string Hm. apply string_length_0 in Hm. subst.
    do 2 split_string Hd. apply string_length_0 in Hd. subst.
    repeat (apply allDigits_cons in Dy; destruct Dy as [? Dy]).
    repeat (apply allDigits_cons in Dm; destruct Dm as [? Dm]).
    repeat (apply allDigits_cons in Dd; destruct Dd as [? Dd]).
    cbv [String.append datePattern].
    repeat match goal with
           | B : Js.isDigit _ = true |- _ => rewrite B; clear B
           end.
    reflexivity.
Qed.

(** C7. [inferSqlType] maps null and undefined to NVarChar(MAX), an
    integral number to Int, any other number to Decimal(18,2), a boolean to
    Bit, a Date to DateTime, a string that starts with YYYY-MM-DD and parses
    as a date to DateTime, and any other string to NVarChar(255) up to 255
    characters, NVarChar(4000) from 256 to 4000, NVarChar(MAX) beyond. *)
Theorem inferSqlType_mapping (eng : Js.Engine) :
  inferSqlType eng VNull = NVarChar MAX
  /\ inferSqlType eng VUndefined = NVarChar MAX
  /\ (forall x, Js.isInteger x = true -> inferSqlType eng (VNumber x) = Int)
  /\ (forall x, Js.isInteger x = false ->
        inferSqlType eng (VNumber x) = Decimal 18 2)
  /\ (forall b, inferSqlType eng (VBool b) = Bit)
  /\ (forall ms, inferSqlType eng (VDate ms) = DateTime)
  /\ (forall s, Spec.IsoDatePrefix s -> dateParses eng s = true ->
        inferSqlType eng (VString s) = DateTime)
  /\ (forall s, ~ (Spec.IsoDatePrefix s /\ dateParses eng s = true) ->
        (stringLength s <= 255 ->
           inferSqlType eng (VString s) = NVarChar (Len 255))
        /\ (255 < stringLength s <= 4000 ->
           inferSqlType eng (VString s) = NVarChar (Len 4000))
        /\ (4000 < stringLength s ->
           inferSqlType eng (VString s) = NVarChar MAX)).
Proof.
  repeat split; try reflexivity.
  - intros x Hx. simpl. now rewrite Hx.
  - intros x Hx. simpl. now rewrite Hx.
  - intros s Hs Hp. apply datePattern_spec in Hs. simpl. now rewrite Hp, Hs.
  - intros Hlen. simpl.
    destruct (dateParses eng s && datePattern s) eqn:E.
    + apply andb_prop in E. destruct E as [E1 E2].
      apply datePattern_spec in E2. tauto.
    + destruct (Z.ltb_spec 4000 (stringLength s)); [lia |].
      destruct (Z.ltb_spec 255 (stringLength s)); [lia | reflexivity].
  - intros Hlen. simpl.
    destruct (dateParses eng s && datePattern s) eqn:E.
    + apply andb_prop in E. destruct E as [E1 E2].
      apply datePattern_spec in E2. tauto.
    + destruct (Z.ltb_spec 4000 (stringLength s)); [lia |].
      destruct (Z.ltb_spec 255 (stringLength s)); [reflexivity | lia].
  - intros Hlen. simpl.
    destruct (dateParses eng s && datePattern s) eqn:E.
    + apply andb_prop in E. destruct E as [E1 E2].
      apply datePattern_spec in E2. tauto.
    + destruct (Z.ltb_spec 4000 (stringLength s)); [reflexivity | lia].
Qed.

(** ** The two insertion strategies *)

Lemma call_fst {A} (c : DbCall) (reply : History -> Js.result A) (w : World) :
  fst (Eff.call c reply w) = reply (calls w).
Proof. reflexivity. Qed.

Lemma call_snd {A} (c : DbCall) (reply : History -> Js.result A) (w : World) :
  snd (Eff.call c reply w) = {| calls := calls w ++ [c]; updates := updates w |}.
Proof. reflexivity. Qed.

Lemma bulkInsertWithTVP_cons (db : DbClient) (eng : Js.Engine) (table : string)
  (sampleRecord : ImportRecord) (rest : list ImportRecord)
  (columnMapping : option (gmap string string)) (w : World) :
  bulkInsertWithTVP db eng table (sampleRecord :: rest) columnMapping w =
  let t := tvpTable eng table sampleRecord (sampleRecord :: rest) columnMapping in
  (match bulkReply db (calls w) t with
   | Ok _ => Ok {| inserted := Z.of_nat (length (sampleRecord :: rest));
                   batchFailed := 0;
                   batchErrors := [] |}
   | Throw e => Throw e
   end,
   {| calls := calls w ++ [Bulk t]; updates := updates w |}).
Proof.
  unfold bulkInsertWithTVP, Eff.bind, Eff.call, Eff.ret. cbv zeta.
  destruct (bulkReply db (calls w) _); reflexivity.
Qed.

(** C4. For a non-empty batch [bulkInsertWithTVP] is all-or-nothing: when
    it returns, it reports every record inserted, none failed and no error;
    when the bulk operation raises, so does it, with the same error. It
    issues exactly one bulk call. *)
Theorem bulkInsertWithTVP_all_or_nothing (db : DbClient) (eng : Js.Engine)
  (table : string) (records : list ImportRecord)
  (columnMapping : option (gmap string string)) (w : World) :
  records <> [] ->
  (forall r,
      fst (bulkInsertWithTVP db eng table records columnMapping w) = Ok r ->
      inserted r = Z.of_nat (length records)
      /\ batchFailed r = 0 /\ batchErrors r = [])
  /\ (forall e,
      bulkReply db (calls w)
        (tvpTable eng table (hd [] records) records columnMapping) = Throw e ->
      fst (bulkInsertWithTVP db eng table records columnMapping w) = Throw e)
  /\ (bulkReply db (calls w)
        (tvpTable eng table (hd [] records) records columnMapping) = Ok tt ->
      fst (bulkInsertWithTVP db eng table records columnMapping w) =
      Ok {| inserted := Z.of_nat (length records);
            batchFailed := 0;
            batchErrors := [] |})
  /\ calls (snd (bulkInsertWithTVP db eng table records columnMapping w)) =
     calls w ++ [Bulk (tvpTable eng table (hd [] records) records columnMapping)].
Proof.
  intros Hne. destruct records as [| sampleRecord rest]; [congruence |].
  rewrite bulkInsertWithTVP_cons. cbv zeta. cbn [hd fst snd calls].
  split; [| split; [| split]].
  - intros r E.
    destruct (bulkReply db (calls w) _); [| discriminate].
    injection E as <-. repeat split.
  - intros e ->. reflexivity.
  - intros ->. reflexivity.
  - reflexivity.
Qed.

Lemma bulkInsertWithTVP_all_or_nothing_witness :
  fst (bulkInsertWithTVP (Samples.healthyDb ["Name"]) Samples.engine "People"
         [Samples.person "Ada"; Samples.person "Grace"] None emptyWorld) =
  Ok {| inserted := 2; batchFailed := 0; batchErrors := [] |}.
Proof.
  apply (bulkInsertWithTVP_all_or_nothing (Samples.healthyDb ["Name"])
           Samples.engine "People"
           [Samples.person "Ada"; Samples.person "Grace"] None emptyWorld).
  - discriminate.
  - reflexivity.
Defined.

Lemma insertRows_spec (db : DbClient) (eng : Js.Engine) (statement : string)
  (columns : list string) (records : list ImportRecord) :
  forall (i n : Z) (errs : list RowError) (w : World),
    insertRows db eng statement columns records i n errs w =
    (Ok (n + Spec.insertedCount
               (Spec.rowReplies db eng statement columns records (calls w)),
         errs ++ Spec.failedRows
                   (Spec.rowReplies db eng statement columns records (calls w)) i),
     {| calls := calls w ++ Spec.rowCalls eng statement columns records;
        updates := updates w |}).
Proof.
  induction records as [| record rest IH]; intros i n errs w.
  - cbn. unfold Eff.ret, Spec.insertedCount. cbn.
    rewrite Z.add_0_r, !app_nil_r. destruct w; reflexivity.
  - cbn [insertRows Spec.rowReplies Spec.rowCalls map]. unfold Eff.call.
    destruct (queryReply db (calls w) statement
                (rowParams eng columns record)) as [u | e] eqn:E.
    + rewrite IH. cbn [calls updates Spec.failedRows].
      unfold Spec.insertedCount. cbn [List.filter Js.isOk length].
      rewrite <- app_assoc. cbn [app].
      do 2 f_equal. f_equal. unfold Spec.rowCalls. lia.
    + rewrite IH. cbn [calls updates Spec.failedRows].
      unfold Spec.insertedCount. cbn [List.filter Js.isOk length].
      rewrite <- !app_assoc. cbn [app]. reflexivity.
Qed.

Lemma rowReplies_length (db : DbClient) (eng : Js.Engine) (statement : string)
  (columns : list string) (records : list ImportRecord) :
  forall h, length (Spec.rowReplies db eng statement columns records h)
            = length records.
Proof.
  induction records as [| record rest IH]; intros h; cbn; [reflexivity |].
  now rewrite IH.
Qed.

Lemma inserted_plus_failed (replies : list (Js.result unit)) :
  forall i,
    Spec.insertedCount replies + Z.of_nat (length (Spec.failedRows replies i))
    = Z.of_nat (length replies).
Proof.
  unfold Spec.insertedCount.
  induction replies as [| [u | e] rest IH]; intros i; cbn [List.filter Js.isOk Spec.failedRows length].
  - reflexivity.
  - specialize (IH (i + 1)). lia.
  - specialize (IH (i + 1)). lia.
Qed.

(** What [bulkInsert] does once the transaction has begun, for a batch
    with a first record. *)
Lemma bulkInsert_begun (db : DbClient) (eng : Js.Engine) (table : string)
  (records : list ImportRecord) (columnMapping : option (gmap string string))
  (w : World) :
  records <> [] ->
  beginReply db (calls w) = Ok tt ->
  let replies :=
    Spec.rowReplies db eng (Spec.statementOf table records columnMapping)
      (Spec.columnsOf records) records (calls w ++ [TxBegin]) in
  let h :=
    (calls w ++ [TxBegin])
    ++ Spec.rowCalls eng (Spec.statementOf table records columnMapping)
         (Spec.columnsOf records) records in
  bulkInsert db eng table records columnMapping w =
  match commitReply db h with
  | Ok _ =>
      (Ok {| inserted := Spec.insertedCount replies;
             batchFailed := Z.of_nat (length (Spec.failedRows replies 0));
             batchErrors := Spec.failedRows replies 0 |},
       {| calls := h ++ [TxCommit]; updates := updates w |})
  | Throw e =>
      (match rollbackReply db (h ++ [TxCommit]) with
       | Ok _ => Throw e
       | Throw e' => Throw e'
       end,
       {| calls := (h ++ [TxCommit]) ++ [TxRollback]; updates := updates w |})
  end.
Proof.
  intros Hne Hbegin. cbv zeta.
  destruct records as [| sampleRecord rest]; [congruence |].
  unfold bulkInsert, Eff.tryCatch, Eff.bind, Eff.call at 1.
  rewrite Hbegin.
  rewrite insertRows_spec. cbn [calls updates].
  unfold Spec.statementOf, Spec.columnsOf. cbn [hd].
  unfold Eff.call, Eff.ret, Eff.throw. cbn [calls updates fst snd].
  destruct (commitReply db _) as [u | e]; cbn [app].
  - rewrite Z.add_0_l. reflexivity.
  - destruct (rollbackReply db _); reflexivity.
Qed.

(** [bulkInsert] raises when the transaction cannot begin or the batch is
    empty. *)
Lemma bulkInsert_not_begun (db : DbClient) (eng : Js.Engine) (table : string)
  (records : list ImportRecord) (columnMapping : option (gmap string string))
  (w : World) :
  Js.isOk (beginReply db (calls w)) = false \/ records = [] ->
  Js.isOk (fst (bulkInsert db eng table records columnMapping w)) = false.
Proof.
  unfold bulkInsert, Eff.tryCatch, Eff.bind, Eff.call, Eff.throw.
  intros [H | ->].
  - destruct (beginReply db (calls w)); [discriminate |].
    cbn. destruct (rollbackReply db _); reflexivity.
  - destruct (beginReply db (calls w)); cbn;
      destruct (rollbackReply db _); reflexivity.
Qed.

(** C5. Under the per-row strategy every row of a batch either counts as
    inserted or leaves one (row number, message) entry, the message being
    that of the error the row raised: on a normal return
    [inserted + failed] is the size of the batch, the transaction was
    committed after the last row and never rolled back. The call returns
    whenever the transaction begins and commits. When, of 500 rows, row 250
    alone is refused, the result is 499 inserted, 1 failed, and the entry
    of row 250 with the message of its error. *)
Theorem bulkInsert_per_row (db : DbClient) (eng : Js.Engine) (table : string)
  (records : list ImportRecord) (columnMapping : option (gmap string string))
  (w : World) :
  (forall r,
      fst (bulkInsert db eng table records columnMapping w) = Ok r ->
      inserted r =
        Spec.insertedCount
          (Spec.rowReplies db eng (Spec.statementOf table records columnMapping)
             (Spec.columnsOf records) records (calls w ++ [TxBegin]))
      /\ batchErrors r =
        Spec.failedRows
          (Spec.rowReplies db eng (Spec.statementOf table records columnMapping)
             (Spec.columnsOf records) records (calls w ++ [TxBegin])) 0
      /\ batchFailed r = Z.of_nat (length (batchErrors r))
      /\ inserted r + batchFailed r = Z.of_nat (length records)
      /\ calls (snd (bulkInsert db eng table records columnMapping w)) =
         (calls w ++ [TxBegin])
         ++ Spec.rowCalls eng (Spec.statementOf table records columnMapping)
              (Spec.columnsOf records) records
         ++ [TxCommit])
  /\ (records <> [] ->
      beginReply db (calls w) = Ok tt ->
      commitReply db
        ((calls w ++ [TxBegin])
         ++ Spec.rowCalls eng (Spec.statementOf table records columnMapping)
              (Spec.columnsOf records) records) = Ok tt ->
      Js.isOk (fst (bulkInsert db eng table records columnMapping w)) = true)
  /\ (forall e,
      length records = 500%nat ->
      beginReply db (calls w) = Ok tt ->
      commitReply db
        ((calls w ++ [TxBegin])
         ++ Spec.rowCalls eng (Spec.statementOf table records columnMapping)
              (Spec.columnsOf records) records) = Ok tt ->
      Spec.rowReplies db eng (Spec.statementOf table records columnMapping)
        (Spec.columnsOf records) records (calls w ++ [TxBegin])
      = repeat (Ok tt) 249 ++ [Throw e] ++ repeat (Ok tt) 250 ->
      fst (bulkInsert db eng table records columnMapping w) =
      Ok {| inserted := 499;
            batchFailed := 1;
            batchErrors :=
              [ {| row := 250;
                   error := match e with
                            | JsError message => message
                            | JsThrown _ => "Unknown error"
                            end |} ] |}).
Proof.
  split; [| split].
  - intros r Hr.
    destruct (beginReply db (calls w)) as [[] | e] eqn:Hbegin;
      [destruct records as [| sampleRecord rest] eqn:Hrec |].
    + pose proof (bulkInsert_not_begun db eng table [] columnMapping w
                    (or_intror eq_refl)) as H.
      rewrite Hr in H. discriminate.
    + rewrite <- Hrec in *.
      assert (Hne : records <> []) by (rewrite Hrec; discriminate).
      pose proof (bulkInsert_begun db eng table records columnMapping w
                    Hne Hbegin) as H.
      cbv zeta in H. rewrite H in Hr |- *. clear H.
      destruct (commitReply db _) as [u | e].
      * cbn [fst snd calls] in *. injection Hr as <-. cbn [inserted batchErrors batchFailed].
        repeat split.
        -- rewrite inserted_plus_failed, rowReplies_length. reflexivity.
        -- now rewrite <- app_assoc.
      * cbn [fst] in Hr. destruct (rollbackReply db _); discriminate.
    + assert (H : Js.isOk (beginReply db (calls w)) = false)
        by now rewrite Hbegin.
      pose proof (bulkInsert_not_begun db eng table records columnMapping w
                    (or_introl H)) as H'.
      rewrite Hr in H'. discriminate.
  - intros Hne Hbegin Hcommit.
    pose proof (bulkInsert_begun db eng table records columnMapping w
                  Hne Hbegin) as H.
    cbv zeta in H. rewrite H, Hcommit. reflexivity.
  - intros e Hlen Hbegin Hcommit Hreplies.
    assert (Hne : records <> []) by (intros ->; discriminate).
    pose proof (bulkInsert_begun db eng table records columnMapping w
                  Hne Hbegin) as H.
    cbv zeta in H. rewrite H, Hcommit, Hreplies. reflexivity.
Qed.

Lemma bulkInsert_per_row_witness :
  fst (bulkInsert Samples.intColumnsDb Samples.engine "Stock"
         Samples.batchWithBadRow None emptyWorld) =
  Ok {| inserted := 499;
        batchFailed := 1;
        batchErrors :=
          [ {| row := 250;
               error := "Conversion failed when converting the nvarchar value 'abc' to data type int." |} ] |}.
Proof.
  apply (proj2 (proj2 (bulkInsert_per_row Samples.intColumnsDb Samples.engine
                         "Stock" Samples.batchWithBadRow None emptyWorld))
           Samples.conversionError).
  - reflexivity.
  - reflexivity.
  - reflexivity.
  - vm_compute. reflexivity.
Defined.

(** ** Table existence *)

Lemma tableExists_spec (db : DbClient) (table : string) (w : World) :
  tableExists db table w =
  (Ok match tableCountReply db (calls w) table with
      | Ok (count :: _) => 0 <? count
      | _ => false
      end,
   {| calls := calls w ++ [QueryTableCount table]; updates := updates w |}).
Proof.
  unfold tableExists, Eff.tryCatch, Eff.bind, Eff.call, Eff.ret, Eff.throw.
  destruct (tableCountReply db (calls w) table) as [[| count rest] | e];
    reflexivity.
Qed.

(** C10. When the table-count query raises, [tableExists] answers false
    instead of raising; [processImport] then fails with "Table <name> does
    not exist" and [validateImport] reports that same error, exactly as
    they do for a database that answers that no such table exists. *)
Theorem tableExists_hides_outage (db : DbClient) (eng : Js.Engine)
  (fs : FileSystem) (startTime endTime : Z) (filePath table : string)
  (sheet : option string) (columnMapping : option (gmap string string))
  (skipRows : nat) (onProgress : option (JobProgress -> Js.result unit))
  (w : World) (e : Js.exn) :
  tableCountReply db (calls w) table = Throw e ->
  fst (tableExists db table w) = Ok false
  /\ fst (processImport db eng fs startTime endTime filePath table sheet
            columnMapping skipRows onProgress w)
     = Throw (JsError ("Table " +:+ table +:+ " does not exist"))
  /\ (exists v,
        fst (validateImport db eng fs filePath table sheet skipRows w) = Ok v
        /\ importValid v = false
        /\ In ("Table " +:+ table +:+ " does not exist") (importErrors v))
  /\ (forall db' rest,
        tableCountReply db' (calls w) table = Ok (0 :: rest) ->
        processImport db' eng fs startTime endTime filePath table sheet
          columnMapping skipRows onProgress w
        = processImport db eng fs startTime endTime filePath table sheet
            columnMapping skipRows onProgress w
        /\ validateImport db' eng fs filePath table sheet skipRows w
           = validateImport db eng fs filePath table sheet skipRows w).
Proof.
  intros Hdown.
  assert (Hexists : tableExists db table w =
                    (Ok false, {| calls := calls w ++ [QueryTableCount table];
                                  updates := updates w |})).
  { rewrite tableExists_spec, Hdown. reflexivity. }
  split; [| split; [| split]].
  - now rewrite Hexists.
  - unfold processImport, Eff.bind. rewrite Hexists. reflexivity.
  - unfold validateImport, Eff.tryCatch, Eff.bind. rewrite Hexists.
    cbn [negb]. unfold Eff.ret. eexists. split; [reflexivity |].
    cbn [importValid importErrors].
    destruct (isValid _); cbn; auto.
  - intros db' rest Hmissing.
    assert (Hexists' : tableExists db' table w =
                       (Ok false, {| calls := calls w ++ [QueryTableCount table];
                                     updates := updates w |})).
    { rewrite tableExists_spec, Hmissing. reflexivity. }
    split.
    + unfold processImport, Eff.bind. rewrite Hexists, Hexists'. reflexivity.
    + unfold validateImport, Eff.tryCatch, Eff.bind.
      rewrite Hexists, Hexists'. reflexivity.
Qed.

Lemma tableExists_hides_outage_witness :
  fst (processImport Samples.unreachableDb Samples.engine (Samples.fileOf 3)
         0 5 "upload.xlsx" "People" None None 0 None emptyWorld)
  = Throw (JsError "Table People does not exist").
Proof.
  apply (tableExists_hides_outage Samples.unreachableDb Samples.engine
           (Samples.fileOf 3) 0 5 "upload.xlsx" "People" None None 0%nat None
           emptyWorld Samples.connectionError).
  reflexivity.
Defined.

(** ** The stream reader *)

(** The test of the reader, [value !== null && value !== ''], admits the
    values that are neither null nor the empty string. *)
Lemma isData_nonBlank (v : Js.value) : isData v = Spec.nonBlank v.
Proof.
  destruct v as [| | x | b | ms | s | d]; try reflexivity.
  destruct s; reflexivity.
Qed.

Lemma readRow_fold (eng : Js.Engine) (headers : list (option string))
  (cells : list (nat * CellValue)) :
  forall (record : ImportRecord) (hasData : bool),
    snd (fold_left (visitCell eng headers) cells (record, hasData))
    = hasData || existsb (Spec.underHeader eng headers) cells.
Proof.
  induction cells as [| [colNumber cell] rest IH]; intros record hasData.
  - cbn. now rewrite orb_false_r.
  - cbn [fold_left existsb]. unfold visitCell at 2, Spec.underHeader at 1.
    cbn [fst snd].
    destruct (headerAt headers colNumber) as [header |].
    + destruct (Js.truthy header); rewrite IH; cbn [andb orb].
      * now rewrite isData_nonBlank, orb_assoc.
      * reflexivity.
    + rewrite IH. reflexivity.
Qed.

Lemma readRow_hasData (eng : Js.Engine) (headers : list (option string)) (r : Row) :
  snd (readRow eng headers r) = Spec.hasDataUnderHeader eng headers r.
Proof. unfold readRow. now rewrite readRow_fold. Qed.

Lemma isData_not_null (eng : Js.Engine) (c : CellValue) :
  isData (getCellValue eng c) = true -> isNullCell c = false.
Proof. destruct c; cbn; congruence. Qed.

Lemma underHeader_hasValues (eng : Js.Engine) (headers : list (option string))
  (r : Row) :
  forall k,
    existsb (Spec.underHeader eng headers) (combine (seq k (length r)) r) = true ->
    hasValues r = true.
Proof.
  unfold hasValues.
  induction r as [| c rest IH]; intros k; cbn; [congruence |].
  intros H. apply orb_prop in H. destruct H as [H | H].
  - unfold Spec.underHeader in H. cbn [fst snd] in H.
    destruct (headerAt headers k); [| discriminate].
    apply andb_prop in H. destruct H as [_ H].
    rewrite <- isData_nonBlank in H.
    apply isData_not_null in H. now rewrite H.
  - apply IH in H. rewrite H. apply orb_true_r.
Qed.

Lemma hasData_hasValues (eng : Js.Engine) (headers : list (option string)) (r : Row) :
  Spec.hasDataUnderHeader eng headers r = true -> hasValues r = true.
Proof. apply underHeader_hasValues. Qed.

Lemma visitRow_eq (eng : Js.Engine) (headers : list (option string))
  (skipRows : nat) (batch : list ImportRecord) (rowNumber : nat) (r : Row) :
  visitRow eng headers skipRows batch (rowNumber, r)
  = if (rowNumber <=? 1 + skipRows)%nat then batch
    else if Spec.hasDataUnderHeader eng headers r
         then batch ++ [Spec.recordOf eng headers r]
         else batch.
Proof.
  unfold visitRow, Spec.recordOf. rewrite <- readRow_hasData.
  destruct (readRow eng headers r); reflexivity.
Qed.

(** The rows visited from number [k] on: those numbered at most
    [1 + skipRows] are passed over, the others are pushed when they hold
    data. *)
Lemma visitRow_fold (eng : Js.Engine) (headers : list (option string))
  (skipRows : nat) (rows : list Row) :
  forall (k : nat) (batch : list ImportRecord),
    fold_left (visitRow eng headers skipRows)
      (List.filter (fun nr => hasValues (snd nr)) (combine (seq k (length rows)) rows))
      batch
    = batch ++ map (Spec.recordOf eng headers)
                 (List.filter (Spec.hasDataUnderHeader eng headers)
                    (skipn (2 + skipRows - k) rows)).
Proof.
  induction rows as [| r rest IH]; intros k batch.
  - cbn. rewrite skipn_nil. cbn. now rewrite app_nil_r.
  - cbn [length seq combine List.filter snd].
    destruct (Nat.leb_spec k (1 + skipRows)) as [Hk | Hk].
    + replace (2 + skipRows - k)%nat with (S (2 + skipRows - S k)) by lia.
      cbn [skipn].
      destruct (hasValues r).
      * cbn [fold_left]. rewrite visitRow_eq.
        destruct (Nat.leb_spec k (1 + skipRows)); [| lia].
        apply IH.
      * apply IH.
    + replace (2 + skipRows - k)%nat with 0%nat by lia.
      cbn [skipn List.filter].
      specialize (IH (S k)).
      replace (2 + skipRows - S k)%nat with 0%nat in IH by lia.
      cbn [skipn] in IH.
      destruct (hasValues r) eqn:Hv.
      * cbn [fold_left]. rewrite visitRow_eq.
        destruct (Nat.leb_spec k (1 + skipRows)); [lia |].
        destruct (Spec.hasDataUnderHeader eng headers r).
        -- rewrite IH. cbn [map]. now rewrite <- app_assoc.
        -- apply IH.
      * destruct (Spec.hasDataUnderHeader eng headers r) eqn:Hd.
        -- apply hasData_hasValues in Hd. congruence.
        -- apply IH.
Qed.

Lemma numbered_app {A} (l1 l2 : list A) :
  forall k,
    combine (seq k (length (l1 ++ l2))) (l1 ++ l2)
    = combine (seq k (length l1)) l1
      ++ combine (seq (k + length l1) (length l2)) l2.
Proof.
  induction l1 as [| x rest IH]; intros k; cbn.
  - now rewrite Nat.add_0_r.
  - rewrite IH. now replace (S k + length rest)%nat with (k + S (length rest))%nat by lia.
Qed.

Lemma eachRow_empty_rows (m : nat) :
  forall k,
    List.filter (fun nr : nat * Row => hasValues (snd nr))
      (combine (seq k (length (repeat (@nil CellValue) m))) (repeat [] m)) = [].
Proof. induction m as [| m IH]; intros k; cbn; [reflexivity | apply IH]. Qed.

(** The row created by [getRow] is empty: [eachRow] passes over it. *)
Lemma eachRow_touchRow (ws : Worksheet) (n : nat) :
  eachRow (touchRow ws n) = eachRow ws.
Proof.
  unfold eachRow, Excel.numbered, touchRow. cbn [sheetRows].
  rewrite numbered_app, List.filter_app, eachRow_empty_rows.
  apply app_nil_r.
Qed.

(** After [getRow] the sheet reaches down to the header row at least, so
    the rows counted below it are exactly the data rows. *)
Lemma rowCount_touchRow (ws : Worksheet) (skipRows : nat) :
  Excel.rowCount (touchRow ws (1 + skipRows)) - (1 + Z.of_nat skipRows)
  = Z.of_nat (length (Spec.dataRows ws skipRows)).
Proof.
  unfold Excel.rowCount, touchRow, Spec.dataRows. cbn [sheetRows].
  rewrite length_app, repeat_length, length_skipn. lia.
Qed.

(** The sheet as the file stores it may end above the header row: it is
    the row created by [getRow] that keeps the count from being
    negative. *)
Lemma rowCount_before_getRow (ws : Worksheet) (skipRows : nat) :
  (length (sheetRows ws) < 1 + skipRows)%nat ->
  Excel.rowCount ws - (1 + Z.of_nat skipRows) < 0
  /\ Excel.rowCount (snd (getRow ws (1 + skipRows))) - (1 + Z.of_nat skipRows) = 0.
Proof.
  intros H. split.
  - unfold Excel.rowCount. lia.
  - unfold getRow. cbn [snd]. rewrite rowCount_touchRow.
    unfold Spec.dataRows. rewrite skipn_all2 by lia. reflexivity.
Qed.

Lemma collectRows_spec (eng : Js.Engine) (fs : FileSystem) (filePath : string)
  (sheet : option string) (skipRows : nat) (wb : Workbook) (ws : Worksheet) :
  fs filePath = Ok wb ->
  selectWorksheet wb sheet = Some ws ->
  collectRows eng fs filePath sheet skipRows
  = Ok (map (Spec.recordOf eng (Spec.headersOf eng ws skipRows))
          (List.filter (Spec.hasDataUnderHeader eng (Spec.headersOf eng ws skipRows))
             (Spec.dataRows ws skipRows))).
Proof.
  intros Hfs Hws. unfold collectRows. rewrite Hfs, Hws.
  unfold getRow. rewrite eachRow_touchRow.
  unfold eachRow, Excel.numbered. rewrite visitRow_fold.
  unfold Spec.dataRows, Spec.headersOf, getRow. cbn [fst].
  replace (2 + skipRows - 1)%nat with (1 + skipRows)%nat by lia.
  reflexivity.
Qed.

Lemma slice_batch {A} (i : nat) (l : list A) :
  slice i (i + batchSize) l = firstn batchSize (skipn i l).
Proof. unfold slice. now replace (i + batchSize - i)%nat with batchSize by lia. Qed.

Lemma yieldLoop_S (fuel i : nat) (batch : list ImportRecord) :
  yieldLoop (S fuel) i batch =
  if (i <? length batch)%nat
  then firstn batchSize (skipn i batch) :: yieldLoop fuel (i + batchSize) batch
  else [].
Proof. cbn [yieldLoop]. now rewrite slice_batch. Qed.

(** With fuel for the records left, the batches yielded are the records
    from [i] on, cut every [batchSize]. *)
Lemma yieldLoop_concat (batch : list ImportRecord) :
  forall fuel i,
    (length batch - i <= fuel)%nat ->
    concat (yieldLoop fuel i batch) = skipn i batch.
Proof.
  induction fuel as [| fuel IH]; intros i Hfuel.
  - cbn. symmetry. apply skipn_all2. lia.
  - rewrite yieldLoop_S.
    destruct (Nat.ltb_spec i (length batch)) as [Hi | Hi].
    + cbn [concat]. rewrite IH by (unfold batchSize; lia).
      replace (i + batchSize)%nat with (batchSize + i)%nat by lia.
      rewrite <- skipn_skipn. apply firstn_skipn.
    + cbn. symmetry. apply skipn_all2. lia.
Qed.

Lemma yieldLoop_sizes (batch : list ImportRecord) :
  forall fuel i, Spec.batchesOf batchSize (yieldLoop fuel i batch).
Proof.
  unfold Spec.batchesOf.
  induction fuel as [| fuel IH]; intros i.
  - cbn. split; constructor.
  - rewrite yieldLoop_S.
    destruct (Nat.ltb_spec i (length batch)) as [Hi | Hi];
      [| cbn; split; constructor].
    destruct (IH (i + batchSize)%nat) as [IH1 IH2].
    assert (Hlen : length (firstn batchSize (skipn i batch))
                   = Nat.min batchSize (length batch - i)).
    { now rewrite length_firstn, length_skipn. }
    split.
    + destruct (yieldLoop fuel (i + batchSize) batch) as [| b rest] eqn:E.
      * cbn. constructor.
      * cbn [removelast]. constructor; [| exact IH1].
        destruct fuel as [| fuel']; [discriminate |].
        rewrite yieldLoop_S in E.
        destruct (Nat.ltb_spec (i + batchSize) (length batch)); [| discriminate].
        rewrite Hlen. lia.
    + constructor; [| exact IH2].
      rewrite Hlen. unfold batchSize. lia.
Qed.

Lemma yieldAll_concat (batch : list ImportRecord) :
  concat (yieldAll batch) = batch.
Proof. unfold yieldAll. rewrite yieldLoop_concat by lia. reflexivity. Qed.

(** More fuel than records left changes nothing. *)
Lemma yieldLoop_fuel (batch : list ImportRecord) :
  forall fuel1 fuel2 i,
    (length batch - i <= fuel1)%nat -> (length batch - i <= fuel2)%nat ->
    yieldLoop fuel1 i batch = yieldLoop fuel2 i batch.
Proof.
  induction fuel1 as [| fuel1 IH]; intros fuel2 i H1 H2.
  - destruct fuel2 as [| fuel2]; [reflexivity |].
    rewrite yieldLoop_S.
    destruct (Nat.ltb_spec i (length batch)); [lia | reflexivity].
  - destruct fuel2 as [| fuel2].
    + rewrite yieldLoop_S.
      destruct (Nat.ltb_spec i (length batch)); [lia | reflexivity].
    + rewrite !yieldLoop_S.
      destruct (Nat.ltb_spec i (length batch)); [| reflexivity].
      f_equal. apply IH; unfold batchSize; lia.
Qed.

(** The claim of C6 as it is stated fails: a row whose only text stands in
    a column without a header has a non-blank cell, yet no batch holds it. *)
Lemma streamExcelRows_drops_stray_row :
  streamExcelRows Samples.engine (fun _ => Ok [Samples.strayCellSheet])
    "upload.xlsx" None 0 = Ok []
  /\ List.filter (Spec.hasNonBlankCell Samples.engine)
       (Spec.dataRows Samples.strayCellSheet 0) = [ [CNull; CString "x"] ]
  /\ concat (@nil (list ImportRecord)) <>
     map (Spec.recordOf Samples.engine
            (Spec.headersOf Samples.engine Samples.strayCellSheet 0))
       (List.filter (Spec.hasNonBlankCell Samples.engine)
          (Spec.dataRows Samples.strayCellSheet 0)).
Proof. repeat split; try reflexivity. discriminate. Qed.

(** The numbered cells of a row: cell [n] is the one at index [n - 1]. *)
Lemma combine_seq_nth {A} (l : list A) :
  forall (k n : nat) (x : A),
    In (n, x) (combine (seq k (length l)) l)
    <-> (k <= n)%nat /\ nth_error l (n - k) = Some x.
Proof.
  induction l as [| y rest IH]; intros k n x; cbn [length seq combine].
  - split; [intros [] | intros [_ H]]. destruct (n - k)%nat; discriminate.
  - cbn [In]. rewrite IH. split.
    + intros [H | [Hk H]].
      * injection H as <- <-. split; [lia |]. now rewrite Nat.sub_diag.
      * split; [lia |].
        replace (n - k)%nat with (S (n - S k)) by lia. exact H.
    + intros [Hk H].
      destruct (Nat.eq_dec n k) as [-> | Hne].
      * rewrite Nat.sub_diag in H. cbn in H. injection H as <-. now left.
      * right. split; [lia |].
        replace (n - k)%nat with (S (n - S k)) in H by lia. exact H.
Qed.

Lemma numbered_nth {A} (l : list A) (n : nat) (x : A) :
  In (n, x) (Excel.numbered l) <-> (1 <= n)%nat /\ nth_error l (n - 1) = Some x.
Proof. apply combine_seq_nth. Qed.

(** The rows the reader admits: those with a cell, in a column whose
    header is not blank, that coerces to a value other than null and the
    empty string. *)
Lemma hasDataUnderHeader_iff (eng : Js.Engine) (headers : list (option string))
  (r : Row) :
  Spec.hasDataUnderHeader eng headers r = true
  <-> exists (colNumber : nat) (cell : CellValue) (header : string),
        In (colNumber, cell) (Excel.numbered r)
        /\ headerAt headers colNumber = Some header
        /\ header <> ""
        /\ getCellValue eng cell <> VNull
        /\ getCellValue eng cell <> VString "".
Proof.
  unfold Spec.hasDataUnderHeader. rewrite existsb_exists. split.
  - intros ([colNumber cell] & Hin & Hunder).
    unfold Spec.underHeader in Hunder. cbn [fst snd] in Hunder.
    destruct (headerAt headers colNumber) as [header |] eqn:Hheader;
      [| discriminate].
    apply andb_prop in Hunder as [Htruthy Hvalue].
    exists colNumber, cell, header.
    split; [exact Hin |]. split; [exact Hheader |].
    split; [intros ->; discriminate |].
    unfold Spec.nonBlank in Hvalue. apply andb_prop in Hvalue as [Hnull Hempty].
    split; intros Heq; rewrite Heq in *; discriminate.
  - intros (colNumber & cell & header & Hin & Hheader & Hne & Hnull & Hempty).
    exists (colNumber, cell). split; [exact Hin |].
    unfold Spec.underHeader. cbn [fst snd]. rewrite Hheader.
    apply andb_true_intro. split.
    + destruct header; [congruence | reflexivity].
    + unfold Spec.nonBlank.
      destruct (getCellValue eng cell) as [| | x | b | ms | v | d];
        try reflexivity; [congruence |].
      destruct v; [congruence | reflexivity].
Qed.

(** C6, amended. For a readable file and a sheet that exists, the batches
    of [streamExcelRows], concatenated, are the records of the rows below
    the header row, in file order, that have at least one cell in a column
    with a non-blank header coercing to a non-null, non-empty value; every
    batch holds exactly 500 records except possibly a smaller last one. *)
Theorem streamExcelRows_batches (eng : Js.Engine) (fs : FileSystem)
  (filePath : string) (sheet : option string) (skipRows : nat)
  (wb : Workbook) (ws : Worksheet) :
  fs filePath = Ok wb ->
  selectWorksheet wb sheet = Some ws ->
  (exists batches,
      streamExcelRows eng fs filePath sheet skipRows = Ok batches
      /\ concat batches =
         map (Spec.recordOf eng (Spec.headersOf eng ws skipRows))
           (List.filter (Spec.hasDataUnderHeader eng (Spec.headersOf eng ws skipRows))
              (Spec.dataRows ws skipRows))
      /\ Spec.batchesOf 500 batches)
  /\ (forall r,
        In r (List.filter
                (Spec.hasDataUnderHeader eng (Spec.headersOf eng ws skipRows))
                (Spec.dataRows ws skipRows))
        <-> In r (Spec.dataRows ws skipRows)
            /\ exists (colNumber : nat) (cell : CellValue) (header : string),
                 nth_error r (colNumber - 1) = Some cell
                 /\ (1 <= colNumber)%nat
                 /\ nth_error (Spec.headersOf eng ws skipRows) (colNumber - 1)
                    = Some (Some header)
                 /\ header <> ""
                 /\ getCellValue eng cell <> VNull
                 /\ getCellValue eng cell <> VString "").
Proof.
  intros Hfs Hws. split.
  - unfold streamExcelRows.
    rewrite (collectRows_spec eng fs filePath sheet skipRows wb ws Hfs Hws).
    eexists. split; [reflexivity |]. split.
    + apply yieldAll_concat.
    + apply yieldLoop_sizes.
  - intros r. rewrite List.filter_In, hasDataUnderHeader_iff.
    split; intros (Hin & colNumber & cell & header & H).
    + split; [exact Hin |]. exists colNumber, cell, header.
      destruct H as (Hcell & Hheader & Hrest).
      apply numbered_nth in Hcell as [Hpos Hcell].
      split; [exact Hcell |]. split; [exact Hpos |].
      split; [| exact Hrest].
      unfold headerAt in Hheader.
      destruct (nth_error (Spec.headersOf eng ws skipRows) (colNumber - 1))
        as [[h |] |]; cbn in Hheader; congruence.
    + split; [exact Hin |]. exists colNumber, cell, header.
      destruct H as (Hcell & Hpos & Hheader & Hrest).
      split; [now apply numbered_nth |].
      split; [| exact Hrest].
      unfold headerAt. now rewrite Hheader.
Qed.

(** The reader at work. Of five rows under the headers [Name], blank and
    [Age], the two that hold a value under [Name] or [Age] are emitted, in
    order, in one batch; the row whose only value stands under the blank
    header, the row that holds an empty string and the row without value
    are dropped. 501 rows give a batch of 500 and a batch of 1. *)
Lemma streamExcelRows_batches_witness :
  streamExcelRows Samples.engine (fun _ => Ok [Cases.mixedSheet]) "upload.xlsx"
    None 0
  = Ok [ [ [("Name", VString "Ada"); ("Age", VNumber (Js.ofZ 36))];
           [("Name", VString "Grace")] ] ]
  /\ List.filter (Spec.hasDataUnderHeader Samples.engine
                    (Spec.headersOf Samples.engine Cases.mixedSheet 0))
       (Spec.dataRows Cases.mixedSheet 0)
     = [ [CString "Ada"; CString "x"; CNumber (Js.ofZ 36)]; [CString "Grace"] ]
  /\ streamExcelRows Samples.engine (Samples.fileOf 501) "upload.xlsx" None 0
     = Ok [repeat Samples.one 500; [Samples.one]]
  /\ (exists batches,
        streamExcelRows Samples.engine (fun _ => Ok [Cases.mixedSheet])
          "upload.xlsx" None 0 = Ok batches
        /\ concat batches =
           map (Spec.recordOf Samples.engine
                  (Spec.headersOf Samples.engine Cases.mixedSheet 0))
             (List.filter (Spec.hasDataUnderHeader Samples.engine
                        (Spec.headersOf Samples.engine Cases.mixedSheet 0))
                (Spec.dataRows Cases.mixedSheet 0))
        /\ Spec.batchesOf 500 batches).
Proof.
  split; [vm_compute; reflexivity |].
  split; [vm_compute; reflexivity |].
  split; [vm_compute; reflexivity |].
  apply (streamExcelRows_batches Samples.engine (fun _ => Ok [Cases.mixedSheet])
           "upload.xlsx" None 0 [Cases.mixedSheet] Cases.mixedSheet).
  - reflexivity.
  - reflexivity.
Defined.

(** ** The generator *)

Lemma drain_suspended (eng : Js.Engine) (fs : FileSystem) (filePath : string)
  (sheet : option string) (skipRows : nat) (batch : list ImportRecord) :
  forall fuel i,
    (length batch - (i + batchSize) < fuel)%nat ->
    drain eng fs filePath sheet skipRows fuel (GenSuspended batch i)
    = Some (Ok (yieldLoop fuel (i + batchSize) batch)).
Proof.
  induction fuel as [| fuel IH]; intros i Hfuel; [lia |].
  cbn [drain next]. unfold loopHead. rewrite yieldLoop_S, slice_batch.
  destruct (Nat.ltb_spec (i + batchSize) (length batch)) as [Hi | Hi].
  - rewrite IH by (unfold batchSize in *; lia). reflexivity.
  - reflexivity.
Qed.

(** Pulling from the generator until it returns gives the batches of
    [streamExcelRows], or its error: the calls of [next()] needed are one
    more than the batches, at most one more than the records. *)
Lemma drain_streamExcelRows (eng : Js.Engine) (fs : FileSystem)
  (filePath : string) (sheet : option string) (skipRows : nat) (fuel : nat) :
  (match collectRows eng fs filePath sheet skipRows with
   | Ok batch => length batch
   | Throw _ => 0
   end < fuel)%nat ->
  drain eng fs filePath sheet skipRows fuel GenStart
  = Some (streamExcelRows eng fs filePath sheet skipRows).
Proof.
  unfold streamExcelRows.
  destruct fuel as [| fuel]; [lia |].
  cbn [drain next].
  destruct (collectRows eng fs filePath sheet skipRows) as [batch | e];
    [| reflexivity].
  intros Hfuel. unfold loopHead, yieldAll.
  rewrite (yieldLoop_fuel batch (length batch) (S fuel) 0) by lia.
  rewrite yieldLoop_S, slice_batch.
  destruct (Nat.ltb_spec 0 (length batch)) as [H0 | H0]; [| reflexivity].
  rewrite drain_suspended by (unfold batchSize; lia). reflexivity.
Qed.

(** C9 does not hold of the code: the reader is not lazy. When the first
    [next()] yields a batch, the generator has already read the file to
    its end and holds every admitted row of the sheet, of which the batch
    is the first 500. *)
Theorem first_yield_holds_every_row (eng : Js.Engine) (fs : FileSystem)
  (filePath : string) (sheet : option string) (skipRows : nat)
  (b : list ImportRecord) (st : GenState) :
  next eng fs filePath sheet skipRows GenStart = (Yielded b, st) ->
  collectRows eng fs filePath sheet skipRows = Ok (held st)
  /\ b = firstn 500 (held st).
Proof.
  cbn [next].
  destruct (collectRows eng fs filePath sheet skipRows) as [batch | e];
    [| discriminate].
  unfold loopHead.
  destruct (0 <? length batch)%nat; [| discriminate].
  intros H. injection H as <- <-. cbn [held]. split; reflexivity.
Qed.

Lemma first_yield_holds_every_row_witness :
  collectRows Samples.engine (Samples.fileOf 501) "upload.xlsx" None 0
  = Ok (repeat Samples.one 501)
  /\ repeat Samples.one 500 = firstn 500 (repeat Samples.one 501).
Proof.
  apply (first_yield_holds_every_row Samples.engine (Samples.fileOf 501)
           "upload.xlsx" None 0 (repeat Samples.one 500)
           (GenSuspended (repeat Samples.one 501) 0)).
  vm_compute. reflexivity.
Defined.

(** A file with 501 rows below the header: the first batch has 500
    records, and at that point the generator holds all 501. *)
Lemma first_yield_of_501_rows :
  fst (next Samples.engine (Samples.fileOf 501) "upload.xlsx" None 0 GenStart)
  = Yielded (repeat Samples.one 500)
  /\ length (held (snd (next Samples.engine (Samples.fileOf 501)
                          "upload.xlsx" None 0 GenStart))) = 501%nat.
Proof. split; vm_compute; reflexivity. Qed.

(** ** Validation *)

(** The empty-file error is reported exactly when no row lies below the
    header row. *)
Lemma validateExcel_error_iff (eng : Js.Engine) (fs : FileSystem)
  (filePath : string) (requiredColumns : list string) (sheet : option string)
  (skipRows : nat) (wb : Workbook) (ws : Worksheet) :
  fs filePath = Ok wb ->
  selectWorksheet wb sheet = Some ws ->
  (In Spec.noDataRows
      (errors (validateExcel eng fs filePath requiredColumns sheet skipRows))
   <-> Spec.dataRows ws skipRows = []).
Proof.
  intros Hfs Hws. unfold validateExcel, getRow. rewrite Hfs, Hws. cbn [errors].
  rewrite rowCount_touchRow.
  destruct (Spec.dataRows ws skipRows) as [| r rest]; cbn [length].
  - cbn. split; [reflexivity |]. intros _. apply in_or_app. right. left. reflexivity.
  - replace (Z.of_nat (S (length rest)) =? 0) with false
      by (symmetry; apply Z.eqb_neq; lia).
    split; [| discriminate]. intros H.
    destruct (_ && _); cbn in H; [| contradiction].
    destruct H as [H | []]. discriminate.
Qed.

(** The row count reported is the number of rows below the header row. *)
Lemma validateExcel_rowCount (eng : Js.Engine) (fs : FileSystem)
  (filePath : string) (requiredColumns : list string) (sheet : option string)
  (skipRows : nat) (wb : Workbook) (ws : Worksheet) :
  fs filePath = Ok wb ->
  selectWorksheet wb sheet = Some ws ->
  validRowCount (validateExcel eng fs filePath requiredColumns sheet skipRows)
  = Z.of_nat (length (Spec.dataRows ws skipRows)).
Proof.
  intros Hfs Hws. unfold validateExcel, getRow. rewrite Hfs, Hws.
  cbn [validRowCount]. rewrite rowCount_touchRow. lia.
Qed.

(** [isValid] is [errors.length === 0]. *)
Lemma validateExcel_isValid (eng : Js.Engine) (fs : FileSystem)
  (filePath : string) (requiredColumns : list string) (sheet : option string)
  (skipRows : nat) :
  isValid (validateExcel eng fs filePath requiredColumns sheet skipRows) = true ->
  errors (validateExcel eng fs filePath requiredColumns sheet skipRows) = [].
Proof.
  unfold validateExcel.
  destruct (fs filePath) as [wb | e]; [| discriminate].
  destruct (selectWorksheet wb sheet) as [ws |]; [| discriminate].
  destruct (getRow ws (1 + skipRows)) as [headerRow ws1].
  cbn [isValid errors].
  destruct (if _ =? 0 then _ else _); [reflexivity | discriminate].
Qed.

(** C8 as it is stated fails for [validateImport]: when the table exists
    and the query for its columns raises, a file without data rows is
    answered with the message of that error alone. [validateExcel] on the
    same file reports the missing rows. *)
Lemma validateImport_can_hide_missing_rows :
  Spec.dataRows (Samples.sheetOf 0) 0 = []
  /\ fst (validateImport Cases.hiddenColumnsDb Samples.engine (Samples.fileOf 0)
            "upload.xlsx" "People" None 0 emptyWorld)
     = Ok {| importValid := false;
             importErrors :=
               ["Validation error: The SELECT permission was denied on the object 'COLUMNS'."];
             importRowCount := 0 |}
  /\ ~ In "Excel file contains no data rows"
         ["Validation error: The SELECT permission was denied on the object 'COLUMNS'."]
  /\ map message
       (errors (validateExcel Samples.engine (Samples.fileOf 0) "upload.xlsx" []
                  None 0))
     = ["Excel file contains no data rows"].
Proof.
  split; [reflexivity |]. split; [vm_compute; reflexivity |].
  split; [| vm_compute; reflexivity].
  intros [H | []]. discriminate.
Qed.

(** C8, amended. For a readable file and a sheet that exists with no row
    below the header row, the skip offset lying at or beyond the last row
    included, [validateExcel] answers [isValid = false] with the error
    "Excel file contains no data rows" and a row count of 0. So does
    [validateImport] when the table check answers no, and when it answers
    yes and the query for the columns of the table returns; when that
    query raises, [validateImport] answers [isValid = false] and a row
    count of 0 with the message of the error as its one error. *)
Theorem validation_rejects_no_data_rows (eng : Js.Engine) (fs : FileSystem)
  (filePath : string) (sheet : option string) (skipRows : nat)
  (wb : Workbook) (ws : Worksheet) :
  fs filePath = Ok wb ->
  selectWorksheet wb sheet = Some ws ->
  Spec.dataRows ws skipRows = [] ->
  (forall requiredColumns,
      isValid (validateExcel eng fs filePath requiredColumns sheet skipRows) = false
      /\ In Spec.noDataRows
           (errors (validateExcel eng fs filePath requiredColumns sheet skipRows))
      /\ validRowCount
           (validateExcel eng fs filePath requiredColumns sheet skipRows) = 0)
  /\ (forall db table w,
        (fst (tableExists db table w) = Ok true ->
         Js.isOk (columnsReply db (calls w ++ [QueryTableCount table]) table)
         = true) ->
        exists v,
          fst (validateImport db eng fs filePath table sheet skipRows w) = Ok v
          /\ importValid v = false
          /\ In "Excel file contains no data rows" (importErrors v)
          /\ importRowCount v = 0)
  /\ (forall db table w e,
        fst (tableExists db table w) = Ok true ->
        columnsReply db (calls w ++ [QueryTableCount table]) table = Throw e ->
        fst (validateImport db eng fs filePath table sheet skipRows w)
        = Ok {| importValid := false;
                importErrors :=
                  ["Validation error: "
                   +:+ match e with
                       | JsError message => message
                       | JsThrown _ => "undefined"
                       end];
                importRowCount := 0 |}).
Proof.
  intros Hfs Hws Hnone.
  assert (Hexcel : forall requiredColumns,
             isValid (validateExcel eng fs filePath requiredColumns sheet skipRows) = false
             /\ In Spec.noDataRows
                  (errors (validateExcel eng fs filePath requiredColumns sheet skipRows))
             /\ validRowCount
                  (validateExcel eng fs filePath requiredColumns sheet skipRows) = 0).
  { intros requiredColumns.
    pose proof (proj2 (validateExcel_error_iff eng fs filePath requiredColumns
                         sheet skipRows wb ws Hfs Hws) Hnone) as Hin.
    split; [| split; [exact Hin |]].
    - destruct (isValid _) eqn:E; [| reflexivity].
      apply validateExcel_isValid in E. rewrite E in Hin. contradiction.
    - rewrite (validateExcel_rowCount eng fs filePath requiredColumns sheet
                 skipRows wb ws Hfs Hws), Hnone. reflexivity. }
  split; [exact Hexcel |].
  split.
  2: { intros db table w e Hexists Hcolumns.
       revert Hexists.
       unfold validateImport, Eff.tryCatch, Eff.bind.
       rewrite tableExists_spec. cbn [fst snd].
       destruct (match tableCountReply db (calls w) table with
                 | Ok (count :: _) => 0 <? count
                 | _ => false
                 end); [| discriminate].
       intros _. unfold getTableColumns, Eff.call. cbn [calls updates negb].
       rewrite Hcolumns. destruct e; reflexivity. }
  intros db table w Hcolumns.
  revert Hcolumns.
  unfold validateImport, Eff.tryCatch, Eff.bind.
  rewrite tableExists_spec. cbn [fst].
  set (ex := match tableCountReply db (calls w) table with
             | Ok (count :: _) => 0 <? count
             | _ => false
             end).
  intros Hcolumns.
  assert (Hmsg : forall requiredColumns errors0,
             In "Excel file contains no data rows"
               (errors0 ++ map message
                  (errors (validateExcel eng fs filePath requiredColumns sheet skipRows)))).
  { intros requiredColumns errors0. apply in_or_app. right.
    destruct (Hexcel requiredColumns) as (_ & Hin & _).
    apply (in_map message) in Hin. exact Hin. }
  destruct ex.
  - specialize (Hcolumns eq_refl).
    unfold getTableColumns, Eff.call. cbn [calls updates negb snd].
    destruct (columnsReply db (calls w ++ [QueryTableCount table]) table)
      as [requiredColumns | e]; [| discriminate].
    destruct (Hexcel requiredColumns) as (Hvalid & Hin & Hcount).
    unfold Eff.ret. rewrite Hvalid. cbn [negb fst].
    eexists. split; [reflexivity |]. cbn [importValid importErrors importRowCount].
    split; [| split; [| exact Hcount]].
    + pose proof (Hmsg requiredColumns []) as H.
      destruct ([] ++ map message _); [contradiction | reflexivity].
    + apply Hmsg.
  - unfold Eff.ret. cbn [negb].
    destruct (Hexcel []) as (Hvalid & Hin & Hcount).
    rewrite Hvalid. cbn [negb fst].
    eexists. split; [reflexivity |]. cbn [importValid importErrors importRowCount].
    split; [| split; [| exact Hcount]].
    + reflexivity.
    + apply Hmsg.
Qed.

(** A sheet that holds its header row only, read with an offset that
    lies beyond it: [validateExcel] and, over a database that answers,
    [validateImport] report the missing rows and a count of 0. *)
Lemma validation_rejects_no_data_rows_witness :
  (isValid (validateExcel Samples.engine (Samples.fileOf 0) "upload.xlsx" [] None 1)
   = false
   /\ In Spec.noDataRows
        (errors (validateExcel Samples.engine (Samples.fileOf 0) "upload.xlsx"
                   [] None 1))
   /\ validRowCount
        (validateExcel Samples.engine (Samples.fileOf 0) "upload.xlsx" [] None 1)
      = 0)
  /\ validateExcel Samples.engine (Samples.fileOf 0) "upload.xlsx" [] None 1
     = {| isValid := false;
          errors := [ {| field := "rows";
                         message := "Excel file contains no data rows" |} ];
          validRowCount := 0;
          detectedColumns := [] |}
  /\ fst (validateImport (Samples.healthyDb ["Name"]) Samples.engine
            (Samples.fileOf 0) "upload.xlsx" "People" None 0 emptyWorld)
     = Ok {| importValid := false;
             importErrors := ["Excel file contains no data rows"];
             importRowCount := 0 |}.
Proof.
  split; [| split; vm_compute; reflexivity].
  apply (proj1 (validation_rejects_no_data_rows Samples.engine
                  (Samples.fileOf 0) "upload.xlsx" None 1
                  [Samples.sheetOf 0] (Samples.sheetOf 0)
                  eq_refl eq_refl eq_refl)).
Defined.

(** ** The import loop *)

Lemma processBatch_nil (db : DbClient) (eng : Js.Engine) (table : string)
  (columnMapping : option (gmap string string))
  (onProgress : option (JobProgress -> Js.result unit)) (totalRecords : Z)
  (c : Counters) (w : World) :
  processBatch db eng table columnMapping onProgress totalRecords c [] w
  = (addFailed c 0, w).
Proof. reflexivity. Qed.

Lemma processBatch_spec (db : DbClient) (eng : Js.Engine) (table : string)
  (columnMapping : option (gmap string string))
  (onProgress : option (JobProgress -> Js.result unit)) (totalRecords : Z)
  (c : Counters) (batch : list ImportRecord) (w : World) :
  batch <> [] ->
  processBatch db eng table columnMapping onProgress totalRecords c batch w =
  let t := tvpTable eng table (hd [] batch) batch columnMapping in
  let c1 := {| cSuccess := cSuccess c + batchLength batch;
               cFailed := cFailed c + 0;
               cProcessed := cProcessed c + batchLength batch |} in
  match bulkReply db (calls w) t with
  | Throw _ =>
      (addFailed c (batchLength batch),
       {| calls := calls w ++ [Bulk t]; updates := updates w |})
  | Ok _ =>
      match onProgress with
      | None => (c1, {| calls := calls w ++ [Bulk t]; updates := updates w |})
      | Some callback =>
          (match callback (progressOf totalRecords c1) with
           | Ok _ => c1
           | Throw _ => addFailed c1 (batchLength batch)
           end,
           {| calls := calls w ++ [Bulk t];
              updates := updates w ++ [progressOf totalRecords c1] |})
      end
  end.
Proof.
  intros Hne. destruct batch as [| sampleRecord rest]; [congruence |].
  unfold processBatch. rewrite bulkInsertWithTVP_cons. cbv zeta. cbn [hd].
  destruct (bulkReply db (calls w) _) as [u | e]; [| reflexivity].
  cbn [inserted batchFailed]. unfold batchLength.
  destruct onProgress as [callback |]; [| reflexivity].
  unfold Eff.report. cbn [calls updates].
  destruct (callback _); reflexivity.
Qed.

(** One round of the loop adds one bulk call for a non-empty batch,
    never lowers [processedCount], keeps it equal to [successCount], and
    hands at most one update to the callback, which reports the new
    [processedCount]. *)
Lemma processBatch_step (db : DbClient) (eng : Js.Engine) (table : string)
  (columnMapping : option (gmap string string))
  (onProgress : option (JobProgress -> Js.result unit)) (totalRecords : Z)
  (c : Counters) (batch : list ImportRecord) (w : World) :
  batch <> [] ->
  let r := processBatch db eng table columnMapping onProgress totalRecords c batch w in
  calls (snd r) =
    calls w ++ [Bulk (tvpTable eng table (hd [] batch) batch columnMapping)]
  /\ cProcessed c <= cProcessed (fst r) <= cProcessed c + batchLength batch
  /\ cProcessed (fst r) - cSuccess (fst r) = cProcessed c - cSuccess c
  /\ (updates (snd r) = updates w
      \/ updates (snd r) = updates w ++ [progressOf totalRecords
           {| cSuccess := cSuccess c + batchLength batch;
              cFailed := cFailed c + 0;
              cProcessed := cProcessed (fst r) |}]).
Proof.
  intros Hne. cbv zeta. rewrite processBatch_spec by assumption. cbv zeta.
  assert (0 <= batchLength batch) by (unfold batchLength; lia).
  destruct (bulkReply db (calls w) _) as [u | e].
  - destruct onProgress as [callback |].
    + destruct (callback _); cbn; repeat split; try lia; right; reflexivity.
    + cbn; repeat split; try lia; left; reflexivity.
  - cbn; repeat split; try lia; left; reflexivity.
Qed.

Lemma nondecreasingFrom_weaken (l : list Z) (lo lo' : Z) :
  lo <= lo' -> Spec.nondecreasingFrom lo' l -> Spec.nondecreasingFrom lo l.
Proof. destruct l as [| x rest]; cbn; [trivial |]. intros ? [? ?]. split; [lia | assumption]. Qed.

Lemma recordCount_cons (batch : list ImportRecord)
  (rest : list (list ImportRecord)) :
  Spec.recordCount (batch :: rest) = batchLength batch + Spec.recordCount rest.
Proof. unfold Spec.recordCount, batchLength. cbn. rewrite length_app. lia. Qed.

Lemma processBatches_cons (db : DbClient) (eng : Js.Engine) (table : string)
  (columnMapping : option (gmap string string))
  (onProgress : option (JobProgress -> Js.result unit)) (totalRecords : Z)
  (batch : list ImportRecord) (rest : list (list ImportRecord))
  (c : Counters) (w : World) :
  processBatches db eng table columnMapping onProgress totalRecords
    (batch :: rest) c w
  = processBatches db eng table columnMapping onProgress totalRecords rest
      (fst (processBatch db eng table columnMapping onProgress totalRecords c batch w))
      (snd (processBatch db eng table columnMapping onProgress totalRecords c batch w)).
Proof.
  cbn [processBatches].
  destruct (processBatch db eng table columnMapping onProgress totalRecords c batch w).
  reflexivity.
Qed.

(** What the loop maintains over any sequence of non-empty batches: one
    bulk call per batch; [processedCount] never decreases, grows by at most
    the records received and stays equal to [successCount]; the updates
    handed to the callback carry the total, a [processed] that never
    decreases, and the percentage computed from the two. *)
Lemma processBatches_invariant (db : DbClient) (eng : Js.Engine) (table : string)
  (columnMapping : option (gmap string string))
  (onProgress : option (JobProgress -> Js.result unit)) (totalRecords : Z)
  (batches : list (list ImportRecord)) :
  Forall (fun b => b <> []) batches ->
  forall (c : Counters) (w : World),
    let r := processBatches db eng table columnMapping onProgress totalRecords
               batches c w in
    length (List.filter isBulk (calls (snd r)))
    = (length (List.filter isBulk (calls w)) + length batches)%nat
    /\ cProcessed c <= cProcessed (fst r) <= cProcessed c + Spec.recordCount batches
    /\ cProcessed (fst r) - cSuccess (fst r) = cProcessed c - cSuccess c
    /\ exists news,
        updates (snd r) = updates w ++ news
        /\ Spec.nondecreasingFrom (cProcessed c) (map processed news)
        /\ Forall (fun p => total p = totalRecords
                            /\ percentage p = percentageOf (processed p) totalRecords
                            /\ processed p <= cProcessed (fst r)) news.
Proof.
  induction 1 as [| batch rest Hne Hrest IH]; intros c w; cbv zeta.
  - cbn [processBatches fst snd length]. unfold Spec.recordCount. cbn.
    repeat split; try lia.
    exists []. rewrite app_nil_r. repeat split. constructor.
  - rewrite processBatches_cons, recordCount_cons.
    pose proof (processBatch_step db eng table columnMapping onProgress
                  totalRecords c batch w Hne) as Hstep.
    cbv zeta in Hstep.
    destruct (processBatch db eng table columnMapping onProgress totalRecords
                c batch w) as [c' w'].
    cbn [fst snd] in *.
    destruct Hstep as (Hcalls & Hproc & Hsucc & Hupd).
    specialize (IH c' w'). cbv zeta in IH.
    destruct IH as (IHcalls & IHproc & IHsucc & news & IHupd & IHmono & IHall).
    split; [| split; [| split]].
    + rewrite IHcalls, Hcalls, List.filter_app, length_app. cbn. lia.
    + lia.
    + lia.
    + destruct Hupd as [Hupd | Hupd].
      * exists news. rewrite IHupd, Hupd. split; [reflexivity |].
        split; [| exact IHall].
        apply nondecreasingFrom_weaken with (lo' := cProcessed c');
          [lia | exact IHmono].
      * eexists (_ :: news). rewrite IHupd, Hupd, <- app_assoc.
        split; [reflexivity |]. cbn [map processed progressOf cProcessed].
        split; [split; [lia | exact IHmono] |].
        constructor; [| exact IHall].
        cbn. repeat split. lia.
Qed.

(** ** [processImport] *)

(** The row count succeeds exactly when the file is readable and the
    sheet exists; the stream reader then succeeds as well. *)
Lemma getRowCount_ok (fs : FileSystem) (filePath : string)
  (sheet : option string) (skipRows : nat) (n : Z) :
  getRowCount fs filePath sheet skipRows = Ok n ->
  exists wb ws,
    fs filePath = Ok wb /\ selectWorksheet wb sheet = Some ws
    /\ n = Z.max 0 (Excel.rowCount ws - (1 + Z.of_nat skipRows)).
Proof.
  unfold getRowCount.
  destruct (fs filePath) as [wb | e]; [| discriminate].
  destruct (selectWorksheet wb sheet) as [ws |] eqn:Hws; [| discriminate].
  intros H. injection H as <-. exists wb, ws. repeat split. exact Hws.
Qed.

Lemma dataRows_length (ws : Worksheet) (skipRows : nat) :
  Z.of_nat (length (Spec.dataRows ws skipRows))
  = Z.max 0 (Excel.rowCount ws - (1 + Z.of_nat skipRows)).
Proof. unfold Spec.dataRows, Excel.rowCount. rewrite length_skipn. lia. Qed.

(** The records streamed are at most the rows counted. *)
Lemma stream_within_rowCount (eng : Js.Engine) (fs : FileSystem)
  (filePath : string) (sheet : option string) (skipRows : nat) (n : Z) :
  getRowCount fs filePath sheet skipRows = Ok n ->
  exists batches,
    streamExcelRows eng fs filePath sheet skipRows = Ok batches
    /\ Forall (fun b => b <> []) batches
    /\ Spec.recordCount batches <= n.
Proof.
  intros Hn. apply getRowCount_ok in Hn. destruct Hn as (wb & ws & Hfs & Hws & ->).
  unfold streamExcelRows.
  rewrite (collectRows_spec eng fs filePath sheet skipRows wb ws Hfs Hws).
  eexists. split; [reflexivity |]. split.
  - eapply List.Forall_impl; [| apply yieldLoop_sizes].
    intros b Hb ->. cbn in Hb. lia.
  - unfold Spec.recordCount. rewrite yieldAll_concat, length_map, <- dataRows_length.
    pose proof (List.filter_length_le
                  (Spec.hasDataUnderHeader eng (Spec.headersOf eng ws skipRows))
                  (Spec.dataRows ws skipRows)).
    lia.
Qed.

Lemma processImport_spec (db : DbClient) (eng : Js.Engine) (fs : FileSystem)
  (startTime endTime : Z) (filePath table : string) (sheet : option string)
  (columnMapping : option (gmap string string)) (skipRows : nat)
  (onProgress : option (JobProgress -> Js.result unit)) (w : World) :
  processImport db eng fs startTime endTime filePath table sheet columnMapping
    skipRows onProgress w =
  match fst (tableExists db table w) with
  | Ok true =>
      match getRowCount fs filePath sheet skipRows,
            streamExcelRows eng fs filePath sheet skipRows with
      | Ok totalRecords, Ok batches =>
          let r := processBatches db eng table columnMapping onProgress
                     totalRecords batches zeroCounters
                     (snd (tableExists db table w)) in
          (Ok {| successCount := cSuccess (fst r);
                 failedCount := cFailed (fst r);
                 duration := endTime - startTime |}, snd r)
      | Throw e, _ => (Throw e, snd (tableExists db table w))
      | Ok _, Throw e => (Throw e, snd (tableExists db table w))
      end
  | Ok false =>
      (Throw (JsError (missingTable table)), snd (tableExists db table w))
  | Throw e => (Throw e, snd (tableExists db table w))
  end.
Proof.
  unfold processImport, Eff.bind, Eff.lift, Eff.throw.
  rewrite tableExists_spec. cbn [fst snd].
  destruct (match tableCountReply db (calls w) table with
            | Ok (count :: _) => 0 <? count
            | _ => false
            end); cbn [negb]; [| reflexivity].
  destruct (getRowCount fs filePath sheet skipRows); [| reflexivity].
  destruct (streamExcelRows eng fs filePath sheet skipRows); [| reflexivity].
  cbv zeta. destruct (processBatches _ _ _ _ _ _ _ _ _). reflexivity.
Qed.

(** When every bulk insert raises, the loop counts every record as
    failed, none as inserted, sends no update and still attempts every
    batch. *)
Lemma processBatches_none_inserted (db : DbClient) (eng : Js.Engine)
  (table : string) (columnMapping : option (gmap string string))
  (onProgress : option (JobProgress -> Js.result unit)) (totalRecords : Z)
  (batches : list (list ImportRecord)) :
  (forall h t, Js.isOk (bulkReply db h t) = false) ->
  Forall (fun b => b <> []) batches ->
  forall (c : Counters) (w : World),
    let r := processBatches db eng table columnMapping onProgress totalRecords
               batches c w in
    cSuccess (fst r) = cSuccess c
    /\ cFailed (fst r) = cFailed c + Spec.recordCount batches
    /\ updates (snd r) = updates w
    /\ length (List.filter isBulk (calls (snd r)))
       = (length (List.filter isBulk (calls w)) + length batches)%nat.
Proof.
  intros Hbulk.
  induction 1 as [| batch rest Hne Hrest IH]; intros c w; cbv zeta.
  - cbn [processBatches fst snd length].
    unfold Spec.recordCount. cbn [concat length Z.of_nat].
    repeat split; lia.
  - rewrite processBatches_cons, recordCount_cons.
    rewrite (processBatch_spec db eng table columnMapping onProgress
               totalRecords c batch w Hne). cbv zeta.
    specialize (Hbulk (calls w)
                  (tvpTable eng table (hd [] batch) batch columnMapping)).
    destruct (bulkReply db (calls w) _) as [u | e]; [discriminate |].
    cbn [fst snd].
    match goal with
    | |- context [processBatches _ _ _ _ _ _ rest ?c1 ?w1] =>
        destruct (IH c1 w1) as (IHs & IHf & IHu & IHc)
    end.
    cbn [cSuccess cFailed cProcessed updates calls addFailed] in IHs, IHf, IHu, IHc.
    rewrite IHs, IHf, IHu, IHc, List.filter_app, length_app. cbn.
    repeat split; lia.
Qed.



Lemma nondecreasingFrom_lower (l : list Z) :
  forall lo x, Spec.nondecreasingFrom lo l -> In x l -> lo <= x.
Proof.
  induction l as [| y rest IH]; intros lo x Hl Hx; [contradiction |].
  cbn in Hl. destruct Hl as [Hlo Hrest]. destruct Hx as [-> | Hx]; [exact Hlo |].
  specialize (IH y x Hrest Hx). lia.
Qed.

(** The updates a run of [processImport] adds: [processed] starts at 0 or
    above and never decreases from one update to the next; each update
    carries the percentage computed from its [processed] and [total], and
    its [processed] is at most its [total]. *)
Lemma processImport_updates (db : DbClient) (eng : Js.Engine) (fs : FileSystem)
  (startTime endTime : Z) (filePath table : string) (sheet : option string)
  (columnMapping : option (gmap string string)) (skipRows : nat)
  (onProgress : option (JobProgress -> Js.result unit)) (w : World) :
  exists news,
    updates (snd (processImport db eng fs startTime endTime filePath table sheet
                    columnMapping skipRows onProgress w))
    = updates w ++ news
    /\ Spec.nondecreasingFrom 0 (map processed news)
    /\ Forall (fun p => percentage p = percentageOf (processed p) (total p)
                        /\ processed p <= total p) news.
Proof.
  rewrite processImport_spec, tableExists_spec. cbn [fst snd].
  destruct (match tableCountReply db (calls w) table with
            | Ok (count :: _) => 0 <? count
            | _ => false
            end);
    [| exists []; rewrite app_nil_r; cbn; repeat split; constructor].
  destruct (getRowCount fs filePath sheet skipRows) as [n | e] eqn:Hn;
    [| exists []; rewrite app_nil_r; cbn; repeat split; constructor].
  destruct (stream_within_rowCount eng fs filePath sheet skipRows n Hn)
    as (batches & -> & Hne & Hcount).
  cbv zeta. cbn [snd].
  destruct (processBatches_invariant db eng table columnMapping onProgress n
              batches Hne zeroCounters
              {| calls := calls w ++ [QueryTableCount table];
                 updates := updates w |})
    as (_ & Hproc & _ & news & Hupd & Hmono & Hall).
  cbn [cProcessed zeroCounters updates] in *.
  exists news. split; [exact Hupd |]. split; [exact Hmono |].
  eapply List.Forall_impl; [| exact Hall].
  cbn beta. intros p (-> & Hp & Hle). split; [exact Hp | lia].
Qed.

(** The half of C1 that holds: over the updates of a run, [processed]
    never decreases. *)
Lemma processed_never_decreases (db : DbClient) (eng : Js.Engine)
  (fs : FileSystem) (startTime endTime : Z) (filePath table : string)
  (sheet : option string) (columnMapping : option (gmap string string))
  (skipRows : nat) (onProgress : option (JobProgress -> Js.result unit)) :
  Spec.nondecreasingFrom 0
    (map processed
       (updates (snd (processImport db eng fs startTime endTime filePath table
                        sheet columnMapping skipRows onProgress emptyWorld)))).
Proof.
  destruct (processImport_updates db eng fs startTime endTime filePath table
              sheet columnMapping skipRows onProgress emptyWorld)
    as (news & -> & Hmono & _).
  exact Hmono.
Qed.

(** What [processedCount] counts: the rows of the batches whose bulk
    insert returned, the same rows as [successCount]; the rows of a batch
    that raised are added to [failedCount] only. *)
Lemma processedCount_is_successCount (db : DbClient) (eng : Js.Engine)
  (table : string) (columnMapping : option (gmap string string))
  (onProgress : option (JobProgress -> Js.result unit)) (totalRecords : Z)
  (batches : list (list ImportRecord)) (w : World) :
  Forall (fun b => b <> []) batches ->
  cProcessed (fst (processBatches db eng table columnMapping onProgress
                     totalRecords batches zeroCounters w))
  = cSuccess (fst (processBatches db eng table columnMapping onProgress
                     totalRecords batches zeroCounters w)).
Proof.
  intros Hne.
  destruct (processBatches_invariant db eng table columnMapping onProgress
              totalRecords batches Hne zeroCounters w) as (_ & _ & H & _).
  cbn in H. lia.
Qed.

(** C1 does not hold of the code: [processed] leaves out the rows of a
    batch that failed. A file with 501 rows, the bulk insert of the first
    batch refused, that of the second accepted: the one update, sent after
    the second batch, reports [processed = 1] and [failed = 500] while 1
    row has been inserted and 500 have failed. *)
Theorem processed_misses_failed_batches :
  exists r p,
    fst (processImport Samples.firstBulkFailsDb Samples.engine
           (Samples.fileOf 501) 0 5 "upload.xlsx" "People" None None 0
           Samples.quietCallback emptyWorld) = Ok r
    /\ updates (snd (processImport Samples.firstBulkFailsDb Samples.engine
                       (Samples.fileOf 501) 0 5 "upload.xlsx" "People" None
                       None 0 Samples.quietCallback emptyWorld)) = [p]
    /\ successCount r = 1 /\ failedCount r = 500
    /\ processed p = 1 /\ failed p = 500 /\ total p = 501
    /\ processed p <> successCount r + failedCount r.
Proof.
  eexists. eexists.
  split; [vm_compute; reflexivity |].
  split; [vm_compute; reflexivity |].
  cbn. repeat split. discriminate.
Qed.

(** The rounding is that of the double: 14500 rows of 100000 make
    14.499999999999998 percent, reported as 14, where the exact ratio 14.5
    would round to 15. *)
Lemma percentage_rounds_the_double :
  percentageOf 14500 100000 = Js.ofZ 14
  /\ (2 * (14500 * 100) + 100000) / (2 * 100000) = 15.
Proof. split; vm_compute; reflexivity. Qed.

Lemma getRowCount_same_file (fs1 fs2 : FileSystem) (filePath : string)
  (sheet : option string) (skipRows : nat) :
  fs1 filePath = fs2 filePath ->
  getRowCount fs1 filePath sheet skipRows = getRowCount fs2 filePath sheet skipRows.
Proof. intros H. unfold getRowCount. now rewrite H. Qed.

(** The batches the stream reader returns are never empty. *)
Lemma streamExcelRows_nonempty (eng : Js.Engine) (fs : FileSystem)
  (filePath : string) (sheet : option string) (skipRows : nat)
  (batches : list (list ImportRecord)) :
  streamExcelRows eng fs filePath sheet skipRows = Ok batches ->
  Forall (fun b => b <> []) batches.
Proof.
  unfold streamExcelRows.
  destruct (collectRows eng fs filePath sheet skipRows) as [batch | e];
    [| discriminate].
  intros H. injection H as <-.
  eapply List.Forall_impl; [| apply yieldLoop_sizes].
  intros b Hb ->. cbn in Hb. lia.
Qed.

(** The run of [processImportAt], by the outcome of its steps. *)
Lemma processImportAt_spec (db : DbClient) (eng : Js.Engine)
  (fsCount fsStream : FileSystem) (startTime endTime : Z)
  (filePath table : string) (sheet : option string)
  (columnMapping : option (gmap string string)) (skipRows : nat)
  (onProgress : option (JobProgress -> Js.result unit)) (w : World) :
  processImportAt db eng fsCount fsStream startTime endTime filePath table sheet
    columnMapping skipRows onProgress w =
  match fst (tableExists db table w) with
  | Ok true =>
      match getRowCount fsCount filePath sheet skipRows,
            streamExcelRows eng fsStream filePath sheet skipRows with
      | Ok totalRecords, Ok batches =>
          let r := processBatches db eng table columnMapping onProgress
                     totalRecords batches zeroCounters
                     (snd (tableExists db table w)) in
          (Ok {| successCount := cSuccess (fst r);
                 failedCount := cFailed (fst r);
                 duration := endTime - startTime |}, snd r)
      | Throw e, _ => (Throw e, snd (tableExists db table w))
      | Ok _, Throw e => (Throw e, snd (tableExists db table w))
      end
  | Ok false =>
      (Throw (JsError (missingTable table)), snd (tableExists db table w))
  | Throw e => (Throw e, snd (tableExists db table w))
  end.
Proof.
  unfold processImportAt, Eff.bind, Eff.lift, Eff.throw.
  rewrite tableExists_spec. cbn [fst snd].
  destruct (match tableCountReply db (calls w) table with
            | Ok (count :: _) => 0 <? count
            | _ => false
            end); cbn [negb]; [| reflexivity].
  destruct (getRowCount fsCount filePath sheet skipRows); [| reflexivity].
  destruct (streamExcelRows eng fsStream filePath sheet skipRows); [| reflexivity].
  cbv zeta. destruct (processBatches _ _ _ _ _ _ _ _ _). reflexivity.
Qed.

(** C2 as it is stated fails: nothing saturates the percentage. A file
    counted while it held 2 rows and streamed once it holds 3 makes
    [processImport] report 3 rows of a total of 2 as 150 percent, which
    exceeds 100. *)
Lemma percentage_exceeds_100_when_total_undercounts :
  ExcelService.getRowCount (Samples.fileOf 2) "upload.xlsx" None 0 = Ok 2
  /\ fst (processImportAt (Samples.healthyDb ["Name"]) Samples.engine
            (Samples.fileOf 2) (Samples.fileOf 3) 0 5 "upload.xlsx" "People"
            None None 0 Samples.quietCallback emptyWorld)
     = Ok {| successCount := 3; failedCount := 0; duration := 5 |}
  /\ updates (snd (processImportAt (Samples.healthyDb ["Name"]) Samples.engine
                     (Samples.fileOf 2) (Samples.fileOf 3) 0 5 "upload.xlsx"
                     "People" None None 0 Samples.quietCallback emptyWorld))
     = [ {| total := 2; processed := 3; failed := 0; percentage := Js.ofZ 150 |} ]
  /\ Js.ltb (Js.ofZ 100) (Js.ofZ 150) = true.
Proof. repeat split; vm_compute; reflexivity. Qed.

(** C2, amended. Every progress update of [processImport] reports the
    percentage [Math.round((processed / total) * 100)], computed in double
    precision and not clamped, whatever the file does between the two
    reads. Its [processed] is at most its [total] when the file streamed is
    the file that was counted, in which case the run is that of
    [processImport] on that file. *)
Theorem percentage_is_rounded_ratio (db : DbClient) (eng : Js.Engine)
  (fsCount fsStream : FileSystem) (startTime endTime : Z)
  (filePath table : string) (sheet : option string)
  (columnMapping : option (gmap string string)) (skipRows : nat)
  (onProgress : option (JobProgress -> Js.result unit))
  (w : World) (p : JobProgress) :
  In p (updates (snd (processImportAt db eng fsCount fsStream startTime endTime
                        filePath table sheet columnMapping skipRows onProgress
                        w))) ->
  (fsCount filePath = fsStream filePath ->
   processImportAt db eng fsCount fsStream startTime endTime filePath table sheet
     columnMapping skipRows onProgress w
   = processImport db eng fsStream startTime endTime filePath table sheet
       columnMapping skipRows onProgress w)
  /\ (In p (updates w)
      \/ (percentage p =
            Js.mathRound (Js.mul (Js.div (Js.ofZ (processed p))
                                    (Js.ofZ (total p)))
                            (Js.ofZ 100))
          /\ getRowCount fsCount filePath sheet skipRows = Ok (total p)
          /\ 0 <= processed p
          /\ (fsCount filePath = fsStream filePath -> processed p <= total p))).
Proof.
  intros Hin. split.
  - intros Hsame. rewrite processImportAt_spec, processImport_spec.
    now rewrite (getRowCount_same_file fsCount fsStream filePath sheet skipRows
                   Hsame).
  - revert Hin. rewrite processImportAt_spec, tableExists_spec. cbn [fst snd].
    destruct (match tableCountReply db (calls w) table with
              | Ok (count :: _) => 0 <? count
              | _ => false
              end); [| now left].
    destruct (getRowCount fsCount filePath sheet skipRows) as [n | e] eqn:Hn;
      [| now left].
    destruct (streamExcelRows eng fsStream filePath sheet skipRows)
      as [batches | e] eqn:Hstream; [| now left].
    cbv zeta. cbn [snd].
    pose proof (streamExcelRows_nonempty eng fsStream filePath sheet skipRows
                  batches Hstream) as Hne.
    destruct (processBatches_invariant db eng table columnMapping onProgress n
                batches Hne zeroCounters
                {| calls := calls w ++ [QueryTableCount table];
                   updates := updates w |})
      as (_ & Hproc & _ & news & Hupd & Hmono & Hall).
    cbn [cProcessed zeroCounters updates] in *.
    rewrite Hupd. intros Hin. apply in_app_or in Hin.
    destruct Hin as [Hin | Hin]; [now left | right].
    rewrite List.Forall_forall in Hall.
    destruct (Hall p Hin) as (Htotal & Hp & Hle).
    split; [rewrite Hp, Htotal; reflexivity |].
    split; [now rewrite Htotal |].
    split.
    + apply (nondecreasingFrom_lower (map processed news)); [exact Hmono |].
      now apply in_map.
    + intros Hsame.
      rewrite (getRowCount_same_file fsCount fsStream filePath sheet skipRows
                 Hsame) in Hn.
      destruct (stream_within_rowCount eng fsStream filePath sheet skipRows n Hn)
        as (batches' & Hstream' & _ & Hcount).
      rewrite Hstream in Hstream'. injection Hstream' as <-.
      rewrite Htotal. lia.
Qed.

(** The updates of a run over 1001 rows: 500 rows are 50 percent (49.95
    rounded), 1000 rows and 1001 rows are 100 percent. *)
Lemma percentage_is_rounded_ratio_witness :
  updates (snd (processImport (Samples.healthyDb ["Name"]) Samples.engine
                  (Samples.fileOf 1001) 0 5 "upload.xlsx" "People" None None 0
                  Samples.quietCallback emptyWorld))
  = [ {| total := 1001; processed := 500; failed := 0; percentage := Js.ofZ 50 |};
      {| total := 1001; processed := 1000; failed := 0; percentage := Js.ofZ 100 |};
      {| total := 1001; processed := 1001; failed := 0; percentage := Js.ofZ 100 |} ]
  /\ ((Samples.fileOf 1001 "upload.xlsx" = Samples.fileOf 1001 "upload.xlsx" ->
       processImportAt (Samples.healthyDb ["Name"]) Samples.engine
         (Samples.fileOf 1001) (Samples.fileOf 1001) 0 5 "upload.xlsx" "People"
         None None 0 Samples.quietCallback emptyWorld
       = processImport (Samples.healthyDb ["Name"]) Samples.engine
           (Samples.fileOf 1001) 0 5 "upload.xlsx" "People" None None 0
           Samples.quietCallback emptyWorld)
      /\ (In {| total := 1001; processed := 500; failed := 0;
                percentage := Js.ofZ 50 |}
             (updates emptyWorld)
          \/ (Js.ofZ 50 =
                Js.mathRound (Js.mul (Js.div (Js.ofZ 500) (Js.ofZ 1001))
                                (Js.ofZ 100))
              /\ getRowCount (Samples.fileOf 1001) "upload.xlsx" None 0 = Ok 1001
              /\ 0 <= 500
              /\ (Samples.fileOf 1001 "upload.xlsx"
                  = Samples.fileOf 1001 "upload.xlsx" -> 500 <= 1001)))).
Proof.
  split; [vm_compute; reflexivity |].
  apply (percentage_is_rounded_ratio (Samples.healthyDb ["Name"])
           Samples.engine (Samples.fileOf 1001) (Samples.fileOf 1001) 0 5
           "upload.xlsx" "People" None None 0%nat Samples.quietCallback
           emptyWorld
           {| total := 1001; processed := 500; failed := 0;
              percentage := Js.ofZ 50 |}).
  vm_compute. left. reflexivity.
Defined.

(* ===================================================================== *)
(** * Further properties of the code                                       *)
(* ===================================================================== *)

(** ** Row count, validation and the stream reader *)

(** X1. [getRowCount] and [validateExcel] agree on a file: when the count
    returns, it is not negative and it is the row count validation
    reports, though one clamps the difference and the other counts after
    [getRow]; when the count raises, validation answers invalid with a
    single error and a row count of 0. *)
Theorem getRowCount_agrees_with_validateExcel (eng : Js.Engine)
  (fs : FileSystem) (filePath : string) (requiredColumns : list string)
  (sheet : option string) (skipRows : nat) :
  (forall n,
      getRowCount fs filePath sheet skipRows = Ok n ->
      0 <= n
      /\ validRowCount
           (validateExcel eng fs filePath requiredColumns sheet skipRows) = n)
  /\ (forall e,
      getRowCount fs filePath sheet skipRows = Throw e ->
      isValid (validateExcel eng fs filePath requiredColumns sheet skipRows) = false
      /\ validRowCount
           (validateExcel eng fs filePath requiredColumns sheet skipRows) = 0
      /\ length (errors (validateExcel eng fs filePath requiredColumns sheet
                           skipRows)) = 1%nat).
Proof.
  split.
  - intros n Hn. apply getRowCount_ok in Hn.
    destruct Hn as (wb & ws & Hfs & Hws & ->).
    split; [lia |].
    rewrite (validateExcel_rowCount eng fs filePath requiredColumns sheet
               skipRows wb ws Hfs Hws).
    apply dataRows_length.
  - intros e. unfold getRowCount, validateExcel.
    destruct (fs filePath) as [wb | e']; [| intros _; repeat split].
    destruct (selectWorksheet wb sheet) as [ws |]; [discriminate |].
    intros _. repeat split.
Qed.

Lemma includes_In (headers : list (option string)) (col : string) :
  includes headers col = true <-> In (Some col) headers.
Proof.
  unfold includes. rewrite existsb_exists. split.
  - intros ([h |] & Hin & Heq); [| discriminate].
    apply String.eqb_eq in Heq. now subst.
  - intros Hin. exists (Some col). split; [exact Hin | apply String.eqb_refl].
Qed.

Lemma filter_nil_iff {A} (f : A -> bool) (l : list A) :
  List.filter f l = [] <-> forall x, In x l -> f x = false.
Proof.
  induction l as [| y rest IH]; cbn.
  - split; [intros _ x [] | reflexivity].
  - destruct (f y) eqn:E.
    + split; [discriminate |]. intros H. specialize (H y (or_introl eq_refl)).
      congruence.
    + rewrite IH. split.
      * intros H x [-> | Hx]; auto.
      * intros H x Hx. apply H. now right.
Qed.

(** X2. [validateExcel] answers valid exactly when the file can be read,
    the sheet exists, every required column is the trimmed text of a
    header cell, and at least one row lies below the header row. *)
Theorem validateExcel_valid_iff (eng : Js.Engine) (fs : FileSystem)
  (filePath : string) (requiredColumns : list string) (sheet : option string)
  (skipRows : nat) :
  isValid (validateExcel eng fs filePath requiredColumns sheet skipRows) = true
  <-> exists wb ws,
        fs filePath = Ok wb
        /\ selectWorksheet wb sheet = Some ws
        /\ (forall col, In col requiredColumns ->
                        In (Some col) (Spec.headersOf eng ws skipRows))
        /\ Spec.dataRows ws skipRows <> [].
Proof.
  unfold validateExcel.
  destruct (fs filePath) as [wb | e];
    [| split; [discriminate | intros (wb & ws & H & _); discriminate]].
  destruct (selectWorksheet wb sheet) as [ws |] eqn:Hsel;
    [| split; [discriminate |];
       intros (wb' & ws & Hwb & Hws & _); injection Hwb as <-; congruence].
  unfold Spec.headersOf, getRow. cbn [isValid fst]. rewrite rowCount_touchRow.
  set (headers := readHeaders eng (nth (1 + skipRows - 1) (sheetRows ws) [])).
  set (missing := List.filter (fun col => negb (includes headers col))
                    requiredColumns).
  assert (Hmissing : missing = [] <->
                     forall col, In col requiredColumns -> In (Some col) headers).
  { unfold missing. rewrite filter_nil_iff. split; intros H col Hcol.
    - apply includes_In. specialize (H col Hcol).
      now apply negb_false_iff in H.
    - apply negb_false_iff, includes_In. now apply H. }
  split.
  - intros Hvalid. exists wb, ws. split; [reflexivity |]. split; [exact Hsel |].
    destruct (Spec.dataRows ws skipRows) as [| r rest] eqn:Hrows.
    + cbn [length Z.of_nat Z.eqb] in Hvalid.
      destruct (_ && _) in Hvalid; cbn in Hvalid; discriminate.
    + split; [| discriminate]. apply Hmissing.
      replace (Z.of_nat (length (r :: rest)) =? 0) with false in Hvalid
        by (symmetry; apply Z.eqb_neq; cbn [length]; lia).
      assert (Hreq : requiredColumns = [] -> missing = [])
        by (intros E; unfold missing; rewrite E; reflexivity).
      clearbody missing.
      destruct requiredColumns as [| c cs]; [now apply Hreq |].
      destruct missing as [| m rest']; [reflexivity |].
      cbn in Hvalid. discriminate.
  - intros (wb' & ws' & Hwb & Hws & Hcols & Hrows).
    injection Hwb as <-. rewrite Hsel in Hws. injection Hws as <-.
    apply Hmissing in Hcols. rewrite Hcols.
    destruct (Spec.dataRows ws skipRows) as [| r rest]; [congruence |].
    replace (Z.of_nat (length (r :: rest)) =? 0) with false
      by (symmetry; apply Z.eqb_neq; cbn [length]; lia).
    cbn. now rewrite andb_false_r.
Qed.

Lemma yieldLoop_length (batch : list ImportRecord) :
  forall fuel i,
    (length batch - i <= fuel)%nat ->
    length (yieldLoop fuel i batch) = ((length batch - i + 499) / 500)%nat.
Proof.
  induction fuel as [| fuel IH]; intros i Hfuel.
  - cbn. replace (length batch - i)%nat with 0%nat by lia. reflexivity.
  - rewrite yieldLoop_S.
    destruct (Nat.ltb_spec i (length batch)) as [Hi | Hi].
    + cbn [length]. rewrite IH by (unfold batchSize; lia). unfold batchSize.
      destruct (Nat.le_gt_cases 500 (length batch - i)) as [Hbig | Hsmall].
      * replace (length batch - i + 499)%nat
          with (1 * 500 + (length batch - (i + 500) + 499))%nat by lia.
        rewrite Nat.div_add_l by lia. lia.
      * replace (length batch - (i + 500))%nat with 0%nat by lia.
        cbn [Nat.add]. rewrite (Nat.div_small 499 500) by lia.
        apply (Nat.div_unique _ 500 1 (length batch - i + 499 - 500)); lia.
    + cbn [length]. replace (length batch - i)%nat with 0%nat by lia.
      reflexivity.
Qed.

(** X3. The stream reader emits as many batches as 500 goes into the
    number of records, rounded up: none for no record, and never an empty
    batch in between. *)
Theorem streamExcelRows_batch_count (eng : Js.Engine) (fs : FileSystem)
  (filePath : string) (sheet : option string) (skipRows : nat)
  (batches : list (list ImportRecord)) :
  streamExcelRows eng fs filePath sheet skipRows = Ok batches ->
  length batches = ((length (concat batches) + 499) / 500)%nat.
Proof.
  unfold streamExcelRows.
  destruct (collectRows eng fs filePath sheet skipRows) as [batch | e];
    [| discriminate].
  intros H. injection H as <-.
  rewrite yieldAll_concat. unfold yieldAll.
  rewrite yieldLoop_length by lia. now rewrite Nat.sub_0_r.
Qed.

Lemma streamExcelRows_batch_count_witness :
  length [repeat Samples.one 500; repeat Samples.one 500; repeat Samples.one 1]
  = ((length (concat [repeat Samples.one 500; repeat Samples.one 500;
                      repeat Samples.one 1]) + 499) / 500)%nat.
Proof.
  apply (streamExcelRows_batch_count Samples.engine (Samples.fileOf 1001)
           "upload.xlsx" None 0).
  vm_compute. reflexivity.
Defined.

(** X4. The stream reader and [getRowCount] fail together, with the same
    error, and when the count returns the records streamed are no more
    than the rows counted: the total of a job never undercounts. *)
Theorem stream_matches_rowCount (eng : Js.Engine) (fs : FileSystem)
  (filePath : string) (sheet : option string) (skipRows : nat) :
  (forall e,
      getRowCount fs filePath sheet skipRows = Throw e
      <-> streamExcelRows eng fs filePath sheet skipRows = Throw e)
  /\ (forall n,
      getRowCount fs filePath sheet skipRows = Ok n ->
      exists batches,
        streamExcelRows eng fs filePath sheet skipRows = Ok batches
        /\ Spec.recordCount batches <= n).
Proof.
  split.
  - intros e. unfold getRowCount, streamExcelRows, collectRows.
    destruct (fs filePath) as [wb | e'];
      [| split; intros H; injection H as ->; reflexivity].
    destruct (selectWorksheet wb sheet) as [ws |];
      [| split; intros H; injection H as <-; reflexivity].
    unfold getRow. split; discriminate.
  - intros n Hn.
    destruct (stream_within_rowCount eng fs filePath sheet skipRows n Hn)
      as (batches & Hs & _ & Hle).
    exists batches. split; assumption.
Qed.

(** ** The records the stream reader builds *)

Lemma set_keys (r : ImportRecord) (key : string) (v : Js.value) :
  map fst (Record_.set r key v)
  = if existsb (fun k => String.eqb k key) (map fst r)
    then map fst r
    else map fst r ++ [key].
Proof.
  induction r as [| [k v'] rest IH]; cbn; [reflexivity |].
  destruct (String.eqb k key); cbn; [reflexivity |].
  rewrite IH. now destruct (existsb _ _).
Qed.

Lemma existsb_eqb_In (key : string) (keys : list string) :
  existsb (fun k => String.eqb k key) keys = true <-> In key keys.
Proof.
  rewrite existsb_exists. split.
  - intros (k & Hin & Heq). apply String.eqb_eq in Heq. now subst.
  - intros Hin. exists key. split; [exact Hin | apply String.eqb_refl].
Qed.

Lemma set_keys_NoDup (r : ImportRecord) (key : string) (v : Js.value) :
  NoDup (map fst r) -> NoDup (map fst (Record_.set r key v)).
Proof.
  intros Hr. rewrite set_keys.
  destruct (existsb _ _) eqn:E; [exact Hr |].
  apply NoDup_app. split; [exact Hr |]. split.
  - intros k Hk Hk'. apply list_elem_of_In in Hk. apply list_elem_of_In in Hk'.
    destruct Hk' as [-> | []]. apply existsb_eqb_In in Hk. congruence.
  - apply NoDup_singleton.
Qed.

Lemma set_keys_In (r : ImportRecord) (key k : string) (v : Js.value) :
  In k (map fst (Record_.set r key v)) -> k = key \/ In k (map fst r).
Proof.
  rewrite set_keys. destruct (existsb _ _); [now right |].
  intros H. apply in_app_or in H. destruct H as [H | [-> | []]]; auto.
Qed.

Lemma headerAt_In (headers : list (option string)) (colNumber : nat) (h : string) :
  headerAt headers colNumber = Some h -> In (Some h) headers.
Proof.
  unfold headerAt.
  destruct (nth_error headers (colNumber - 1)) as [[h' |] |] eqn:E;
    cbn; try discriminate.
  intros H. injection H as <-. eapply nth_error_In. exact E.
Qed.

(** The keys of a record read from a row: each a non-empty header, each
    once. *)
Lemma readRow_keys (eng : Js.Engine) (headers : list (option string))
  (cells : list (nat * CellValue)) :
  forall (record : ImportRecord) (hasData : bool),
    NoDup (map fst record) ->
    (forall k, In k (map fst record) -> k <> "" /\ In (Some k) headers) ->
    NoDup (map fst (fst (fold_left (visitCell eng headers) cells (record, hasData))))
    /\ (forall k,
          In k (map fst (fst (fold_left (visitCell eng headers) cells
                                (record, hasData)))) ->
          k <> "" /\ In (Some k) headers).
Proof.
  induction cells as [| [colNumber cell] rest IH]; intros record hasData Hnd Hkeys.
  - cbn. split; assumption.
  - cbn [fold_left]. unfold visitCell at 2 4.
    destruct (headerAt headers colNumber) as [header |] eqn:Hh; [| now apply IH].
    destruct (Js.truthy header) eqn:Ht; [| now apply IH].
    apply IH.
    + now apply set_keys_NoDup.
    + intros k Hk. apply set_keys_In in Hk. destruct Hk as [-> | Hk].
      * split; [intros -> ; discriminate | now apply headerAt_In in Hh].
      * now apply Hkeys.
Qed.

Lemma trimEnd_idempotent (s : string) : Js.trimEnd (Js.trimEnd s) = Js.trimEnd s.
Proof.
  induction s as [| c rest IH]; [reflexivity |].
  cbn [Js.trimEnd].
  destruct (Js.trimEnd rest) as [| d t] eqn:E.
  - destruct (Js.isWhiteSpace c) eqn:Hc; [reflexivity |].
    cbn [Js.trimEnd]. now rewrite Hc.
  - cbn [Js.trimEnd] in *. now rewrite IH.
Qed.

Lemma trimStart_head (s : string) :
  Js.trimStart s = ""
  \/ exists c rest, Js.trimStart s = String c rest /\ Js.isWhiteSpace c = false.
Proof.
  induction s as [| c rest IH]; [now left |].
  cbn [Js.trimStart]. destruct (Js.isWhiteSpace c) eqn:Hc; [exact IH |].
  right. eauto.
Qed.

Lemma trimEnd_head (c : ascii) (rest : string) :
  Js.isWhiteSpace c = false ->
  exists rest', Js.trimEnd (String c rest) = String c rest'.
Proof.
  intros Hc. cbn [Js.trimEnd]. destruct (Js.trimEnd rest); [rewrite Hc |]; eauto.
Qed.

(** Trimming twice is trimming once. *)
Lemma trim_idempotent (s : string) : Js.trim (Js.trim s) = Js.trim s.
Proof.
  unfold Js.trim.
  destruct (trimStart_head s) as [-> | (c & rest & -> & Hc)]; [reflexivity |].
  destruct (trimEnd_head c rest Hc) as (rest' & E).
  rewrite E. cbn [Js.trimStart]. rewrite Hc, <- E. apply trimEnd_idempotent.
Qed.

Lemma setIndex_In (headers : list (option string)) :
  forall (index : nat) (text h : string),
    In (Some h) (setIndex headers index text) -> h = text \/ In (Some h) headers.
Proof.
  induction headers as [| x rest IH]; intros index text h.
  - induction index as [| index IHi]; cbn.
    + intros [H | []]. injection H as <-. now left.
    + intros [H | H]; [discriminate | exact (IHi H)].
  - destruct index as [| index]; cbn.
    + intros [H | H]; [injection H as <-; now left | right; now right].
    + intros [H | H]; [right; now left |].
      apply IH in H. destruct H; [now left | right; now right].
Qed.

(** Every header is the trimmed text of a cell of the header row. *)
Lemma readHeaders_In (eng : Js.Engine) (headerRow : Row) (h : string) :
  In (Some h) (readHeaders eng headerRow) ->
  exists cell, In cell headerRow /\ h = Js.trim (stringOfCell eng cell).
Proof.
  unfold readHeaders.
  assert (Hcells : forall nc, In nc (eachCell headerRow) -> In (snd nc) headerRow).
  { intros [n c] Hin. unfold eachCell, Excel.numbered in Hin.
    apply List.filter_In in Hin. destruct Hin as [Hin _].
    eapply in_combine_r. exact Hin. }
  revert Hcells. generalize (eachCell headerRow) as cells.
  assert (Hgen : forall cells headers,
             (forall nc, In nc cells -> In (snd nc) headerRow) ->
             In (Some h) (fold_left (visitHeader eng) cells headers) ->
             In (Some h) headers
             \/ exists cell, In cell headerRow /\ h = Js.trim (stringOfCell eng cell)).
  { induction cells as [| [n c] rest IH]; intros headers Hcells Hin.
    - now left.
    - cbn [fold_left] in Hin. apply IH in Hin.
      + destruct Hin as [Hin | Hin]; [| now right].
        unfold visitHeader in Hin. apply setIndex_In in Hin.
        destruct Hin as [-> | Hin]; [| now left].
        right. exists c. split; [| reflexivity].
        apply (Hcells (n, c)). now left.
      + intros nc Hnc. apply Hcells. now right. }
  intros cells Hcells Hin.
  destruct (Hgen cells [] Hcells Hin) as [[] | H]. exact H.
Qed.

(** X5. Every record the stream reader emits has for keys headers of the
    sheet, each non-empty, free of leading and trailing white space, and
    present once: a header repeated in the sheet gives one key. *)
Theorem streamExcelRows_record_keys (eng : Js.Engine) (fs : FileSystem)
  (filePath : string) (sheet : option string) (skipRows : nat)
  (wb : Workbook) (ws : Worksheet) (batches : list (list ImportRecord)) :
  fs filePath = Ok wb ->
  selectWorksheet wb sheet = Some ws ->
  streamExcelRows eng fs filePath sheet skipRows = Ok batches ->
  forall batch record,
    In batch batches -> In record batch ->
    NoDup (map fst record)
    /\ (forall key,
          In key (map fst record) ->
          key <> "" /\ Js.trim key = key
          /\ In (Some key) (Spec.headersOf eng ws skipRows)).
Proof.
  intros Hfs Hws Hstream batch record Hbatch Hrecord.
  unfold streamExcelRows in Hstream.
  rewrite (collectRows_spec eng fs filePath sheet skipRows wb ws Hfs Hws) in Hstream.
  injection Hstream as <-.
  assert (Hin : In record (concat (yieldAll
             (map (Spec.recordOf eng (Spec.headersOf eng ws skipRows))
                (List.filter
                   (Spec.hasDataUnderHeader eng (Spec.headersOf eng ws skipRows))
                   (Spec.dataRows ws skipRows)))))).
  { apply in_concat. exists batch. split; assumption. }
  rewrite yieldAll_concat in Hin. apply in_map_iff in Hin.
  destruct Hin as (r & <- & _).
  unfold Spec.recordOf, readRow.
  destruct (readRow_keys eng (Spec.headersOf eng ws skipRows)
              (eachCellIncludeEmpty r) [] false) as [Hnd Hkeys].
  - constructor.
  - intros k [].
  - split; [exact Hnd |]. intros key Hkey.
    destruct (Hkeys key Hkey) as [Hne Hh]. repeat split; try assumption.
    apply readHeaders_In in Hh. destruct Hh as (cell & _ & ->).
    apply trim_idempotent.
Qed.

Lemma streamExcelRows_record_keys_witness :
  NoDup (map fst Cases.repeatedHeaderRecord)
  /\ (forall key,
        In key (map fst Cases.repeatedHeaderRecord) ->
        key <> "" /\ Js.trim key = key
        /\ In (Some key)
             (Spec.headersOf Samples.engine Cases.repeatedHeaderSheet 0)).
Proof.
  apply (streamExcelRows_record_keys Samples.engine
           (fun _ => Ok [Cases.repeatedHeaderSheet]) "upload.xlsx" None 0
           [Cases.repeatedHeaderSheet] Cases.repeatedHeaderSheet
           [[Cases.repeatedHeaderRecord]] eq_refl eq_refl eq_refl
           [Cases.repeatedHeaderRecord] Cases.repeatedHeaderRecord).
  - left. reflexivity.
  - left. reflexivity.
Defined.

Lemma existsb_all_false {A} (f : A -> bool) (l : list A) :
  (forall x, In x l -> f x = false) -> existsb f l = false.
Proof.
  induction l as [| y rest IH]; intros H; cbn; [reflexivity |].
  rewrite (H y (or_introl eq_refl)). apply IH. intros x Hx. apply H. now right.
Qed.

(** X6. When the header row holds no text, which includes a skip offset
    beyond the last row, the stream reader emits nothing whatever the rows
    below hold; yet validation with no required column accepts the file as
    soon as a row lies below the header row. *)
Theorem blank_header_row_streams_nothing (eng : Js.Engine) (fs : FileSystem)
  (filePath : string) (sheet : option string) (skipRows : nat)
  (wb : Workbook) (ws : Worksheet) :
  fs filePath = Ok wb ->
  selectWorksheet wb sheet = Some ws ->
  (forall h, In (Some h) (Spec.headersOf eng ws skipRows) -> h = "") ->
  streamExcelRows eng fs filePath sheet skipRows = Ok []
  /\ (Spec.dataRows ws skipRows <> [] ->
      isValid (validateExcel eng fs filePath [] sheet skipRows) = true).
Proof.
  intros Hfs Hws Hblank. split.
  - unfold streamExcelRows.
    rewrite (collectRows_spec eng fs filePath sheet skipRows wb ws Hfs Hws).
    replace (List.filter _ _) with (@nil Row); [reflexivity |].
    symmetry. apply filter_nil_iff. intros r _.
    unfold Spec.hasDataUnderHeader. apply existsb_all_false.
    intros [n c] _. unfold Spec.underHeader. cbn [fst snd].
    destruct (headerAt _ n) as [h |] eqn:Hh; [| reflexivity].
    apply headerAt_In, Hblank in Hh. now subst.
  - intros Hrows. unfold validateExcel, getRow. rewrite Hfs, Hws.
    cbn [isValid length Nat.ltb Nat.leb andb]. rewrite rowCount_touchRow.
    destruct (Spec.dataRows ws skipRows) as [| r rest]; [congruence |].
    replace (Z.of_nat (length (r :: rest)) =? 0) with false
      by (symmetry; apply Z.eqb_neq; cbn [length]; lia).
    reflexivity.
Qed.

Lemma blank_header_row_streams_nothing_witness :
  streamExcelRows Samples.engine (fun _ => Ok [Cases.blankHeaderSheet])
    "upload.xlsx" None 0 = Ok []
  /\ (Spec.dataRows Cases.blankHeaderSheet 0 <> [] ->
      isValid (validateExcel Samples.engine (fun _ => Ok [Cases.blankHeaderSheet])
                 "upload.xlsx" [] None 0) = true).
Proof.
  apply (blank_header_row_streams_nothing Samples.engine
           (fun _ => Ok [Cases.blankHeaderSheet]) "upload.xlsx" None 0
           [Cases.blankHeaderSheet] Cases.blankHeaderSheet eq_refl eq_refl).
  intros h H. vm_compute in H. destruct H as [H | []].
  injection H as <-. reflexivity.
Defined.

(** ** The types and tables the repository builds *)

(** X7. A sized text type is inferred for strings only, and the size
    always holds the value: 255 for up to 255 characters, 4000 above. *)
Theorem inferSqlType_size_fits (eng : Js.Engine) (value : Js.value) (n : Z) :
  inferSqlType eng value = NVarChar (Len n) ->
  exists s,
    value = VString s
    /\ stringLength s <= n
    /\ (n = 255 \/ n = 4000 /\ 255 < stringLength s).
Proof.
  destruct value as [| | x | b | ms | s | d]; cbn [inferSqlType];
    try discriminate.
  - destruct (Js.isInteger x); discriminate.
  - destruct (dateParses eng s && datePattern s); [discriminate |].
    destruct (4000 <? stringLength s) eqn:Hmax; [discriminate |].
    apply Z.ltb_ge in Hmax.
    destruct (255 <? stringLength s) eqn:Hlong; intros H; injection H as <-;
      exists s; (split; [reflexivity |]).
    + apply Z.ltb_lt in Hlong. split; [lia | right; split; [reflexivity | lia]].
    + apply Z.ltb_ge in Hlong. split; [lia | left; reflexivity].
Qed.

Lemma inferSqlType_size_fits_witness :
  exists s,
    VString "Ada Lovelace" = VString s
    /\ stringLength s <= 255
    /\ (255 = 255 \/ 255 = 4000 /\ 255 < stringLength s).
Proof.
  apply (inferSqlType_size_fits Samples.engine (VString "Ada Lovelace") 255).
  reflexivity.
Defined.

Lemma get_missing (record : ImportRecord) (key : string) :
  ~ In key (map fst record) -> Record_.get record key = VUndefined.
Proof.
  induction record as [| [k v] rest IH]; intros Hnot; cbn; [reflexivity |].
  destruct (String.eqb k key) eqn:Hk.
  - apply String.eqb_eq in Hk. exfalso. apply Hnot. now left.
  - apply IH. intros Hin. apply Hnot. now right.
Qed.

Lemma lookup_map {A B} (f : A -> B) (l : list A) :
  forall i, map f l !! i = f <$> (l !! i).
Proof.
  induction l as [| x rest IH]; intros [| i]; cbn; try reflexivity. apply IH.
Qed.

(** X8. For records none of whose keys is the name of a property
    inherited from [Object.prototype], the table handed to the bulk
    operation is rectangular whether or not the records have the same
    keys: its columns are the keys of the first record, renamed by the
    mapping and all nullable; it has one row per record and every row has
    one value per column, the record's value under that key. A record
    without the key gives [undefined], and a key the first record lacks is
    sent for no record. *)
Theorem tvpTable_is_rectangular (eng : Js.Engine) (table : string)
  (sampleRecord : ImportRecord) (records : list ImportRecord)
  (columnMapping : option (gmap string string)) :
  Terms.plainKeys (sampleRecord :: records) = true ->
  map columnName (columns (tvpTable eng table sampleRecord records columnMapping))
    = map (mapColumn columnMapping) (Record_.keys sampleRecord)
  /\ Forall (fun c => nullable c = true)
       (columns (tvpTable eng table sampleRecord records columnMapping))
  /\ length (rows (tvpTable eng table sampleRecord records columnMapping))
     = length records
  /\ Forall (fun r => length r
                      = length (columns (tvpTable eng table sampleRecord records
                                           columnMapping)))
       (rows (tvpTable eng table sampleRecord records columnMapping))
  /\ (forall (j i : nat) (record : ImportRecord) (key : string),
        records !! j = Some record ->
        Record_.keys sampleRecord !! i = Some key ->
        exists r,
          rows (tvpTable eng table sampleRecord records columnMapping) !! j = Some r
          /\ r !! i = Some (Record_.get record key)
          /\ (~ In key (map fst record) -> r !! i = Some VUndefined)).
Proof.
  intros _. unfold tvpTable. cbn [columns rows].
  split; [| split; [| split; [| split]]].
  - rewrite map_map. reflexivity.
  - apply List.Forall_forall. intros c Hc.
    apply in_map_iff in Hc as (col & <- & _). reflexivity.
  - apply length_map.
  - apply List.Forall_forall. intros r Hr.
    apply in_map_iff in Hr as (record & <- & _).
    now rewrite !length_map.
  - intros j i record key Hj Hi.
    exists (map (Record_.get record) (Record_.keys sampleRecord)).
    split; [| split].
    + rewrite lookup_map, Hj. reflexivity.
    + rewrite lookup_map, Hi. reflexivity.
    + intros Hnot. rewrite lookup_map, Hi. cbn. now rewrite get_missing.
Qed.

(** Two records with different keys, the first mapped to the column
    [FullName]: one column, two rows, the second row holding
    [undefined]. *)
Lemma tvpTable_is_rectangular_witness :
  tvpTable Samples.engine "People" (Samples.person "Ada")
    [Samples.person "Ada"; Samples.quantity (VNumber (Js.ofZ 1))]
    (Some {[ "Name" := "FullName" ]})
  = {| tableName := "People";
       create := false;
       columns := [ {| columnName := "FullName";
                       columnType := NVarChar (Len 255);
                       nullable := true |} ];
       rows := [ [VString "Ada"]; [VUndefined] ] |}
  /\ (map columnName
        (columns (tvpTable Samples.engine "People" (Samples.person "Ada")
                    [Samples.person "Ada"; Samples.quantity (VNumber (Js.ofZ 1))]
                    (Some {[ "Name" := "FullName" ]})))
      = map (mapColumn (Some {[ "Name" := "FullName" ]}))
          (Record_.keys (Samples.person "Ada"))
      /\ Forall (fun c => nullable c = true)
           (columns (tvpTable Samples.engine "People" (Samples.person "Ada")
                       [Samples.person "Ada";
                        Samples.quantity (VNumber (Js.ofZ 1))]
                       (Some {[ "Name" := "FullName" ]})))
      /\ length (rows (tvpTable Samples.engine "People" (Samples.person "Ada")
                         [Samples.person "Ada";
                          Samples.quantity (VNumber (Js.ofZ 1))]
                         (Some {[ "Name" := "FullName" ]})))
         = length [Samples.person "Ada"; Samples.quantity (VNumber (Js.ofZ 1))]
      /\ Forall (fun r => length r
                          = length (columns
                                      (tvpTable Samples.engine "People"
                                         (Samples.person "Ada")
                                         [Samples.person "Ada";
                                          Samples.quantity (VNumber (Js.ofZ 1))]
                                         (Some {[ "Name" := "FullName" ]}))))
           (rows (tvpTable Samples.engine "People" (Samples.person "Ada")
                    [Samples.person "Ada"; Samples.quantity (VNumber (Js.ofZ 1))]
                    (Some {[ "Name" := "FullName" ]})))
      /\ (forall (j i : nat) (record : ImportRecord) (key : string),
            [Samples.person "Ada"; Samples.quantity (VNumber (Js.ofZ 1))] !! j
              = Some record ->
            Record_.keys (Samples.person "Ada") !! i = Some key ->
            exists r,
              rows (tvpTable Samples.engine "People" (Samples.person "Ada")
                      [Samples.person "Ada";
                       Samples.quantity (VNumber (Js.ofZ 1))]
                      (Some {[ "Name" := "FullName" ]})) !! j = Some r
              /\ r !! i = Some (Record_.get record key)
              /\ (~ In key (map fst record) -> r !! i = Some VUndefined))).
Proof.
  split; [vm_compute; reflexivity |].
  apply (tvpTable_is_rectangular Samples.engine "People" (Samples.person "Ada")
           [Samples.person "Ada"; Samples.quantity (VNumber (Js.ofZ 1))]
           (Some {[ "Name" := "FullName" ]})).
  reflexivity.
Defined.

Lemma imap_map_map {A B C D} (f : A -> B) (k : C -> D) (l : list A) :
  forall (h : nat -> B -> D) (g : nat -> A -> C),
    (forall i x, h i (f x) = k (g i x)) ->
    imap h (map f l) = map k (imap g l).
Proof.
  induction l as [| x rest IH]; intros h g Hhg; cbn; [reflexivity |].
  rewrite Hhg. f_equal. apply IH. intros i y. apply Hhg.
Qed.

Lemma imap_length' {A B} (l : list A) :
  forall (g : nat -> A -> B), length (imap g l) = length l.
Proof.
  induction l as [| x rest IH]; intros g; cbn; [reflexivity |].
  now rewrite IH.
Qed.

Lemma imap_names_NoDup {A} (l : list A) :
  forall (g : nat -> string),
    (forall i j, g i = g j -> i = j) ->
    NoDup (imap (fun i _ => g i) l)
    /\ (forall name, In name (imap (fun i _ => g i) l) -> exists i, name = g i).
Proof.
  induction l as [| x rest IH]; intros g Hinj; cbn.
  - split; [constructor | intros name []].
  - destruct (IH (fun i => g (S i))) as [Hnd Hin].
    { intros i j Hij. apply Hinj in Hij. lia. }
    split.
    + constructor; [| exact Hnd].
      intros Hx. apply list_elem_of_In, Hin in Hx as (i & Hi).
      apply Hinj in Hi. discriminate.
    + intros name [<- | Hname]; [now exists 0%nat |].
      apply Hin in Hname as (i & ->). now exists (S i).
Qed.

Lemma paramName_inj (i j : nat) :
  "col" +:+ pretty i = "col" +:+ pretty j -> i = j.
Proof.
  intros H. cbv [String.append] in H. injection H as H.
  now apply (inj pretty) in H.
Qed.

(** X9. The statement of the per-row strategy and the parameters bound for
    a row agree: the statement lists one placeholder per key of the first
    record, which are the names of the parameters bound for the row behind
    an at sign, in the same order, and no name is bound twice. *)
Theorem insertStatement_binds_its_placeholders (eng : Js.Engine)
  (table : string) (columnMapping : option (gmap string string))
  (columns : list string) (record : ImportRecord) :
  insertStatement table (map (mapColumn columnMapping) columns)
  = "INSERT INTO " +:+ table +:+ " ("
      +:+ Js.join ", " (map (mapColumn columnMapping) columns)
      +:+ ") VALUES ("
      +:+ Js.join ", "
            (map (fun p => "@" +:+ paramName p) (rowParams eng columns record))
      +:+ ")"
  /\ length (rowParams eng columns record) = length columns
  /\ NoDup (map paramName (rowParams eng columns record)).
Proof.
  split; [| split].
  - unfold insertStatement, rowParams. cbv zeta.
    rewrite (imap_map_map (mapColumn columnMapping)
               (fun p => "@" +:+ paramName p) columns
               (fun i _ => "@col" +:+ pretty i)
               (fun index col =>
                  {| paramName := "col" +:+ pretty index;
                     paramType := inferSqlType eng (Record_.get record col);
                     paramValue := Record_.get record col |}));
      [reflexivity |].
    intros i x. reflexivity.
  - apply imap_length'.
  - unfold rowParams.
    rewrite <- (imap_map_map (fun col : string => col) paramName columns
                  (fun i _ => "col" +:+ pretty i)
                  (fun index col =>
                     {| paramName := "col" +:+ pretty index;
                        paramType := inferSqlType eng (Record_.get record col);
                        paramValue := Record_.get record col |}));
      [| reflexivity].
    rewrite map_id.
    apply (imap_names_NoDup columns (fun i => "col" +:+ pretty i)).
    exact paramName_inj.
Qed.

(** ** The transaction of the per-row strategy *)

(** X10. When the per-row strategy raises, the last call it made is a
    rollback, attempted also when the transaction never began. The cause is
    a failed begin, an empty batch or a failed commit, never a row; the
    error raised is the cause unless the rollback fails too, in which case
    the error of the rollback replaces it. *)
Theorem bulkInsert_raise_rolls_back (db : DbClient) (eng : Js.Engine)
  (table : string) (records : list ImportRecord)
  (columnMapping : option (gmap string string)) (w : World) (e : Js.exn) :
  fst (bulkInsert db eng table records columnMapping w) = Throw e ->
  exists (h : History) (cause : Js.exn),
    calls (snd (bulkInsert db eng table records columnMapping w))
      = h ++ [TxRollback]
    /\ e = match rollbackReply db h with
           | Throw e' => e'
           | Ok _ => cause
           end
    /\ ((beginReply db (calls w) = Throw cause /\ h = calls w ++ [TxBegin])
        \/ (Js.isOk (beginReply db (calls w)) = true
            /\ records = [] /\ cause = keysOfUndefined
            /\ h = calls w ++ [TxBegin])
        \/ (Js.isOk (beginReply db (calls w)) = true
            /\ records <> []
            /\ commitReply db
                 ((calls w ++ [TxBegin])
                  ++ Spec.rowCalls eng (Spec.statementOf table records columnMapping)
                       (Spec.columnsOf records) records) = Throw cause
            /\ h = ((calls w ++ [TxBegin])
                    ++ Spec.rowCalls eng
                         (Spec.statementOf table records columnMapping)
                         (Spec.columnsOf records) records)
                   ++ [TxCommit])).
Proof.
  destruct (beginReply db (calls w)) as [[] | cause] eqn:Hbegin.
  - destruct records as [| sampleRecord rest] eqn:Hrecords.
    + unfold bulkInsert, Eff.tryCatch, Eff.bind, Eff.call, Eff.throw.
      rewrite Hbegin. cbn [calls updates fst snd].
      destruct (rollbackReply db (calls w ++ [TxBegin])) eqn:Hrollback;
        cbn [fst snd calls]; intros He;
        exists (calls w ++ [TxBegin]), keysOfUndefined;
        rewrite Hrollback;
        (split; [reflexivity |]); (split; [congruence |]);
        right; left; repeat split; reflexivity.
    + rewrite <- Hrecords.
      assert (Hne : records <> []) by (rewrite Hrecords; discriminate).
      rewrite (bulkInsert_begun db eng table records columnMapping w Hne Hbegin).
      cbv zeta.
      destruct (commitReply db _) as [u | cause] eqn:Hcommit;
        cbn [fst snd calls]; [discriminate |].
      destruct (rollbackReply db _) eqn:Hrollback; intros He;
        eexists; exists cause; rewrite Hrollback;
        (split; [reflexivity |]); (split; [congruence |]);
        right; right; (split; [reflexivity |]); (split; [exact Hne |]);
        split; reflexivity.
  - unfold bulkInsert, Eff.tryCatch, Eff.bind, Eff.call, Eff.throw.
    rewrite Hbegin. cbn [calls updates fst snd].
    destruct (rollbackReply db (calls w ++ [TxBegin])) eqn:Hrollback;
      cbn [fst snd calls]; intros He;
      exists (calls w ++ [TxBegin]), cause;
      rewrite Hrollback;
      (split; [reflexivity |]); (split; [congruence |]);
      left; split; reflexivity.
Qed.

Lemma bulkInsert_raise_rolls_back_witness :
  exists (h : History) (cause : Js.exn),
    calls (snd (bulkInsert Samples.unreachableDb Samples.engine "People"
                  [Samples.person "Ada"] None emptyWorld))
      = h ++ [TxRollback]
    /\ Samples.connectionError
       = match rollbackReply Samples.unreachableDb h with
         | Throw e' => e'
         | Ok _ => cause
         end
    /\ ((beginReply Samples.unreachableDb (calls emptyWorld) = Throw cause
         /\ h = calls emptyWorld ++ [TxBegin])
        \/ (Js.isOk (beginReply Samples.unreachableDb (calls emptyWorld)) = true
            /\ [Samples.person "Ada"] = [] /\ cause = keysOfUndefined
            /\ h = calls emptyWorld ++ [TxBegin])
        \/ (Js.isOk (beginReply Samples.unreachableDb (calls emptyWorld)) = true
            /\ [Samples.person "Ada"] <> []
            /\ commitReply Samples.unreachableDb
                 ((calls emptyWorld ++ [TxBegin])
                  ++ Spec.rowCalls Samples.engine
                       (Spec.statementOf "People" [Samples.person "Ada"] None)
                       (Spec.columnsOf [Samples.person "Ada"])
                       [Samples.person "Ada"]) = Throw cause
            /\ h = ((calls emptyWorld ++ [TxBegin])
                    ++ Spec.rowCalls Samples.engine
                         (Spec.statementOf "People" [Samples.person "Ada"] None)
                         (Spec.columnsOf [Samples.person "Ada"])
                         [Samples.person "Ada"])
                   ++ [TxCommit])).
Proof.
  apply (bulkInsert_raise_rolls_back Samples.unreachableDb Samples.engine
           "People" [Samples.person "Ada"] None emptyWorld
           Samples.connectionError).
  reflexivity.
Defined.

(** ** Validation of an import *)

Lemma validateExcel_rowCount_nonneg (eng : Js.Engine) (fs : FileSystem)
  (filePath : string) (requiredColumns : list string) (sheet : option string)
  (skipRows : nat) :
  0 <= validRowCount (validateExcel eng fs filePath requiredColumns sheet skipRows).
Proof.
  destruct (fs filePath) as [wb | e] eqn:Hfs.
  - destruct (selectWorksheet wb sheet) as [ws |] eqn:Hws.
    + rewrite (validateExcel_rowCount eng fs filePath requiredColumns sheet
                 skipRows wb ws Hfs Hws). lia.
    + unfold validateExcel. rewrite Hfs, Hws. cbn. lia.
  - unfold validateExcel. rewrite Hfs. cbn. lia.
Qed.

Lemma validateExcel_invalid_errors (eng : Js.Engine) (fs : FileSystem)
  (filePath : string) (requiredColumns : list string) (sheet : option string)
  (skipRows : nat) :
  isValid (validateExcel eng fs filePath requiredColumns sheet skipRows) = false ->
  errors (validateExcel eng fs filePath requiredColumns sheet skipRows) <> [].
Proof.
  unfold validateExcel.
  destruct (fs filePath) as [wb | e]; [| cbn; discriminate].
  destruct (selectWorksheet wb sheet) as [ws |]; [| cbn; discriminate].
  destruct (getRow ws (1 + skipRows)) as [headerRow ws'].
  cbv zeta. cbn [isValid errors].
  intros Hinvalid Hnil. rewrite Hnil in Hinvalid. discriminate.
Qed.

(** The outcome of [validateImport], by the answer of the table check and
    of the columns query. *)
Lemma validateImport_spec (db : DbClient) (eng : Js.Engine) (fs : FileSystem)
  (filePath table : string) (sheet : option string) (skipRows : nat)
  (w : World) :
  validateImport db eng fs filePath table sheet skipRows w =
  let h := calls w ++ [QueryTableCount table] in
  match fst (tableExists db table w) with
  | Ok true =>
      (Ok match columnsReply db h table with
          | Ok requiredColumns =>
              let v := validateExcel eng fs filePath requiredColumns sheet skipRows in
              {| importValid := isValid v;
                 importErrors := map message (errors v);
                 importRowCount := validRowCount v |}
          | Throw e =>
              {| importValid := false;
                 importErrors := ["Validation error: " +:+ Js.messageOf e];
                 importRowCount := 0 |}
          end,
       {| calls := h ++ [QueryColumns table]; updates := updates w |})
  | _ =>
      let v := validateExcel eng fs filePath [] sheet skipRows in
      (Ok {| importValid := false;
             importErrors :=
               missingTable table
               :: (if isValid v then [] else map message (errors v));
             importRowCount := validRowCount v |},
       {| calls := h; updates := updates w |})
  end.
Proof.
  unfold validateImport, Eff.tryCatch, Eff.bind.
  rewrite tableExists_spec. cbn [fst snd]. cbv zeta.
  destruct (match tableCountReply db (calls w) table with
            | Ok (count :: _) => 0 <? count
            | _ => false
            end); cbn [negb].
  - unfold getTableColumns, Eff.call, Eff.ret. cbn [calls updates].
    destruct (columnsReply db _ table) as [requiredColumns | e]; [| reflexivity].
    destruct (isValid (validateExcel eng fs filePath requiredColumns sheet skipRows))
      eqn:Hvalid; cbn [negb app].
    + rewrite (validateExcel_isValid _ _ _ _ _ _ Hvalid). reflexivity.
    + pose proof (validateExcel_invalid_errors _ _ _ _ _ _ Hvalid) as Herr.
      destruct (errors _); [congruence | reflexivity].
  - unfold Eff.ret.
    destruct (isValid (validateExcel eng fs filePath [] sheet skipRows));
      cbn [negb app]; reflexivity.
Qed.

(** X11. [validateImport] never raises and only reads: it returns a
    verdict whatever the database and the file do, valid exactly when it
    lists no error, with a row count that is not negative; it reports no
    progress and its only calls are the table check and, when the table
    exists, the columns query. *)
Theorem validateImport_never_raises (db : DbClient) (eng : Js.Engine)
  (fs : FileSystem) (filePath table : string) (sheet : option string)
  (skipRows : nat) (w : World) :
  exists v,
    fst (validateImport db eng fs filePath table sheet skipRows w) = Ok v
    /\ (importValid v = true <-> importErrors v = [])
    /\ 0 <= importRowCount v
    /\ updates (snd (validateImport db eng fs filePath table sheet skipRows w))
       = updates w
    /\ calls (snd (validateImport db eng fs filePath table sheet skipRows w))
       = calls w ++ QueryTableCount table
                    :: match fst (tableExists db table w) with
                       | Ok true => [QueryColumns table]
                       | _ => []
                       end.
Proof.
  rewrite validateImport_spec. cbv zeta.
  destruct (fst (tableExists db table w)) as [[|] | e].
  - eexists. split; [reflexivity |]. cbn [fst snd calls updates].
    split; [| split; [| split; [reflexivity | now rewrite <- app_assoc]]].
    + destruct (columnsReply db _ table) as [requiredColumns | e];
        cbn [importValid importErrors]; [| split; discriminate].
      split.
      * intros Hvalid. now rewrite (validateExcel_isValid _ _ _ _ _ _ Hvalid).
      * intros Hnil.
        destruct (isValid (validateExcel eng fs filePath requiredColumns sheet
                             skipRows)) eqn:Hvalid; [reflexivity |].
        apply validateExcel_invalid_errors in Hvalid.
        destruct (errors _); [congruence | discriminate].
    + destruct (columnsReply db _ table) as [requiredColumns | e];
        cbn [importRowCount]; [apply validateExcel_rowCount_nonneg | lia].
  - eexists. split; [reflexivity |]. cbn [fst snd calls updates].
    split; [split; discriminate |].
    split; [apply validateExcel_rowCount_nonneg |].
    split; reflexivity.
  - eexists. split; [reflexivity |]. cbn [fst snd calls updates].
    split; [split; discriminate |].
    split; [apply validateExcel_rowCount_nonneg |].
    split; reflexivity.
Qed.

(** X12. [validateImport] accepts exactly when the table check answers
    yes, the columns query returns and the file passes [validateExcel]
    with every column of the table required. When the table check answers
    no, the file is still validated, with no required column, and its row
    count reported; when the columns query raises, the verdict carries the
    one message of that error and a row count of 0. *)
Theorem validateImport_verdict (db : DbClient) (eng : Js.Engine)
  (fs : FileSystem) (filePath table : string) (sheet : option string)
  (skipRows : nat) (w : World) :
  ((exists v,
       fst (validateImport db eng fs filePath table sheet skipRows w) = Ok v
       /\ importValid v = true)
   <-> fst (tableExists db table w) = Ok true
       /\ exists requiredColumns,
            columnsReply db (calls w ++ [QueryTableCount table]) table
              = Ok requiredColumns
            /\ isValid (validateExcel eng fs filePath requiredColumns sheet
                          skipRows) = true)
  /\ (fst (tableExists db table w) = Ok false ->
      fst (validateImport db eng fs filePath table sheet skipRows w)
      = Ok {| importValid := false;
              importErrors :=
                ("Table " +:+ table +:+ " does not exist")
                :: map message
                     (errors (validateExcel eng fs filePath [] sheet skipRows));
              importRowCount :=
                validRowCount (validateExcel eng fs filePath [] sheet skipRows) |})
  /\ (forall e,
        fst (tableExists db table w) = Ok true ->
        columnsReply db (calls w ++ [QueryTableCount table]) table = Throw e ->
        fst (validateImport db eng fs filePath table sheet skipRows w)
        = Ok {| importValid := false;
                importErrors := ["Validation error: " +:+ Js.messageOf e];
                importRowCount := 0 |}).
Proof.
  rewrite validateImport_spec. cbv zeta.
  split; [| split].
  - destruct (fst (tableExists db table w)) as [[|] | e]; cbn [fst].
    + split.
      * intros (v & Hv & Hvalid). split; [reflexivity |].
        destruct (columnsReply db _ table) as [requiredColumns | e].
        -- exists requiredColumns. split; [reflexivity |].
           injection Hv as <-. exact Hvalid.
        -- injection Hv as <-. discriminate.
      * intros (_ & requiredColumns & -> & Hvalid).
        eexists. split; [reflexivity | exact Hvalid].
    + split.
      * intros (v & Hv & Hvalid). injection Hv as <-. discriminate.
      * intros (H & _). discriminate.
    + split.
      * intros (v & Hv & Hvalid). injection Hv as <-. discriminate.
      * intros (H & _). discriminate.
  - intros ->. cbn [fst].
    destruct (isValid (validateExcel eng fs filePath [] sheet skipRows))
      eqn:Hvalid; [| reflexivity].
    now rewrite (validateExcel_isValid _ _ _ _ _ _ Hvalid).
  - intros e -> ->. reflexivity.
Qed.

(** ** What [processImport] counts *)

Lemma batchLength_pos (batch : list ImportRecord) :
  batch <> [] -> 0 < batchLength batch.
Proof. destruct batch; [congruence |]. unfold batchLength. cbn. lia. Qed.

(** One round of the loop counts the rows of its batch once, or twice when
    the bulk insert returns and the callback throws. *)
Lemma processBatch_counts (db : DbClient) (eng : Js.Engine) (table : string)
  (columnMapping : option (gmap string string))
  (onProgress : option (JobProgress -> Js.result unit)) (totalRecords : Z)
  (c : Counters) (batch : list ImportRecord) (w : World) :
  batch <> [] ->
  let r := fst (processBatch db eng table columnMapping onProgress totalRecords
                  c batch w) in
  cSuccess c <= cSuccess r <= cSuccess c + batchLength batch
  /\ cFailed c <= cFailed r
  /\ batchLength batch <= (cSuccess r + cFailed r) - (cSuccess c + cFailed c)
     <= 2 * batchLength batch
  /\ (Terms.neverThrows onProgress ->
      (cSuccess r + cFailed r) - (cSuccess c + cFailed c) = batchLength batch).
Proof.
  intros Hne. cbv zeta. rewrite processBatch_spec by assumption. cbv zeta.
  pose proof (batchLength_pos batch Hne) as Hpos.
  destruct (bulkReply db (calls w) _) as [u | e].
  - destruct onProgress as [callback |].
    + destruct (callback _) eqn:Hcb; cbn; repeat split; try lia.
      intros Hquiet. specialize (Hquiet (progressOf totalRecords
        {| cSuccess := cSuccess c + batchLength batch;
           cFailed := cFailed c + 0;
           cProcessed := cProcessed c + batchLength batch |})).
      rewrite Hcb in Hquiet. discriminate.
    + cbn; repeat split; try lia.
  - cbn; repeat split; try lia.
Qed.

Lemma processBatches_counts (db : DbClient) (eng : Js.Engine) (table : string)
  (columnMapping : option (gmap string string))
  (onProgress : option (JobProgress -> Js.result unit)) (totalRecords : Z)
  (batches : list (list ImportRecord)) :
  Forall (fun b => b <> []) batches ->
  forall (c : Counters) (w : World),
    let r := fst (processBatches db eng table columnMapping onProgress
                    totalRecords batches c w) in
    cSuccess c <= cSuccess r <= cSuccess c + Spec.recordCount batches
    /\ cFailed c <= cFailed r
    /\ Spec.recordCount batches
       <= (cSuccess r + cFailed r) - (cSuccess c + cFailed c)
       <= 2 * Spec.recordCount batches
    /\ (Terms.neverThrows onProgress ->
        (cSuccess r + cFailed r) - (cSuccess c + cFailed c)
        = Spec.recordCount batches).
Proof.
  induction 1 as [| batch rest Hne Hrest IH]; intros c w; cbv zeta.
  - cbn [processBatches fst]. unfold Spec.recordCount. cbn.
    repeat split; lia.
  - rewrite processBatches_cons, recordCount_cons.
    pose proof (processBatch_counts db eng table columnMapping onProgress
                  totalRecords c batch w Hne) as Hstep.
    cbv zeta in Hstep.
    destruct (processBatch db eng table columnMapping onProgress totalRecords
                c batch w) as [c' w'].
    cbn [fst snd] in *.
    destruct Hstep as (Hs & Hf & Hsum & Hquiet).
    specialize (IH c' w'). cbv zeta in IH.
    destruct IH as (IHs & IHf & IHsum & IHquiet).
    repeat split; try lia.
    intros Hq. specialize (Hquiet Hq). specialize (IHquiet Hq). lia.
Qed.



Lemma processBatches_all_inserted (db : DbClient) (eng : Js.Engine)
  (table : string) (columnMapping : option (gmap string string))
  (onProgress : option (JobProgress -> Js.result unit)) (totalRecords : Z)
  (batches : list (list ImportRecord)) :
  (forall h t, Js.isOk (bulkReply db h t) = true) ->
  Terms.neverThrows onProgress ->
  Forall (fun b => b <> []) batches ->
  forall (c : Counters) (w : World),
    let r := processBatches db eng table columnMapping onProgress totalRecords
               batches c w in
    cSuccess (fst r) = cSuccess c + Spec.recordCount batches
    /\ cFailed (fst r) = cFailed c
    /\ updates (snd r)
       = updates w
         ++ Terms.sentTo onProgress
              (map (fun done => Terms.update totalRecords done (cFailed c))
                 (Terms.runningTotals (cProcessed c) batches)).
Proof.
  intros Hbulk Hquiet.
  induction 1 as [| batch rest Hne Hrest IH]; intros c w; cbv zeta.
  - cbn [processBatches fst snd Terms.runningTotals map].
    unfold Spec.recordCount. cbn [concat length Z.of_nat].
    split; [lia |]. split; [reflexivity |].
    destruct onProgress; cbn; now rewrite app_nil_r.
  - rewrite processBatches_cons, recordCount_cons.
    rewrite (processBatch_spec db eng table columnMapping onProgress
               totalRecords c batch w Hne). cbv zeta.
    specialize (Hbulk (calls w)
                  (tvpTable eng table (hd [] batch) batch columnMapping)).
    destruct (bulkReply db (calls w) _) as [u | e]; [| discriminate].
    destruct onProgress as [callback |].
    + cbn in Hquiet.
      specialize (Hquiet (progressOf totalRecords
        {| cSuccess := cSuccess c + batchLength batch;
           cFailed := cFailed c + 0;
           cProcessed := cProcessed c + batchLength batch |})) as Hcb.
      destruct (callback _); [| discriminate].
      cbn [fst snd].
      match goal with
      | |- context [processBatches _ _ _ _ _ _ rest ?c1 ?w1] =>
          destruct (IH c1 w1) as (IHs & IHf & IHu)
      end.
      cbn [cSuccess cFailed cProcessed updates] in IHs, IHf, IHu.
      rewrite IHs, IHf, IHu.
      split; [lia |]. split; [lia |].
      cbn [Terms.sentTo Terms.runningTotals map].
      rewrite <- app_assoc. cbn [app]. f_equal.
      unfold progressOf, Terms.update. cbn [cProcessed cFailed].
      rewrite Z.add_0_r. reflexivity.
    + cbn [fst snd].
      match goal with
      | |- context [processBatches _ _ _ _ _ _ rest ?c1 ?w1] =>
          destruct (IH c1 w1) as (IHs & IHf & IHu)
      end.
      cbn [cSuccess cFailed cProcessed updates] in IHs, IHf, IHu.
      rewrite IHs, IHf, IHu.
      split; [lia |]. split; [lia |]. reflexivity.
Qed.

Lemma processBatches_callback_throws (db : DbClient) (eng : Js.Engine)
  (table : string) (columnMapping : option (gmap string string))
  (callback : JobProgress -> Js.result unit) (totalRecords : Z)
  (batches : list (list ImportRecord)) :
  (forall h t, Js.isOk (bulkReply db h t) = true) ->
  (forall p, Js.isOk (callback p) = false) ->
  Forall (fun b => b <> []) batches ->
  forall (c : Counters) (w : World),
    let r := processBatches db eng table columnMapping (Some callback)
               totalRecords batches c w in
    cSuccess (fst r) = cSuccess c + Spec.recordCount batches
    /\ cFailed (fst r) = cFailed c + Spec.recordCount batches
    /\ length (updates (snd r)) = (length (updates w) + length batches)%nat.
Proof.
  intros Hbulk Hthrows.
  induction 1 as [| batch rest Hne Hrest IH]; intros c w; cbv zeta.
  - cbn [processBatches fst snd length].
    unfold Spec.recordCount. cbn [concat length Z.of_nat]. lia.
  - rewrite processBatches_cons, recordCount_cons.
    rewrite (processBatch_spec db eng table columnMapping (Some callback)
               totalRecords c batch w Hne). cbv zeta.
    specialize (Hbulk (calls w)
                  (tvpTable eng table (hd [] batch) batch columnMapping)).
    destruct (bulkReply db (calls w) _) as [u | e]; [| discriminate].
    specialize (Hthrows (progressOf totalRecords
      {| cSuccess := cSuccess c + batchLength batch;
         cFailed := cFailed c + 0;
         cProcessed := cProcessed c + batchLength batch |})) as Hcb.
    destruct (callback _); [discriminate |].
    cbn [fst snd].
    match goal with
    | |- context [processBatches _ _ _ _ _ _ rest ?c1 ?w1] =>
        destruct (IH c1 w1) as (IHs & IHf & IHu)
    end.
    cbn [cSuccess cFailed cProcessed updates addFailed] in IHs, IHf, IHu.
    rewrite IHs, IHf, IHu, length_app. cbn [length]. lia.
Qed.

(** X14. When every bulk insert returns and the progress callback throws
    on every update, [processImport] still returns, after handing one
    update per batch to the callback, and every record is counted twice:
    [successCount] and [failedCount] are both the number of records
    read. *)
Theorem throwing_callback_counts_rows_twice (db : DbClient) (eng : Js.Engine)
  (fs : FileSystem) (startTime endTime : Z) (filePath table : string)
  (sheet : option string) (columnMapping : option (gmap string string))
  (skipRows : nat) (callback : JobProgress -> Js.result unit) (w : World)
  (totalRecords : Z) :
  fst (tableExists db table w) = Ok true ->
  getRowCount fs filePath sheet skipRows = Ok totalRecords ->
  (forall h t, Js.isOk (bulkReply db h t) = true) ->
  (forall p, Js.isOk (callback p) = false) ->
  exists batches,
    streamExcelRows eng fs filePath sheet skipRows = Ok batches
    /\ fst (processImport db eng fs startTime endTime filePath table sheet
              columnMapping skipRows (Some callback) w)
       = Ok {| successCount := Spec.recordCount batches;
               failedCount := Spec.recordCount batches;
               duration := endTime - startTime |}
    /\ length (updates (snd (processImport db eng fs startTime endTime filePath
                               table sheet columnMapping skipRows
                               (Some callback) w)))
       = (length (updates w) + length batches)%nat.
Proof.
  intros Hexists Hcount Hbulk Hthrows.
  destruct (stream_within_rowCount eng fs filePath sheet skipRows totalRecords
              Hcount) as (batches & Hstream & Hne & _).
  exists batches. split; [exact Hstream |].
  rewrite processImport_spec, Hexists, Hcount, Hstream. cbv zeta. cbn [fst snd].
  destruct (processBatches_callback_throws db eng table columnMapping callback
              totalRecords batches Hbulk Hthrows Hne zeroCounters
              (snd (tableExists db table w))) as (Hs & Hf & Hu).
  cbn [zeroCounters cSuccess cFailed] in Hs, Hf.
  rewrite Hs, Hf, Hu, !Z.add_0_l.
  rewrite tableExists_spec. cbn [snd updates]. split; reflexivity.
Qed.

Lemma throwing_callback_counts_rows_twice_witness :
  exists batches,
    streamExcelRows Samples.engine (Samples.fileOf 3) "upload.xlsx" None 0
    = Ok batches
    /\ fst (processImport (Samples.healthyDb ["Name"]) Samples.engine
              (Samples.fileOf 3) 0 5 "upload.xlsx" "People" None None 0
              Cases.brokenCallback emptyWorld)
       = Ok {| successCount := Spec.recordCount batches;
               failedCount := Spec.recordCount batches;
               duration := 5 - 0 |}
    /\ length (updates (snd (processImport (Samples.healthyDb ["Name"])
                               Samples.engine (Samples.fileOf 3) 0 5
                               "upload.xlsx" "People" None None 0
                               Cases.brokenCallback emptyWorld)))
       = (length (updates emptyWorld) + length batches)%nat.
Proof.
  apply (throwing_callback_counts_rows_twice (Samples.healthyDb ["Name"])
           Samples.engine (Samples.fileOf 3) 0 5 "upload.xlsx" "People" None
           None 0 (fun _ => Throw (JsError "Missing lock for job 42. updateProgress"))
           emptyWorld 3).
  - reflexivity.
  - reflexivity.
  - intros h t. reflexivity.
  - intros p. reflexivity.
Defined.

(** X15. When every bulk insert returns and the callback never throws,
    [processImport] returns with every record read counted as inserted and
    none as failed, and the callback has received one update per batch, in
    order: the running total of records after that batch, no failure, and
    the percentage of that total. *)
Theorem processImport_all_inserted (db : DbClient) (eng : Js.Engine)
  (fs : FileSystem) (startTime endTime : Z) (filePath table : string)
  (sheet : option string) (columnMapping : option (gmap string string))
  (skipRows : nat) (onProgress : option (JobProgress -> Js.result unit))
  (w : World) (totalRecords : Z) :
  fst (tableExists db table w) = Ok true ->
  getRowCount fs filePath sheet skipRows = Ok totalRecords ->
  (forall h t, Js.isOk (bulkReply db h t) = true) ->
  Terms.neverThrows onProgress ->
  exists batches,
    streamExcelRows eng fs filePath sheet skipRows = Ok batches
    /\ fst (processImport db eng fs startTime endTime filePath table sheet
              columnMapping skipRows onProgress w)
       = Ok {| successCount := Spec.recordCount batches;
               failedCount := 0;
               duration := endTime - startTime |}
    /\ updates (snd (processImport db eng fs startTime endTime filePath table
                       sheet columnMapping skipRows onProgress w))
       = updates w
         ++ Terms.sentTo onProgress
              (map (fun done => Terms.update totalRecords done 0)
                 (Terms.runningTotals 0 batches)).
Proof.
  intros Hexists Hcount Hbulk Hquiet.
  destruct (stream_within_rowCount eng fs filePath sheet skipRows totalRecords
              Hcount) as (batches & Hstream & Hne & _).
  exists batches. split; [exact Hstream |].
  rewrite processImport_spec, Hexists, Hcount, Hstream. cbv zeta. cbn [fst snd].
  destruct (processBatches_all_inserted db eng table columnMapping onProgress
              totalRecords batches Hbulk Hquiet Hne zeroCounters
              (snd (tableExists db table w))) as (Hs & Hf & Hu).
  cbn [zeroCounters cSuccess cFailed cProcessed] in Hs, Hf, Hu.
  rewrite Hs, Hf, Hu, !Z.add_0_l.
  rewrite tableExists_spec. cbn [snd updates]. split; reflexivity.
Qed.

Lemma processImport_all_inserted_witness :
  exists batches,
    streamExcelRows Samples.engine (Samples.fileOf 501) "upload.xlsx" None 0
    = Ok batches
    /\ fst (processImport (Samples.healthyDb ["Name"]) Samples.engine
              (Samples.fileOf 501) 0 5 "upload.xlsx" "People" None None 0
              Samples.quietCallback emptyWorld)
       = Ok {| successCount := Spec.recordCount batches;
               failedCount := 0;
               duration := 5 - 0 |}
    /\ updates (snd (processImport (Samples.healthyDb ["Name"]) Samples.engine
                       (Samples.fileOf 501) 0 5 "upload.xlsx" "People" None
                       None 0 Samples.quietCallback emptyWorld))
       = updates emptyWorld
         ++ Terms.sentTo Samples.quietCallback
              (map (fun done => Terms.update 501 done 0)
                 (Terms.runningTotals 0 batches)).
Proof.
  apply (processImport_all_inserted (Samples.healthyDb ["Name"]) Samples.engine
           (Samples.fileOf 501) 0 5 "upload.xlsx" "People" None None 0
           Samples.quietCallback emptyWorld 501).
  - reflexivity.
  - vm_compute. reflexivity.
  - intros h t. reflexivity.
  - intros p. reflexivity.
Defined.

(** X16. When every bulk insert raises, [processImport] still returns:
    it has attempted every batch, counts every record read as failed and
    none as inserted, and has handed no update to the callback. *)
Theorem processImport_none_inserted (db : DbClient) (eng : Js.Engine)
  (fs : FileSystem) (startTime endTime : Z) (filePath table : string)
  (sheet : option string) (columnMapping : option (gmap string string))
  (skipRows : nat) (onProgress : option (JobProgress -> Js.result unit))
  (w : World) (totalRecords : Z) :
  fst (tableExists db table w) = Ok true ->
  getRowCount fs filePath sheet skipRows = Ok totalRecords ->
  (forall h t, Js.isOk (bulkReply db h t) = false) ->
  exists batches,
    streamExcelRows eng fs filePath sheet skipRows = Ok batches
    /\ fst (processImport db eng fs startTime endTime filePath table sheet
              columnMapping skipRows onProgress w)
       = Ok {| successCount := 0;
               failedCount := Spec.recordCount batches;
               duration := endTime - startTime |}
    /\ updates (snd (processImport db eng fs startTime endTime filePath table
                       sheet columnMapping skipRows onProgress w))
       = updates w
    /\ length (List.filter isBulk
                 (calls (snd (processImport db eng fs startTime endTime filePath
                                table sheet columnMapping skipRows onProgress w))))
       = (length (List.filter isBulk (calls w)) + length batches)%nat.
Proof.
  intros Hexists Hcount Hbulk.
  destruct (stream_within_rowCount eng fs filePath sheet skipRows totalRecords
              Hcount) as (batches & Hstream & Hne & _).
  exists batches. split; [exact Hstream |].
  rewrite processImport_spec, Hexists, Hcount, Hstream. cbv zeta. cbn [fst snd].
  destruct (processBatches_none_inserted db eng table columnMapping onProgress
              totalRecords batches Hbulk Hne zeroCounters
              (snd (tableExists db table w))) as (Hs & Hf & Hu & Hc).
  cbn [zeroCounters cSuccess cFailed] in Hs, Hf.
  rewrite Hs, Hf, Hu, Hc, !Z.add_0_l.
  rewrite tableExists_spec. cbn [snd updates calls].
  rewrite List.filter_app, length_app. cbn.
  repeat split. lia.
Qed.

Lemma processImport_none_inserted_witness :
  exists batches,
    streamExcelRows Samples.engine (Samples.fileOf 501) "upload.xlsx" None 0
    = Ok batches
    /\ fst (processImport Cases.readOnlyDb Samples.engine (Samples.fileOf 501)
              0 5 "upload.xlsx" "People" None None 0 Samples.quietCallback
              emptyWorld)
       = Ok {| successCount := 0;
               failedCount := Spec.recordCount batches;
               duration := 5 - 0 |}
    /\ updates (snd (processImport Cases.readOnlyDb Samples.engine
                       (Samples.fileOf 501) 0 5 "upload.xlsx" "People" None
                       None 0 Samples.quietCallback emptyWorld))
       = updates emptyWorld
    /\ length (List.filter isBulk
                 (calls (snd (processImport Cases.readOnlyDb Samples.engine
                                (Samples.fileOf 501) 0 5 "upload.xlsx" "People"
                                None None 0 Samples.quietCallback emptyWorld))))
       = (length (List.filter isBulk (calls emptyWorld)) + length batches)%nat.
Proof.
  apply (processImport_none_inserted Cases.readOnlyDb Samples.engine
           (Samples.fileOf 501) 0 5 "upload.xlsx" "People" None None 0
           Samples.quietCallback emptyWorld 501).
  - reflexivity.
  - vm_compute. reflexivity.
  - intros h t. reflexivity.
Defined.

(** ** The connection and the pool lookup *)

(** X17. The life of the connection. Before any [connect] the lookup
    raises. A [connect] that returns a connected pool makes the lookup
    return that pool, and further calls of [connect] return it without
    dialling again; a [connect] that raises leaves the connection as it
    was. After a [close] that returns, the lookup raises again and the
    health check answers no. *)
Theorem connection_lifecycle :
  DatabaseConnection.getPool DatabaseConnection.initial
    = Throw DatabaseConnection.notInitialized
  /\ (forall dial st p,
        fst (DatabaseConnection.connect dial st) = Ok p ->
        connected p = true ->
        DatabaseConnection.getPool (snd (DatabaseConnection.connect dial st)) = Ok p
        /\ forall dial',
             DatabaseConnection.connect dial'
               (snd (DatabaseConnection.connect dial st))
             = (Ok p, snd (DatabaseConnection.connect dial st)))
  /\ (forall dial st e,
        fst (DatabaseConnection.connect dial st) = Throw e ->
        dial = Throw e
        /\ snd (DatabaseConnection.connect dial st) = st
        /\ DatabaseConnection.getPool st = Throw DatabaseConnection.notInitialized)
  /\ (forall closed st,
        Js.isOk (fst (DatabaseConnection.close closed st)) = true ->
        DatabaseConnection.getPool (snd (DatabaseConnection.close closed st))
          = Throw DatabaseConnection.notInitialized
        /\ forall reply,
             DatabaseConnection.healthCheck reply
               (snd (DatabaseConnection.close closed st)) = false)
  /\ (forall closed st e,
        fst (DatabaseConnection.close closed st) = Throw e ->
        snd (DatabaseConnection.close closed st) = st).
Proof.
  split; [reflexivity |].
  split; [| split; [| split]].
  - intros dial st p Hconnect Hp.
    unfold DatabaseConnection.connect, DatabaseConnection.connectNew in *.
    destruct st as [q |].
    + destruct (connected q) eqn:Hq.
      * cbn in Hconnect. injection Hconnect as ->. cbn [snd].
        unfold DatabaseConnection.getPool. rewrite Hq.
        split; [reflexivity | intros dial'; reflexivity].
      * destruct dial as [p' | e]; cbn in Hconnect; [| discriminate].
        injection Hconnect as ->. cbn [snd].
        unfold DatabaseConnection.getPool. rewrite Hp.
        split; [reflexivity | intros dial'; reflexivity].
    + destruct dial as [p' | e]; cbn in Hconnect; [| discriminate].
      injection Hconnect as ->. cbn [snd].
      unfold DatabaseConnection.getPool. rewrite Hp.
      split; [reflexivity | intros dial'; reflexivity].
  - intros dial st e Hconnect.
    unfold DatabaseConnection.connect, DatabaseConnection.connectNew in *.
    unfold DatabaseConnection.getPool.
    destruct st as [q |].
    + destruct (connected q) eqn:Hq; [discriminate |].
      destruct dial as [p' | e']; cbn in Hconnect; [discriminate |].
      injection Hconnect as ->. repeat split.
    + destruct dial as [p' | e']; cbn in Hconnect; [discriminate |].
      injection Hconnect as ->. repeat split.
  - intros closed st Hclose.
    unfold DatabaseConnection.close in *.
    destruct st as [q |].
    + destruct closed as [u | e]; [| discriminate].
      split; [reflexivity | intros reply; reflexivity].
    + split; [reflexivity | intros reply; reflexivity].
  - intros closed st e Hclose.
    unfold DatabaseConnection.close in *.
    destruct st as [q |]; [| discriminate].
    destruct closed as [u | e']; [discriminate | reflexivity].
Qed.

Lemma processBatches_over_connected (db : DbClient) (eng : Js.Engine)
  (table : string) (columnMapping : option (gmap string string))
  (onProgress : option (JobProgress -> Js.result unit)) (totalRecords : Z)
  (batches : list (list ImportRecord)) :
  forall (c : Counters) (w : World),
    ImportOver.processBatches (connectedRepository db eng) table columnMapping
      onProgress totalRecords batches c w
    = processBatches db eng table columnMapping onProgress totalRecords batches c w.
Proof.
  induction batches as [| batch rest IH]; intros c w; [reflexivity |].
  cbn [ImportOver.processBatches processBatches].
  change (ImportOver.processBatch (connectedRepository db eng) table
            columnMapping onProgress totalRecords c batch w)
    with (processBatch db eng table columnMapping onProgress totalRecords c batch w).
  destruct (processBatch db eng table columnMapping onProgress totalRecords
              c batch w) as [c' w'].
  apply IH.
Qed.

Lemma processImport_over_connected (db : DbClient) (eng : Js.Engine)
  (fs : FileSystem) (startTime endTime : Z) (filePath table : string)
  (sheet : option string) (columnMapping : option (gmap string string))
  (skipRows : nat) (onProgress : option (JobProgress -> Js.result unit))
  (w : World) :
  ImportOver.processImport (connectedRepository db eng) eng fs startTime endTime
    filePath table sheet columnMapping skipRows onProgress w
  = processImport db eng fs startTime endTime filePath table sheet columnMapping
      skipRows onProgress w.
Proof.
  unfold ImportOver.processImport, processImport, Eff.bind, Eff.lift.
  cbn [repoTableExists connectedRepository].
  destruct (tableExists db table w) as [[exists_ | e] w1]; [| reflexivity].
  destruct (negb exists_); [reflexivity |].
  destruct (getRowCount fs filePath sheet skipRows); [| reflexivity].
  destruct (streamExcelRows eng fs filePath sheet skipRows); [| reflexivity].
  now rewrite processBatches_over_connected.
Qed.

Lemma pooled_repository_connected (conn : DatabaseConnection.State)
  (db : DbClient) (eng : Js.Engine) (p : ConnectionPool) :
  DatabaseConnection.getPool conn = Ok p ->
  Pooled.repository conn db eng = connectedRepository db eng.
Proof.
  intros Hpool.
  unfold Pooled.repository, Pooled.tableExists, Pooled.getTableColumns,
    Pooled.bulkInsertWithTVP, Pooled.withPool.
  rewrite Hpool. reflexivity.
Qed.

(** X18. Over a connected pool the pool lookup changes nothing: the
    import service run on the repository behind its lookup imports and
    validates as the service over the bare database calls does, with the
    same result, the same calls and the same updates. *)
Theorem pool_lookup_is_transparent_when_connected
  (conn : DatabaseConnection.State) (p : ConnectionPool)
  (db : DbClient) (eng : Js.Engine) (fs : FileSystem) (startTime endTime : Z)
  (filePath table : string) (sheet : option string)
  (columnMapping : option (gmap string string)) (skipRows : nat)
  (onProgress : option (JobProgress -> Js.result unit))
  (records : list ImportRecord) (w : World) :
  DatabaseConnection.getPool conn = Ok p ->
  ImportOver.processImport (Pooled.repository conn db eng) eng fs startTime
    endTime filePath table sheet columnMapping skipRows onProgress w
  = processImport db eng fs startTime endTime filePath table sheet columnMapping
      skipRows onProgress w
  /\ ImportOver.validateImport (Pooled.repository conn db eng) eng fs filePath
       table sheet skipRows w
     = validateImport db eng fs filePath table sheet skipRows w
  /\ Pooled.bulkInsert conn db eng table records columnMapping w
     = bulkInsert db eng table records columnMapping w.
Proof.
  intros Hpool.
  rewrite (pooled_repository_connected conn db eng p Hpool).
  split; [apply processImport_over_connected |].
  split; [reflexivity |].
  unfold Pooled.bulkInsert, Pooled.withPool. now rewrite Hpool.
Qed.

Lemma pool_lookup_is_transparent_when_connected_witness :
  ImportOver.processImport
    (Pooled.repository (Some {| poolId := 1; connected := true |})
       (Samples.healthyDb ["Name"]) Samples.engine)
    Samples.engine (Samples.fileOf 3) 0 5 "upload.xlsx" "People" None None 0
    None emptyWorld
  = processImport (Samples.healthyDb ["Name"]) Samples.engine (Samples.fileOf 3)
      0 5 "upload.xlsx" "People" None None 0 None emptyWorld
  /\ ImportOver.validateImport
       (Pooled.repository (Some {| poolId := 1; connected := true |})
          (Samples.healthyDb ["Name"]) Samples.engine)
       Samples.engine (Samples.fileOf 3) "upload.xlsx" "People" None 0 emptyWorld
     = validateImport (Samples.healthyDb ["Name"]) Samples.engine
         (Samples.fileOf 3) "upload.xlsx" "People" None 0 emptyWorld
  /\ Pooled.bulkInsert (Some {| poolId := 1; connected := true |})
       (Samples.healthyDb ["Name"]) Samples.engine "People"
       [Samples.person "Ada"] None emptyWorld
     = bulkInsert (Samples.healthyDb ["Name"]) Samples.engine "People"
         [Samples.person "Ada"] None emptyWorld.
Proof.
  apply (pool_lookup_is_transparent_when_connected
           (Some {| poolId := 1; connected := true |})
           {| poolId := 1; connected := true |}).
  reflexivity.
Defined.

(** X19. Without a connected pool every repository method raises the
    lookup's error before it calls the database: the table check raises
    instead of answering no, and the per-row strategy neither begins nor
    rolls back. [processImport] then raises that error, and
    [validateImport] returns it as its one message with a row count of 0;
    neither reads the file nor calls the database. *)
Theorem nothing_runs_without_a_pool (conn : DatabaseConnection.State)
  (db : DbClient) (eng : Js.Engine) (fs : FileSystem) (startTime endTime : Z)
  (filePath table : string) (sheet : option string)
  (columnMapping : option (gmap string string)) (skipRows : nat)
  (onProgress : option (JobProgress -> Js.result unit))
  (records : list ImportRecord) (w : World) :
  Js.isOk (DatabaseConnection.getPool conn) = false ->
  Pooled.tableExists conn db table w
    = (Throw DatabaseConnection.notInitialized, w)
  /\ Pooled.getTableColumns conn db table w
     = (Throw DatabaseConnection.notInitialized, w)
  /\ Pooled.bulkInsertWithTVP conn db eng table records columnMapping w
     = (Throw DatabaseConnection.notInitialized, w)
  /\ Pooled.bulkInsert conn db eng table records columnMapping w
     = (Throw DatabaseConnection.notInitialized, w)
  /\ ImportOver.processImport (Pooled.repository conn db eng) eng fs startTime
       endTime filePath table sheet columnMapping skipRows onProgress w
     = (Throw DatabaseConnection.notInitialized, w)
  /\ ImportOver.validateImport (Pooled.repository conn db eng) eng fs filePath
       table sheet skipRows w
     = (Ok {| importValid := false;
              importErrors :=
                ["Validation error: Database pool not initialized. Call connect() first."];
              importRowCount := 0 |}, w).
Proof.
  intros Hpool.
  assert (Hthrow : DatabaseConnection.getPool conn
                   = Throw DatabaseConnection.notInitialized).
  { unfold DatabaseConnection.getPool in *.
    destruct conn as [p |]; [| reflexivity].
    destruct (connected p); [discriminate | reflexivity]. }
  unfold ImportOver.processImport, ImportOver.validateImport, Eff.tryCatch,
    Eff.bind.
  cbn [repoTableExists Pooled.repository].
  unfold Pooled.tableExists, Pooled.getTableColumns, Pooled.bulkInsertWithTVP,
    Pooled.bulkInsert, Pooled.withPool.
  rewrite Hthrow. repeat split.
Qed.

Lemma nothing_runs_without_a_pool_witness :
  Pooled.tableExists DatabaseConnection.initial (Samples.healthyDb ["Name"])
    "People" emptyWorld
    = (Throw DatabaseConnection.notInitialized, emptyWorld)
  /\ Pooled.getTableColumns DatabaseConnection.initial
       (Samples.healthyDb ["Name"]) "People" emptyWorld
     = (Throw DatabaseConnection.notInitialized, emptyWorld)
  /\ Pooled.bulkInsertWithTVP DatabaseConnection.initial
       (Samples.healthyDb ["Name"]) Samples.engine "People"
       [Samples.person "Ada"] None emptyWorld
     = (Throw DatabaseConnection.notInitialized, emptyWorld)
  /\ Pooled.bulkInsert DatabaseConnection.initial (Samples.healthyDb ["Name"])
       Samples.engine "People" [Samples.person "Ada"] None emptyWorld
     = (Throw DatabaseConnection.notInitialized, emptyWorld)
  /\ ImportOver.processImport
       (Pooled.repository DatabaseConnection.initial (Samples.healthyDb ["Name"])
          Samples.engine)
       Samples.engine (Samples.fileOf 3) 0 5 "upload.xlsx" "People" None None 0
       None emptyWorld
     = (Throw DatabaseConnection.notInitialized, emptyWorld)
  /\ ImportOver.validateImport
       (Pooled.repository DatabaseConnection.initial (Samples.healthyDb ["Name"])
          Samples.engine)
       Samples.engine (Samples.fileOf 3) "upload.xlsx" "People" None 0 emptyWorld
     = (Ok {| importValid := false;
              importErrors :=
                ["Validation error: Database pool not initialized. Call connect() first."];
              importRowCount := 0 |}, emptyWorld).
Proof.
  apply (nothing_runs_without_a_pool DatabaseConnection.initial
           (Samples.healthyDb ["Name"]) Samples.engine (Samples.fileOf 3) 0 5
           "upload.xlsx" "People" None None 0 None [Samples.person "Ada"]
           emptyWorld).
  reflexivity.
Defined.

(** ** The two gates of an upload *)

Lemma append_cons (c : ascii) (s1 s2 : string) :
  String c s1 +:+ s2 = String c (s1 +:+ s2).
Proof. reflexivity. Qed.

Lemma length_append (s1 s2 : string) :
  String.length (s1 +:+ s2) = (String.length s1 + String.length s2)%nat.
Proof.
  induction s1 as [| c s1 IH]; [reflexivity |].
  rewrite append_cons. cbn [String.length]. now rewrite IH.
Qed.

Lemma substring_all (s : string) : substring 0 (String.length s) s = s.
Proof.
  induction s as [| c s IH]; [reflexivity |].
  cbn [String.length substring]. now rewrite IH.
Qed.

Lemma substring_skip (stem suffix : string) :
  substring (String.length stem) (String.length suffix) (stem +:+ suffix) = suffix.
Proof.
  induction stem as [| c stem IH]; [apply substring_all |].
  rewrite append_cons. cbn [String.length substring]. exact IH.
Qed.

Lemma substring_split (s : string) :
  forall k,
    (k <= String.length s)%nat ->
    s = substring 0 k s +:+ substring k (String.length s - k) s.
Proof.
  induction s as [| c s IH]; intros k Hk.
  - cbn in Hk. assert (k = 0%nat) as -> by lia. reflexivity.
  - destruct k as [| k].
    + cbn [substring String.length Nat.sub].
      change ("" +:+ ?x) with x. now rewrite substring_all.
    + cbn [substring String.length Nat.sub]. rewrite append_cons.
      f_equal. apply IH. cbn in Hk. lia.
Qed.

Lemma endsWith_spec (s suffix : string) :
  Upload.endsWith s suffix = true <-> exists stem, s = stem +:+ suffix.
Proof.
  unfold Upload.endsWith. split.
  - intros H. apply andb_true_iff in H as [Hlen Heq].
    apply Nat.leb_le in Hlen. apply String.eqb_eq in Heq.
    exists (substring 0 (String.length s - String.length suffix) s).
    assert (Hk : (String.length s - String.length suffix <= String.length s)%nat)
      by lia.
    pose proof (substring_split s _ Hk) as Hsplit.
    replace (String.length s - (String.length s - String.length suffix))%nat
      with (String.length suffix) in Hsplit by lia.
    rewrite Heq in Hsplit. exact Hsplit.
  - intros (stem & ->). rewrite length_append.
    apply andb_true_iff. split; [apply Nat.leb_le; lia |].
    replace (String.length stem + String.length suffix - String.length suffix)%nat
      with (String.length stem) by lia.
    rewrite substring_skip. apply String.eqb_refl.
Qed.

(** X20. The upload filter and the file validator accept the same files:
    those whose declared type is one of the two spreadsheet types and whose
    name ends, in lower case, with the extension, which implies a name of
    five characters at least. The validator names the type first when both
    are wrong, and a missing file is refused. *)
Theorem upload_gates_agree (file : Upload.MulterFile) :
  (Upload.fileFilter file = Ok true
   <-> Upload.isValid (Upload.validateFile (Some file)) = true)
  /\ (Upload.isValid (Upload.validateFile (Some file)) = true
      <-> In (Upload.mimetype file) Upload.allowedMimeTypes
          /\ exists stem, Upload.originalname file = stem +:+ ".xlsx")
  /\ (Upload.isValid (Upload.validateFile (Some file)) = true ->
      Upload.error (Upload.validateFile (Some file)) = None
      /\ (5 <= String.length (Upload.originalname file))%nat)
  /\ (~ In (Upload.mimetype file) Upload.allowedMimeTypes ->
      Upload.validateFile (Some file)
      = {| Upload.isValid := false;
           Upload.error := Some "Invalid file type. Only .xlsx files are allowed" |})
  /\ Upload.validateFile None
     = {| Upload.isValid := false; Upload.error := Some "No file uploaded" |}.
Proof.
  assert (Hinc : Upload.includes Upload.allowedMimeTypes (Upload.mimetype file) = true
                 <-> In (Upload.mimetype file) Upload.allowedMimeTypes).
  { unfold Upload.includes. rewrite existsb_exists. split.
    - intros (x & Hx & Heq). apply String.eqb_eq in Heq. now subst.
    - intros Hin. exists (Upload.mimetype file). split; [exact Hin |].
      apply String.eqb_refl. }
  unfold Upload.fileFilter, Upload.validateFile.
  split; [| split; [| split; [| split]]].
  - destruct (Upload.includes Upload.allowedMimeTypes (Upload.mimetype file));
      destruct (Upload.endsWith (Upload.originalname file) ".xlsx");
      cbn [negb andb Upload.isValid]; split; congruence.
  - rewrite <- Hinc, <- endsWith_spec.
    destruct (Upload.includes Upload.allowedMimeTypes (Upload.mimetype file));
      destruct (Upload.endsWith (Upload.originalname file) ".xlsx");
      cbn [negb Upload.isValid];
      split; try congruence; try (intros [? ?]; congruence); auto.
  - destruct (Upload.includes _ _); cbn [negb]; [| discriminate].
    destruct (Upload.endsWith _ _) eqn:Hends; cbn [negb Upload.isValid Upload.error];
      [| discriminate].
    intros _. split; [reflexivity |].
    apply endsWith_spec in Hends as (stem & ->).
    rewrite length_append. cbn. lia.
  - intros Hnot.
    destruct (Upload.includes _ _) eqn:Hi; [| reflexivity].
    exfalso. apply Hnot, Hinc. reflexivity.
  - reflexivity.
Qed.

(** ** The uploaded file *)

Lemma cleanupFile_spec (d : Fs.Disk) (filePath : string) :
  Upload.cleanupFile d filePath
  = match Fs.files d !! filePath with
    | Some _ =>
        if bool_decide (elem_of filePath (Fs.locked d)) then d
        else {| Fs.files := delete filePath (Fs.files d);
                Fs.locked := Fs.locked d |}
    | None => d
    end.
Proof.
  unfold Upload.cleanupFile, Fs.existsSync, Fs.unlinkSync.
  destruct (Fs.files d !! filePath); [| reflexivity].
  destruct (bool_decide _); reflexivity.
Qed.

(** X21. [cleanupFile] removes the file it is given, and that file only:
    afterwards the file does not exist, unless the system refused to
    unlink it, in which case the directory is unchanged and the error
    dropped; every other file is as before; a missing file is no error,
    so cleaning twice is cleaning once. *)
Theorem cleanupFile_removes_that_file_only (d : Fs.Disk) (filePath : string) :
  (~ elem_of filePath (Fs.locked d) ->
   Fs.existsSync (Upload.cleanupFile d filePath) filePath = false)
  /\ (elem_of filePath (Fs.locked d) -> Upload.cleanupFile d filePath = d)
  /\ (Fs.existsSync d filePath = false -> Upload.cleanupFile d filePath = d)
  /\ (forall other,
        other <> filePath ->
        Fs.files (Upload.cleanupFile d filePath) !! other = Fs.files d !! other)
  /\ Fs.locked (Upload.cleanupFile d filePath) = Fs.locked d
  /\ Upload.cleanupFile (Upload.cleanupFile d filePath) filePath
     = Upload.cleanupFile d filePath.
Proof.
  rewrite (cleanupFile_spec d filePath). unfold Fs.existsSync.
  destruct (Fs.files d !! filePath) as [content |] eqn:Hfile.
  - destruct (bool_decide (elem_of filePath (Fs.locked d))) eqn:Hlocked.
    + apply bool_decide_eq_true in Hlocked.
      split; [intros H; contradiction |].
      split; [reflexivity |]. split; [discriminate |].
      split; [reflexivity |]. split; [reflexivity |].
      rewrite cleanupFile_spec, Hfile.
      now rewrite (bool_decide_eq_true_2 _ Hlocked).
    + apply bool_decide_eq_false in Hlocked.
      split; [intros _; cbn [Fs.files]; now rewrite lookup_delete_eq |].
      split; [intros H; contradiction |]. split; [discriminate |].
      split; [intros other Hne; cbn [Fs.files];
              now rewrite lookup_delete_ne by congruence |].
      split; [reflexivity |].
      rewrite cleanupFile_spec. cbn [Fs.files]. now rewrite lookup_delete_eq.
  - split; [intros _; now rewrite Hfile |].
    split; [reflexivity |]. split; [reflexivity |].
    split; [reflexivity |]. split; [reflexivity |].
    rewrite cleanupFile_spec, Hfile. reflexivity.
Qed.

(** ** The worker *)

(** X22. What a job does. When its file is missing the job raises
    [File not found], calls nothing and reports nothing. Otherwise its
    outcome, calls and updates are those of [processImport] on the first
    sheet of the file with no row skipped, whatever sheet and offset the
    job data name. In both cases the file is cleaned up: it is gone
    afterwards unless the system refused to unlink it. *)
Theorem processJob_outcomes (repo : Repository) (eng : Js.Engine)
  (startTime endTime : Z) (job : ImportWorker.JobData) (w : World)
  (d : Fs.Disk) :
  (Fs.existsSync d (ImportWorker.filePath job) = false ->
   ImportWorker.processJob repo eng startTime endTime job w d
   = (Throw (JsError ("File not found: " +:+ ImportWorker.filePath job)), w, d))
  /\ (Fs.existsSync d (ImportWorker.filePath job) = true ->
      ImportWorker.processJob repo eng startTime endTime job w d
      = (ImportOver.processImport repo eng (Fs.readFile d) startTime endTime
           (ImportWorker.filePath job) (ImportWorker.tableName job) None
           (ImportWorker.columnMapping job) 0 (Some ImportWorker.onProgress) w,
         Upload.cleanupFile d (ImportWorker.filePath job)))
  /\ (forall sheet skip,
        ImportWorker.processJob repo eng startTime endTime
          {| ImportWorker.jobId := ImportWorker.jobId job;
             ImportWorker.fileName := ImportWorker.fileName job;
             ImportWorker.filePath := ImportWorker.filePath job;
             ImportWorker.totalRecords := ImportWorker.totalRecords job;
             ImportWorker.correlationId := ImportWorker.correlationId job;
             ImportWorker.tableName := ImportWorker.tableName job;
             ImportWorker.sheetName := sheet;
             ImportWorker.columnMapping := ImportWorker.columnMapping job;
             ImportWorker.skipRows := skip |} w d
        = ImportWorker.processJob repo eng startTime endTime job w d)
  /\ (~ elem_of (ImportWorker.filePath job) (Fs.locked d) ->
      Fs.existsSync
        (snd (ImportWorker.processJob repo eng startTime endTime job w d))
        (ImportWorker.filePath job) = false).
Proof.
  unfold ImportWorker.processJob.
  split; [| split; [| split]].
  - intros Hmissing. rewrite Hmissing. cbn [negb].
    rewrite cleanupFile_spec. unfold Fs.existsSync in Hmissing.
    destruct (Fs.files d !! ImportWorker.filePath job); [discriminate |].
    reflexivity.
  - intros Hpresent. rewrite Hpresent. cbn [negb].
    destruct (ImportOver.processImport _ _ _ _ _ _ _ _ _ _ _ w). reflexivity.
  - intros sheet skip. reflexivity.
  - intros Hunlocked.
    destruct (if negb (Fs.existsSync d (ImportWorker.filePath job)) then _ else _)
      as [outcome w'].
    cbn [snd]. rewrite cleanupFile_spec. unfold Fs.existsSync.
    destruct (Fs.files d !! ImportWorker.filePath job) eqn:Hfile.
    + rewrite (bool_decide_eq_false_2 _ Hunlocked). cbn [Fs.files].
      now rewrite lookup_delete_eq.
    + now rewrite Hfile.
Qed.

(** X23. A job cannot run twice. Whatever a first run did, returning or
    raising, it removed the file, so a second run of the same job on what
    the first left raises [File not found] without calling the database or
    reporting progress, unless the system refused to unlink the file. *)
Theorem processJob_second_run_finds_no_file (repo : Repository)
  (eng : Js.Engine) (startTime endTime startTime' endTime' : Z)
  (job : ImportWorker.JobData) (w : World) (d : Fs.Disk) :
  ~ elem_of (ImportWorker.filePath job) (Fs.locked d) ->
  ImportWorker.processJob repo eng startTime' endTime' job
    (snd (fst (ImportWorker.processJob repo eng startTime endTime job w d)))
    (snd (ImportWorker.processJob repo eng startTime endTime job w d))
  = (Throw (JsError ("File not found: " +:+ ImportWorker.filePath job)),
     snd (fst (ImportWorker.processJob repo eng startTime endTime job w d)),
     snd (ImportWorker.processJob repo eng startTime endTime job w d)).
Proof.
  intros Hunlocked.
  assert (Hgone : Fs.existsSync
                    (snd (ImportWorker.processJob repo eng startTime endTime job w d))
                    (ImportWorker.filePath job) = false).
  { unfold ImportWorker.processJob.
    destruct (if negb (Fs.existsSync d (ImportWorker.filePath job)) then _ else _)
      as [outcome w'].
    cbn [snd]. rewrite cleanupFile_spec. unfold Fs.existsSync.
    destruct (Fs.files d !! ImportWorker.filePath job) eqn:Hfile.
    - rewrite (bool_decide_eq_false_2 _ Hunlocked). cbn [Fs.files].
      now rewrite lookup_delete_eq.
    - now rewrite Hfile. }
  set (first := ImportWorker.processJob repo eng startTime endTime job w d) in *.
  unfold ImportWorker.processJob at 1. rewrite Hgone. cbn [negb].
  rewrite cleanupFile_spec. unfold Fs.existsSync in Hgone.
  destruct (Fs.files (snd first) !! ImportWorker.filePath job); [discriminate |].
  reflexivity.
Qed.

Lemma processJob_second_run_finds_no_file_witness :
  ImportWorker.processJob (connectedRepository (Samples.healthyDb ["Name"])
                             Samples.engine)
    Samples.engine 10 15 Cases.importPeople
    (snd (fst (ImportWorker.processJob
                 (connectedRepository (Samples.healthyDb ["Name"]) Samples.engine)
                 Samples.engine 0 5 Cases.importPeople emptyWorld Cases.oneUpload)))
    (snd (ImportWorker.processJob
            (connectedRepository (Samples.healthyDb ["Name"]) Samples.engine)
            Samples.engine 0 5 Cases.importPeople emptyWorld Cases.oneUpload))
  = (Throw (JsError ("File not found: " +:+ ImportWorker.filePath Cases.importPeople)),
     snd (fst (ImportWorker.processJob
                 (connectedRepository (Samples.healthyDb ["Name"]) Samples.engine)
                 Samples.engine 0 5 Cases.importPeople emptyWorld Cases.oneUpload)),
     snd (ImportWorker.processJob
            (connectedRepository (Samples.healthyDb ["Name"]) Samples.engine)
            Samples.engine 0 5 Cases.importPeople emptyWorld Cases.oneUpload)).
Proof.
  apply (processJob_second_run_finds_no_file
           (connectedRepository (Samples.healthyDb ["Name"]) Samples.engine)
           Samples.engine 0 5 10 15 Cases.importPeople emptyWorld Cases.oneUpload).
  apply not_elem_of_empty.
Defined.

(** X24. A job that returns has read its file and counted every record of
    it once: the callback of the worker never throws, so the inserted and
    the failed rows of the result add up to the records the stream reader
    emitted for the first sheet of the file. *)
Theorem returning_job_counts_each_record_once (db : DbClient) (eng : Js.Engine)
  (startTime endTime : Z) (job : ImportWorker.JobData) (w : World)
  (d : Fs.Disk) (r : ImportResult) :
  fst (fst (ImportWorker.processJob (connectedRepository db eng) eng startTime
              endTime job w d)) = Ok r ->
  exists wb batches,
    Fs.files d !! ImportWorker.filePath job = Some (Ok wb)
    /\ streamExcelRows eng (Fs.readFile d) (ImportWorker.filePath job) None 0
       = Ok batches
    /\ successCount r + failedCount r = Spec.recordCount batches
    /\ 0 <= successCount r
    /\ 0 <= failedCount r
    /\ duration r = endTime - startTime.
Proof.
  unfold ImportWorker.processJob.
  destruct (Fs.existsSync d (ImportWorker.filePath job)) eqn:Hpresent;
    cbn [negb]; [| discriminate].
  rewrite processImport_over_connected, processImport_spec.
  destruct (fst (tableExists db (ImportWorker.tableName job) w)) as [[|] | e];
    try discriminate.
  destruct (getRowCount (Fs.readFile d) (ImportWorker.filePath job) None 0)
    as [totalRecords | e] eqn:Hcount; [| discriminate].
  destruct (stream_within_rowCount eng (Fs.readFile d) (ImportWorker.filePath job)
              None 0 totalRecords Hcount) as (batches & Hstream & Hne & _).
  rewrite Hstream. cbv zeta. cbn [fst]. intros Hr. injection Hr as <-.
  apply getRowCount_ok in Hcount as (wb & ws & Hread & _).
  unfold Fs.readFile in Hread. unfold Fs.existsSync in Hpresent.
  destruct (Fs.files d !! ImportWorker.filePath job) as [content |] eqn:Hfile;
    [| discriminate].
  exists wb, batches.
  split; [now rewrite Hread |]. split; [reflexivity |].
  destruct (processBatches_counts db eng (ImportWorker.tableName job)
              (ImportWorker.columnMapping job) (Some ImportWorker.onProgress)
              totalRecords batches Hne zeroCounters
              (snd (tableExists db (ImportWorker.tableName job) w)))
    as (Hs & Hf & _ & Hquiet).
  cbn [successCount failedCount duration zeroCounters cSuccess cFailed] in *.
  assert (Hq : Terms.neverThrows (Some ImportWorker.onProgress))
    by (intros p; reflexivity).
  specialize (Hquiet Hq). repeat split; lia.
Qed.

Lemma returning_job_counts_each_record_once_witness :
  exists wb batches,
    Fs.files Cases.oneUpload !! ImportWorker.filePath Cases.importPeople
      = Some (Ok wb)
    /\ streamExcelRows Samples.engine (Fs.readFile Cases.oneUpload)
         (ImportWorker.filePath Cases.importPeople) None 0 = Ok batches
    /\ 3 + 0 = Spec.recordCount batches
    /\ 0 <= 3
    /\ 0 <= 0
    /\ 5 = 5 - 0.
Proof.
  apply (returning_job_counts_each_record_once (Samples.healthyDb ["Name"])
           Samples.engine 0 5 Cases.importPeople emptyWorld Cases.oneUpload
           {| successCount := 3; failedCount := 0; duration := 5 |}).
  vm_compute. reflexivity.
Defined.

(** ** The upload handlers *)

Lemma validateImport_over_returns (repo : Repository) (eng : Js.Engine)
  (fs : FileSystem) (filePath table : string) (sheet : option string)
  (skipRows : nat) (w : World) :
  exists v,
    fst (ImportOver.validateImport repo eng fs filePath table sheet skipRows w)
    = Ok v.
Proof.
  unfold ImportOver.validateImport, Eff.tryCatch.
  destruct (Eff.bind _ _ w) as [[v | e] w']; eexists; reflexivity.
Qed.

(** The validation branch answers 200 or 400, cleans the file up and
    leaves the queue alone. *)
Lemma validateBranch_spec (repo : Repository) (eng : Js.Engine)
  (req : UploadController.Request) (filePath : string)
  (st : UploadController.State) :
  exists response w',
    UploadController.validateBranch repo eng req filePath st
    = (Ok response,
       {| UploadController.world := w';
          UploadController.disk :=
            Upload.cleanupFile (UploadController.disk st) filePath;
          UploadController.queue := UploadController.queue st |})
    /\ (UploadController.statusCode response = 200
        /\ UploadController.success response = true
        \/ UploadController.statusCode response = 400
           /\ UploadController.success response = false).
Proof.
  unfold UploadController.validateBranch.
  destruct (validateImport_over_returns repo eng
              (Fs.readFile (UploadController.disk st)) filePath
              (UploadController.tableName (UploadController.body req))
              (UploadController.sheetName (UploadController.body req))
              (UploadController.skipRows (UploadController.body req))
              (UploadController.world st)) as (v & Hv).
  destruct (ImportOver.validateImport _ _ _ _ _ _ _ _) as [outcome w'].
  cbn [fst] in Hv. subst outcome.
  eexists. exists w'. split; [reflexivity |].
  unfold UploadController.validationResponse.
  destruct (importValid v); [left | right]; split; reflexivity.
Qed.

(** The job [uploadFile] queues for an upload, a row count and a
    mapping. *)
Lemma queueBranch_spec (env : UploadController.Env)
  (req : UploadController.Request) (upload : Upload.MulterFile)
  (filePath : string) (st : UploadController.State) :
  (exists e st',
      UploadController.queueBranch env req upload filePath st = (Throw e, st')
      /\ UploadController.disk st' = UploadController.disk st
      /\ UploadController.world st' = UploadController.world st)
  \/ (exists rowCount mapping,
        ExcelService.getRowCount (Fs.readFile (UploadController.disk st))
          filePath (UploadController.sheetName (UploadController.body req))
          (UploadController.skipRows (UploadController.body req)) = Ok rowCount
        /\ UploadController.queueBranch env req upload filePath st
           = (Ok (UploadController.sendSuccess
                    (UploadController.Queued (UploadController.uuidv4 env)
                       (Upload.originalname upload) rowCount)
                    (UploadController.correlationId req) 202),
              {| UploadController.world := UploadController.world st;
                 UploadController.disk := UploadController.disk st;
                 UploadController.queue :=
                   UploadController.queue st
                   ++ [ {| ImportWorker.jobId := UploadController.uuidv4 env;
                           ImportWorker.fileName := Upload.originalname upload;
                           ImportWorker.filePath := filePath;
                           ImportWorker.totalRecords := rowCount;
                           ImportWorker.correlationId :=
                             UploadController.correlationId req;
                           ImportWorker.tableName :=
                             UploadController.tableName (UploadController.body req);
                           ImportWorker.sheetName := None;
                           ImportWorker.columnMapping := mapping;
                           ImportWorker.skipRows := None |} ] |})).
Proof.
  unfold UploadController.queueBranch.
  destruct (getRowCount _ _ _ _) as [rowCount | e];
    [| left; eexists; eexists; repeat split].
  cbv zeta.
  destruct (match UploadController.columnMapping (UploadController.body req) with
            | Some raw => _
            | None => _
            end) as [mapping | e];
    [| left; eexists; eexists; repeat split].
  unfold JobService.addJob.
  destruct (UploadController.queueClient env _ _) as [[id |] | e];
    [| left; eexists; eexists; repeat split
     | left; eexists; eexists; repeat split].
  destruct (Js.truthy id); [| left; eexists; eexists; repeat split].
  right. exists rowCount, mapping. split; reflexivity.
Qed.

(** The queueing branch, step by step. *)
Lemma queueBranch_cases (env : UploadController.Env)
  (req : UploadController.Request) (upload : Upload.MulterFile)
  (st : UploadController.State) :
  UploadController.queueBranch env req upload (Upload.path upload) st
  = match ExcelService.getRowCount (Fs.readFile (UploadController.disk st))
            (Upload.path upload)
            (UploadController.sheetName (UploadController.body req))
            (UploadController.skipRows (UploadController.body req)) with
    | Throw e => (Throw e, st)
    | Ok rowCount =>
        match Terms.mappingOf env req with
        | Throw e => (Throw e, st)
        | Ok mapping =>
            let jobData := Terms.jobOf env req upload rowCount mapping in
            let stored :=
              {| UploadController.world := UploadController.world st;
                 UploadController.disk := UploadController.disk st;
                 UploadController.queue :=
                   UploadController.queue st ++ [jobData] |} in
            match UploadController.queueClient env (UploadController.queue st)
                    jobData with
            | Throw e => (Throw e, st)
            | Ok None => (Throw (JsError "Job ID is undefined"), stored)
            | Ok (Some id) =>
                if Js.truthy id
                then (Ok (UploadController.sendSuccess
                            (UploadController.Queued (UploadController.uuidv4 env)
                               (Upload.originalname upload) rowCount)
                            (UploadController.correlationId req) 202),
                      stored)
                else (Throw (JsError "Job ID is undefined"), stored)
            end
        end
    end.
Proof.
  destruct st as [w d q].
  unfold UploadController.queueBranch, Terms.mappingOf, Terms.jobOf,
    JobService.addJob.
  cbn [UploadController.world UploadController.disk UploadController.queue].
  destruct (getRowCount _ _ _ _) as [rowCount | e]; [| reflexivity].
  cbv zeta.
  destruct (UploadController.columnMapping (UploadController.body req))
    as [raw |].
  - destruct (Js.truthy raw).
    + destruct (UploadController.jsonParse env raw) as [mapping | e];
        [| reflexivity].
      destruct (UploadController.queueClient env q _) as [[id |] | e];
        try reflexivity.
      destruct (Js.truthy id); reflexivity.
    + destruct (UploadController.queueClient env q _) as [[id |] | e];
        try reflexivity.
      destruct (Js.truthy id); reflexivity.
  - destruct (UploadController.queueClient env q _) as [[id |] | e];
      try reflexivity.
    destruct (Js.truthy id); reflexivity.
Qed.

Ltac answer :=
  cbn [UploadController.caught fst snd UploadController.sendError
         UploadController.sendSuccess UploadController.statusCode
         UploadController.success UploadController.error
         UploadController.world UploadController.disk UploadController.queue
         UploadController.messageOr].

(** X25. What an upload leaves behind. The handler answers 200, 202, 400
    or 500, with [success] set for 200 and 202 only. It answers 202
    exactly when the file passes [validateFile], no validation only is
    asked for, the row count and the parsing of the mapping return and the
    queue returns the job it stored with an id: the queue then holds one
    more job, for the uploaded file, with the row count of the requested
    sheet and offset for total and no sheet or offset of its own, and the
    file is kept. In every other case with a file the file is cleaned up
    and the queue is as before, but for a job the queue stored and returned
    without id: that job stays queued, the answer is 500 and its file is
    gone. *)
Theorem uploadFile_outcomes (repo : Repository)
  (eng : Js.Engine) (env : UploadController.Env)
  (req : UploadController.Request) (st : UploadController.State) :
  In (UploadController.statusCode
        (fst (UploadController.uploadFile repo eng env req st)))
     [200; 202; 400; 500]
  /\ (UploadController.success
        (fst (UploadController.uploadFile repo eng env req st)) = true
      <-> UploadController.statusCode
            (fst (UploadController.uploadFile repo eng env req st)) = 200
          \/ UploadController.statusCode
               (fst (UploadController.uploadFile repo eng env req st)) = 202)
  /\ (UploadController.statusCode
        (fst (UploadController.uploadFile repo eng env req st)) = 202
      <-> exists upload rowCount mapping id,
            UploadController.file req = Some upload
            /\ Upload.isValid (Upload.validateFile (Some upload)) = true
            /\ UploadController.validateOnly (UploadController.body req) = false
            /\ ExcelService.getRowCount (Fs.readFile (UploadController.disk st))
                 (Upload.path upload)
                 (UploadController.sheetName (UploadController.body req))
                 (UploadController.skipRows (UploadController.body req))
               = Ok rowCount
            /\ Terms.mappingOf env req = Ok mapping
            /\ UploadController.queueClient env (UploadController.queue st)
                 (Terms.jobOf env req upload rowCount mapping) = Ok (Some id)
            /\ id <> "")
  /\ (UploadController.statusCode
        (fst (UploadController.uploadFile repo eng env req st)) = 202 ->
      exists upload rowCount mapping,
        UploadController.file req = Some upload
        /\ ExcelService.getRowCount (Fs.readFile (UploadController.disk st))
             (Upload.path upload)
             (UploadController.sheetName (UploadController.body req))
             (UploadController.skipRows (UploadController.body req))
           = Ok rowCount
        /\ snd (UploadController.uploadFile repo eng env req st)
           = {| UploadController.world := UploadController.world st;
                UploadController.disk := UploadController.disk st;
                UploadController.queue :=
                  UploadController.queue st
                  ++ [ {| ImportWorker.jobId := UploadController.uuidv4 env;
                          ImportWorker.fileName := Upload.originalname upload;
                          ImportWorker.filePath := Upload.path upload;
                          ImportWorker.totalRecords := rowCount;
                          ImportWorker.correlationId :=
                            UploadController.correlationId req;
                          ImportWorker.tableName :=
                            UploadController.tableName
                              (UploadController.body req);
                          ImportWorker.sheetName := None;
                          ImportWorker.columnMapping := mapping;
                          ImportWorker.skipRows := None |} ] |})
  /\ (forall upload,
        UploadController.file req = Some upload ->
        UploadController.statusCode
          (fst (UploadController.uploadFile repo eng env req st)) <> 202 ->
        UploadController.disk (snd (UploadController.uploadFile repo eng env req st))
        = Upload.cleanupFile (UploadController.disk st) (Upload.path upload)
        /\ (UploadController.queue
              (snd (UploadController.uploadFile repo eng env req st))
            = UploadController.queue st
            \/ exists rowCount mapping,
                 UploadController.statusCode
                   (fst (UploadController.uploadFile repo eng env req st)) = 500
                 /\ UploadController.error
                      (fst (UploadController.uploadFile repo eng env req st))
                    = Some "Job ID is undefined"
                 /\ UploadController.queue
                      (snd (UploadController.uploadFile repo eng env req st))
                    = UploadController.queue st
                      ++ [Terms.jobOf env req upload rowCount mapping]))
  /\ (UploadController.file req = None ->
      UploadController.uploadFile repo eng env req st
      = (UploadController.sendError "No file uploaded"
           (UploadController.correlationId req) 400, st)).
Proof.
  unfold UploadController.uploadFile, UploadController.guarded.
  destruct (UploadController.file req) as [upload |].
  2: { answer. split; [cbn; auto |].
       split; [split; [discriminate | intros [? | ?]; discriminate] |].
       split; [split; [discriminate | intros (u & ? & ? & ? & H & _); discriminate] |].
       split; [discriminate |]. split; [discriminate | reflexivity]. }
  cbv zeta.
  destruct (Upload.isValid (Upload.validateFile (Some upload))) eqn:Hvalid;
    cbn [negb].
  2: { answer. split; [cbn; auto |].
       split; [split; [discriminate | intros [? | ?]; discriminate] |].
       split; [split; [discriminate |];
               intros (u & ? & ? & ? & Hu & Hv & _); injection Hu as <-;
               congruence |].
       split; [discriminate |].
       split; [| discriminate].
       intros u Hu _. injection Hu as <-. split; [reflexivity | now left]. }
  destruct (UploadController.validateOnly (UploadController.body req)) eqn:Hflag.
  - destruct (validateBranch_spec repo eng req (Upload.path upload) st)
      as (response & w' & -> & Hstatus).
    cbn [UploadController.caught fst snd UploadController.disk
           UploadController.queue].
    destruct Hstatus as [[-> ->] | [-> ->]].
    + split; [cbn; auto |]. split; [split; [auto | reflexivity] |].
      split; [split; [discriminate |];
              intros (u & ? & ? & ? & _ & _ & Hf & _); discriminate |].
      split; [discriminate |].
      split; [| discriminate].
      intros u Hu _. injection Hu as <-. split; [reflexivity | now left].
    + split; [cbn; auto |].
      split; [split; [discriminate | intros [? | ?]; discriminate] |].
      split; [split; [discriminate |];
              intros (u & ? & ? & ? & _ & _ & Hf & _); discriminate |].
      split; [discriminate |].
      split; [| discriminate].
      intros u Hu _. injection Hu as <-. split; [reflexivity | now left].
  - rewrite queueBranch_cases.
    destruct (getRowCount _ _ _ _) as [rowCount | e] eqn:Hcount.
    2: { answer. split; [cbn; auto |].
         split; [split; [discriminate | intros [? | ?]; discriminate] |].
         split; [split; [discriminate |];
                 intros (u & ? & ? & ? & Hu & _ & _ & Hc & _);
                 injection Hu as <-; congruence |].
         split; [discriminate |]. split; [| discriminate].
         intros u Hu _. injection Hu as <-. split; [reflexivity | now left]. }
    destruct (Terms.mappingOf env req) as [mapping | e] eqn:Hmapping.
    2: { answer. split; [cbn; auto |].
         split; [split; [discriminate | intros [? | ?]; discriminate] |].
         split; [split; [discriminate |];
                 intros (u & ? & ? & ? & Hu & _ & _ & _ & Hm & _); discriminate |].
         split; [discriminate |]. split; [| discriminate].
         intros u Hu _. injection Hu as <-. split; [reflexivity | now left]. }
    cbv zeta.
    destruct (UploadController.queueClient env (UploadController.queue st)
                (Terms.jobOf env req upload rowCount mapping))
      as [[id |] | e] eqn:Hqueue.
    + destruct id as [| c rest]; cbn [Js.truthy].
      * answer. split; [cbn; auto |].
        split; [split; [discriminate | intros [? | ?]; discriminate] |].
        split; [split; [discriminate |];
                intros (u & n & m & i & Hu & _ & _ & Hc & Hm & Hq & Hi);
                injection Hu as <-; rewrite Hcount in Hc;
                injection Hc as <-; injection Hm as <-;
                rewrite Hqueue in Hq; injection Hq as <-; congruence |].
        split; [discriminate |]. split; [| discriminate].
        intros u Hu _. injection Hu as <-. split; [reflexivity |].
        right. exists rowCount, mapping. repeat split.
      * cbn [UploadController.caught fst snd UploadController.sendSuccess
               UploadController.statusCode UploadController.success
               UploadController.disk UploadController.queue].
        split; [cbn; auto |]. split; [split; [auto | reflexivity] |].
        split; [split; [| reflexivity] |].
        { intros _. exists upload, rowCount, mapping, (String c rest).
          repeat split; try assumption; discriminate. }
        split; [| split; [intros u Hu Hne; congruence | discriminate]].
        intros _. exists upload, rowCount, mapping. repeat split.
        exact Hcount.
    + answer. split; [cbn; auto |].
      split; [split; [discriminate | intros [? | ?]; discriminate] |].
      split; [split; [discriminate |];
              intros (u & n & m & i & Hu & _ & _ & Hc & Hm & Hq & Hi);
              injection Hu as <-; rewrite Hcount in Hc;
                injection Hc as <-; injection Hm as <-;
              rewrite Hqueue in Hq; discriminate |].
      split; [discriminate |]. split; [| discriminate].
      intros u Hu _. injection Hu as <-. split; [reflexivity |].
      right. exists rowCount, mapping. repeat split.
    + answer. split; [cbn; auto |].
      split; [split; [discriminate | intros [? | ?]; discriminate] |].
      split; [split; [discriminate |];
              intros (u & n & m & i & Hu & _ & _ & Hc & Hm & Hq & Hi);
              injection Hu as <-; rewrite Hcount in Hc;
                injection Hc as <-; injection Hm as <-;
              rewrite Hqueue in Hq; discriminate |].
      split; [discriminate |]. split; [| discriminate].
      intros u Hu _. injection Hu as <-. split; [reflexivity | now left].
Qed.

(** An upload of three rows, one row skipped. Over a queue that returns
    the job it stored with its id the answer is 202, the job is queued
    with a total of 2 and the file is kept; over a queue that returns the
    job without id the answer is 500, the job is queued all the same and
    the file is gone. *)
Lemma uploadFile_outcomes_witness :
  UploadController.uploadFile
    (connectedRepository (Samples.healthyDb ["Name"]) Samples.engine)
    Samples.engine Cases.calm Cases.importRequest Cases.fresh
  = ({| UploadController.statusCode := 202;
        UploadController.success := true;
        UploadController.data :=
          Some (UploadController.Queued "7f9c" "people.xlsx" 2);
        UploadController.error := None;
        UploadController.responseId := "unknown" |},
     {| UploadController.world := emptyWorld;
        UploadController.disk := Cases.oneUpload;
        UploadController.queue :=
          [ {| ImportWorker.jobId := "7f9c";
               ImportWorker.fileName := "people.xlsx";
               ImportWorker.filePath := Cases.uploaded;
               ImportWorker.totalRecords := 2;
               ImportWorker.correlationId := "unknown";
               ImportWorker.tableName := "People";
               ImportWorker.sheetName := None;
               ImportWorker.columnMapping := None;
               ImportWorker.skipRows := None |} ] |})
  /\ fst (UploadController.uploadFile
            (connectedRepository (Samples.healthyDb ["Name"]) Samples.engine)
            Samples.engine Cases.forgetful Cases.importRequest Cases.fresh)
     = {| UploadController.statusCode := 500;
          UploadController.success := false;
          UploadController.data := None;
          UploadController.error := Some "Job ID is undefined";
          UploadController.responseId := "unknown" |}
  /\ length (UploadController.queue
               (snd (UploadController.uploadFile
                       (connectedRepository (Samples.healthyDb ["Name"])
                          Samples.engine)
                       Samples.engine Cases.forgetful Cases.importRequest
                       Cases.fresh))) = 1%nat
  /\ Fs.existsSync
       (UploadController.disk
          (snd (UploadController.uploadFile
                  (connectedRepository (Samples.healthyDb ["Name"])
                     Samples.engine)
                  Samples.engine Cases.forgetful Cases.importRequest
                  Cases.fresh)))
       Cases.uploaded = false
  /\ In (UploadController.statusCode
           (fst (UploadController.uploadFile
                   (connectedRepository (Samples.healthyDb ["Name"])
                      Samples.engine)
                   Samples.engine Cases.forgetful Cases.importRequest
                   Cases.fresh)))
        [200; 202; 400; 500].
Proof.
  split; [vm_compute; reflexivity |].
  split; [vm_compute; reflexivity |].
  split; [vm_compute; reflexivity |].
  split; [vm_compute; reflexivity |].
  apply (proj1 (uploadFile_outcomes
                  (connectedRepository (Samples.healthyDb ["Name"]) Samples.engine)
                  Samples.engine Cases.forgetful Cases.importRequest
                  Cases.fresh)).
Defined.

(** X26. A request to validate only never queues a job and never fails
    with 500: [uploadFile] with [validateOnly] set answers as the
    [validateFile] handler does, with 200 or 400, the queue is as before
    and the uploaded file is cleaned up. *)
Theorem validate_only_never_queues (repo : Repository) (eng : Js.Engine)
  (env : UploadController.Env) (req : UploadController.Request)
  (st : UploadController.State) :
  UploadController.validateOnly (UploadController.body req) = true ->
  UploadController.uploadFile repo eng env req st
    = UploadController.validateFile repo eng req st
  /\ (UploadController.statusCode
        (fst (UploadController.uploadFile repo eng env req st)) = 200
      \/ UploadController.statusCode
           (fst (UploadController.uploadFile repo eng env req st)) = 400)
  /\ UploadController.queue (snd (UploadController.uploadFile repo eng env req st))
     = UploadController.queue st
  /\ (forall upload,
        UploadController.file req = Some upload ->
        UploadController.disk
          (snd (UploadController.uploadFile repo eng env req st))
        = Upload.cleanupFile (UploadController.disk st) (Upload.path upload)).
Proof.
  intros Hflag.
  unfold UploadController.uploadFile, UploadController.validateFile,
    UploadController.guarded.
  rewrite Hflag.
  destruct (UploadController.file req) as [upload |].
  2: { cbn. split; [reflexivity |]. split; [auto |].
       split; [reflexivity | discriminate]. }
  cbv zeta.
  destruct (negb (Upload.isValid (Upload.validateFile (Some upload)))).
  { cbn. split; [reflexivity |]. split; [auto |]. split; [reflexivity |].
    intros u Hu. now injection Hu as <-. }
  destruct (validateBranch_spec repo eng req (Upload.path upload) st)
    as (response & w' & -> & Hstatus).
  cbn [UploadController.caught fst snd UploadController.disk
         UploadController.queue].
  split; [reflexivity |].
  split; [destruct Hstatus as [[-> _] | [-> _]]; auto |].
  split; [reflexivity |].
  intros u Hu. now injection Hu as <-.
Qed.

Lemma validate_only_never_queues_witness :
  UploadController.uploadFile
    (connectedRepository (Samples.healthyDb ["Name"]) Samples.engine)
    Samples.engine Cases.calm Cases.validateRequest Cases.fresh
    = UploadController.validateFile
        (connectedRepository (Samples.healthyDb ["Name"]) Samples.engine)
        Samples.engine Cases.validateRequest Cases.fresh
  /\ (UploadController.statusCode
        (fst (UploadController.uploadFile
                (connectedRepository (Samples.healthyDb ["Name"]) Samples.engine)
                Samples.engine Cases.calm Cases.validateRequest Cases.fresh))
      = 200
      \/ UploadController.statusCode
           (fst (UploadController.uploadFile
                   (connectedRepository (Samples.healthyDb ["Name"])
                      Samples.engine)
                   Samples.engine Cases.calm Cases.validateRequest Cases.fresh))
         = 400)
  /\ UploadController.queue
       (snd (UploadController.uploadFile
               (connectedRepository (Samples.healthyDb ["Name"]) Samples.engine)
               Samples.engine Cases.calm Cases.validateRequest Cases.fresh))
     = UploadController.queue Cases.fresh
  /\ (forall upload,
        UploadController.file Cases.validateRequest = Some upload ->
        UploadController.disk
          (snd (UploadController.uploadFile
                  (connectedRepository (Samples.healthyDb ["Name"]) Samples.engine)
                  Samples.engine Cases.calm Cases.validateRequest Cases.fresh))
        = Upload.cleanupFile (UploadController.disk Cases.fresh)
            (Upload.path upload)).
Proof.
  apply (validate_only_never_queues
           (connectedRepository (Samples.healthyDb ["Name"]) Samples.engine)
           Samples.engine Cases.calm Cases.validateRequest Cases.fresh).
  reflexivity.
Defined.

Lemma uploadFile_queued (repo : Repository) (eng : Js.Engine)
  (env : UploadController.Env) (req : UploadController.Request)
  (st : UploadController.State) :
  UploadController.statusCode
    (fst (UploadController.uploadFile repo eng env req st)) = 202 ->
  exists upload rowCount job,
    UploadController.file req = Some upload
    /\ ExcelService.getRowCount (Fs.readFile (UploadController.disk st))
         (Upload.path upload)
         (UploadController.sheetName (UploadController.body req))
         (UploadController.skipRows (UploadController.body req))
       = Ok rowCount
    /\ ImportWorker.totalRecords job = rowCount
    /\ ImportWorker.filePath job = Upload.path upload
    /\ ImportWorker.tableName job
       = UploadController.tableName (UploadController.body req)
    /\ snd (UploadController.uploadFile repo eng env req st)
       = {| UploadController.world := UploadController.world st;
            UploadController.disk := UploadController.disk st;
            UploadController.queue := UploadController.queue st ++ [job] |}.
Proof.
  unfold UploadController.uploadFile, UploadController.guarded.
  destruct (UploadController.file req) as [upload |]; [| discriminate].
  cbv zeta.
  destruct (negb (Upload.isValid (Upload.validateFile (Some upload))));
    [discriminate |].
  destruct (UploadController.validateOnly (UploadController.body req)).
  - destruct (validateBranch_spec repo eng req (Upload.path upload) st)
      as (response & w' & -> & Hstatus).
    cbn [UploadController.caught fst].
    destruct Hstatus as [[-> _] | [-> _]]; discriminate.
  - destruct (queueBranch_spec env req upload (Upload.path upload) st)
      as [(e & st' & -> & _ & _) | (rowCount & mapping & Hcount & ->)];
      [discriminate |].
    intros _. exists upload, rowCount. eexists.
    split; [reflexivity |]. split; [exact Hcount |].
    split; [| split; [| split]]; [| | | reflexivity]; reflexivity.
Qed.

(** X27. The total an upload announces is not the total the worker
    reports against. The queued job carries the number of rows below the
    header row of the requested sheet at the requested offset; the worker
    that runs this job reads the first sheet from its first row, so every
    progress update it sends has for total the rows below row 1 of the
    first sheet. *)
Theorem queued_total_is_not_the_worker_total (repo : Repository)
  (db : DbClient) (eng : Js.Engine) (env : UploadController.Env)
  (req : UploadController.Request) (st : UploadController.State)
  (upload : Upload.MulterFile) (wb : Workbook) (ws first : Worksheet)
  (startTime endTime : Z) (w : World) :
  UploadController.file req = Some upload ->
  UploadController.statusCode
    (fst (UploadController.uploadFile repo eng env req st)) = 202 ->
  Fs.files (UploadController.disk st) !! Upload.path upload = Some (Ok wb) ->
  selectWorksheet wb (UploadController.sheetName (UploadController.body req))
    = Some ws ->
  selectWorksheet wb None = Some first ->
  exists job,
    UploadController.queue (snd (UploadController.uploadFile repo eng env req st))
      = UploadController.queue st ++ [job]
    /\ ImportWorker.totalRecords job
       = Z.max 0 (Excel.rowCount ws
                  - (1 + Z.of_nat (UploadController.skipRows
                                     (UploadController.body req))))
    /\ exists news,
         updates (snd (fst (ImportWorker.processJob (connectedRepository db eng)
                              eng startTime endTime job w
                              (UploadController.disk
                                 (snd (UploadController.uploadFile repo eng env
                                         req st))))))
           = updates w ++ news
         /\ Forall (fun p => total p = Z.max 0 (Excel.rowCount first - 1)) news.
Proof.
  intros Hfile Hstatus Hdisk Hws Hfirst.
  destruct (uploadFile_queued repo eng env req st Hstatus)
    as (upload' & rowCount & job & Hfile' & Hcount & Htotal & Hpath & _ & ->).
  rewrite Hfile in Hfile'. injection Hfile' as <-.
  exists job. cbn [UploadController.queue UploadController.disk].
  split; [reflexivity |]. split.
  - rewrite Htotal. unfold getRowCount, Fs.readFile in Hcount.
    rewrite Hdisk, Hws in Hcount. now injection Hcount as <-.
  - unfold ImportWorker.processJob, Fs.existsSync. rewrite Hpath, Hdisk.
    cbn [negb].
    match goal with
    | |- context [ImportOver.processImport ?r ?e ?f ?s ?t ?p ?tb ?sh ?m ?k ?cb ?w0] =>
        pose proof (processImport_over_connected db e f s t p tb sh m k cb w0) as Hplain;
        destruct (ImportOver.processImport r e f s t p tb sh m k cb w0) as [outcome w']
    end.
    cbn [fst snd].
    assert (Hw' : w' = snd (processImport db eng
                              (Fs.readFile (UploadController.disk st)) startTime
                              endTime (Upload.path upload)
                              (ImportWorker.tableName job) None
                              (ImportWorker.columnMapping job) 0
                              (Some ImportWorker.onProgress) w))
      by (now rewrite <- Hplain).
    rewrite Hw', processImport_spec.
    assert (Hrows : getRowCount (Fs.readFile (UploadController.disk st))
                      (Upload.path upload) None 0
                    = Ok (Z.max 0 (Excel.rowCount first - 1))).
    { unfold getRowCount, Fs.readFile. rewrite Hdisk, Hfirst. reflexivity. }
    rewrite tableExists_spec. cbn [fst snd].
    destruct (match tableCountReply db (calls w) (ImportWorker.tableName job) with
              | Ok (count :: _) => 0 <? count
              | _ => false
              end).
    + rewrite Hrows.
      destruct (stream_within_rowCount eng
                  (Fs.readFile (UploadController.disk st)) (Upload.path upload)
                  None 0 _ Hrows) as (batches & -> & Hne & _).
      cbv zeta. cbn [snd].
      destruct (processBatches_invariant db eng (ImportWorker.tableName job)
                  (ImportWorker.columnMapping job) (Some ImportWorker.onProgress)
                  (Z.max 0 (Excel.rowCount first - 1)) batches Hne zeroCounters
                  {| calls := calls w ++ [QueryTableCount (ImportWorker.tableName job)];
                     updates := updates w |})
        as (_ & _ & _ & news & Hnews & _ & Hall).
      exists news. cbn [updates] in Hnews. split; [exact Hnews |].
      eapply List.Forall_impl; [| exact Hall].
      intros p (Htot & _). exact Htot.
    + exists []. cbn [snd updates]. rewrite app_nil_r. split; constructor.
Qed.

Lemma queued_total_is_not_the_worker_total_witness :
  exists job,
    UploadController.queue
      (snd (UploadController.uploadFile
              (connectedRepository (Samples.healthyDb ["Name"]) Samples.engine)
              Samples.engine Cases.calm Cases.importRequest Cases.fresh))
      = UploadController.queue Cases.fresh ++ [job]
    /\ ImportWorker.totalRecords job
       = Z.max 0 (Excel.rowCount (Samples.sheetOf 3)
                  - (1 + Z.of_nat (UploadController.skipRows
                                     (UploadController.body Cases.importRequest))))
    /\ exists news,
         updates (snd (fst (ImportWorker.processJob
                              (connectedRepository (Samples.healthyDb ["Name"])
                                 Samples.engine)
                              Samples.engine 0 5 job emptyWorld
                              (UploadController.disk
                                 (snd (UploadController.uploadFile
                                         (connectedRepository
                                            (Samples.healthyDb ["Name"])
                                            Samples.engine)
                                         Samples.engine Cases.calm
                                         Cases.importRequest Cases.fresh))))))
           = updates emptyWorld ++ news
         /\ Forall (fun p => total p
                             = Z.max 0 (Excel.rowCount (Samples.sheetOf 3) - 1))
              news.
Proof.
  apply (queued_total_is_not_the_worker_total
           (connectedRepository (Samples.healthyDb ["Name"]) Samples.engine)
           (Samples.healthyDb ["Name"]) Samples.engine Cases.calm
           Cases.importRequest Cases.fresh Cases.spreadsheet
           [Samples.sheetOf 3] (Samples.sheetOf 3) (Samples.sheetOf 3)
           0 5 emptyWorld).
  - reflexivity.
  - vm_compute. reflexivity.
  - vm_compute. reflexivity.
  - reflexivity.
  - reflexivity.
Defined.

(** ** From a cell to a column type *)

Lemma inferSqlType_string (eng : Js.Engine) (s : string) :
  inferSqlType eng (VString s) = DateTime
  \/ exists size, inferSqlType eng (VString s) = NVarChar size.
Proof.
  cbn [inferSqlType].
  destruct (dateParses eng s && datePattern s); [now left | right].
  destruct (4000 <? stringLength s); eexists; reflexivity.
Qed.

(** X28. The column type a cell leads to, the reader and the type
    inference taken together. A bit column comes from a plain boolean cell
    only, and a numeric column from a number cell or a formula whose cached
    result is a number, only. A formula whose result is a boolean is sent
    as the text [true] or [false] in a text column of size 255; an empty
    cell, a formula without result and an error cell lead to a text column
    of maximal size. *)
Theorem cell_column_type (eng : Js.Engine) (c : CellValue) :
  (inferSqlType eng (getCellValue eng c) = Bit <-> exists b, c = CBool b)
  /\ (inferSqlType eng (getCellValue eng c) = Int
      \/ inferSqlType eng (getCellValue eng c) = Decimal 18 2
      <-> exists x, c = CNumber x \/ exists f, c = CFormula f (FRNumber x))
  /\ (forall f b,
        c = CFormula f (FRBool b) ->
        getCellValue eng c = VString (if b then "true" else "false")
        /\ inferSqlType eng (getCellValue eng c) = NVarChar (Len 255))
  /\ (c = CNull
      \/ (exists f, c = CFormula f FRNull \/ c = CFormula f FRUndefined)
      \/ (exists code, c = CError code) ->
      inferSqlType eng (getCellValue eng c) = NVarChar MAX).
Proof.
  assert (Htext : forall s,
             inferSqlType eng (VString s) <> Bit
             /\ inferSqlType eng (VString s) <> Int
             /\ inferSqlType eng (VString s) <> Decimal 18 2).
  { intros s.
    destruct (inferSqlType_string eng s) as [-> | (size & ->)];
      repeat split; discriminate. }
  split; [| split; [| split]].
  - split.
    + destruct c as [| x | s | b | ms | code | runs | text link | f r];
        cbn [getCellValue]; try (intros H; now apply Htext in H);
        try (cbn; discriminate).
      * cbn. destruct (Js.isInteger x); discriminate.
      * intros _. now exists b.
      * destruct r as [| | x | s | b | ms | code];
          try (intros H; now apply Htext in H); try (cbn; discriminate).
        cbn. destruct (Js.isInteger x); discriminate.
    + intros (b & ->). reflexivity.
  - split.
    + destruct c as [| x | s | b | ms | code | runs | text link | f r];
        cbn [getCellValue];
        try (intros [H | H]; now apply Htext in H);
        try (cbn; intros [H | H]; discriminate).
      * intros _. exists x. now left.
      * destruct r as [| | x | s | b | ms | code];
          try (intros [H | H]; now apply Htext in H);
          try (cbn; intros [H | H]; discriminate).
        intros _. exists x. right. now exists f.
    + intros (x & [-> | (f & ->)]); cbn;
        destruct (Js.isInteger x); auto.
  - intros f b ->. cbn [getCellValue stringOfFormulaResult boolToString].
    split; [reflexivity |].
    destruct b; cbn [inferSqlType]; rewrite andb_false_r; reflexivity.
  - intros [-> | [(f & [-> | ->]) | (code & ->)]]; reflexivity.
Qed.

(** ** The status of a job *)

Lemma describe_shape (jobId' : string) (job : JobService.Job) :
  In (JobService.status (JobService.describe jobId' job))
     [JobService.PENDING; JobService.PROCESSING; JobService.COMPLETED;
      JobService.FAILED]
  /\ (JobService.result (JobService.describe jobId' job) <> None ->
      JobService.status (JobService.describe jobId' job) = JobService.COMPLETED)
  /\ (JobService.error (JobService.describe jobId' job) <> None ->
      JobService.status (JobService.describe jobId' job) = JobService.FAILED
      /\ JobService.error (JobService.describe jobId' job) <> Some "").
Proof.
  unfold JobService.describe.
  cbn [JobService.status JobService.result JobService.error].
  destruct (String.eqb (JobService.state job) "active") eqn:Hactive.
  - apply String.eqb_eq in Hactive. rewrite Hactive. cbn.
    split; [auto |]. split; congruence.
  - destruct (String.eqb (JobService.state job) "completed") eqn:Hcompleted.
    + apply String.eqb_eq in Hcompleted. rewrite Hcompleted. cbn.
      split; [auto |]. split; congruence.
    + destruct (String.eqb (JobService.state job) "failed") eqn:Hfailed.
      * split; [cbn; auto |]. split; [congruence |].
        intros _. split; [reflexivity |].
        destruct (JobService.failedReason job) as [[| c reason] |]; cbn;
          congruence.
      * split; [cbn; auto |]. split; congruence.
Qed.

Lemma getJobStatus_describe (broker : JobService.Broker) (key : string)
  (job : JobService.Job) (jobId' : string) :
  JobService.reachable broker = true ->
  JobService.getJob broker key = Some job ->
  JobService.id job = Some jobId' ->
  jobId' <> "" ->
  JobService.getJobStatus broker key = Some (JobService.describe jobId' job).
Proof.
  intros Hreach Hjob Hid Hne.
  unfold JobService.getJobStatus. rewrite Hreach, Hjob, Hid. cbn [negb].
  destruct jobId' as [| c rest]; [congruence |]. reflexivity.
Qed.

(** X29. What a job status says. A status the service returns is one of
    pending, processing, completed and failed, any state of the queue
    other than active, completed and failed reading as pending; it carries
    a result only when completed and an error, never empty, only when
    failed, under an id that is not empty. The entry [getAllJobs] lists for
    a job is the status [getJobStatus] returns for it, and an unreachable
    queue reads as no job at all. *)
Theorem job_status_shape (broker : JobService.Broker) :
  (forall key r,
      JobService.getJobStatus broker key = Some r ->
      In (JobService.status r)
         [JobService.PENDING; JobService.PROCESSING; JobService.COMPLETED;
          JobService.FAILED]
      /\ (JobService.result r <> None ->
          JobService.status r = JobService.COMPLETED)
      /\ (JobService.error r <> None ->
          JobService.status r = JobService.FAILED
          /\ JobService.error r <> Some "")
      /\ JobService.jobId r <> "")
  /\ (forall filter r,
        In r (JobService.getAllJobs broker filter) ->
        exists job,
          In job (JobService.listed broker filter)
          /\ JobService.id job = Some (JobService.jobId r)
          /\ forall broker' key,
               JobService.reachable broker' = true ->
               JobService.getJob broker' key = Some job ->
               JobService.jobId r <> "" ->
               JobService.getJobStatus broker' key = Some r)
  /\ (JobService.reachable broker = false ->
      forall key filter,
        JobService.getJobStatus broker key = None
        /\ JobService.getAllJobs broker filter = []).
Proof.
  split; [| split].
  - intros key r Hr.
    unfold JobService.getJobStatus in Hr.
    destruct (JobService.reachable broker); [| discriminate].
    destruct (JobService.getJob broker key) as [job |]; [| discriminate].
    destruct (JobService.id job) as [jobId' |]; [| discriminate].
    destruct jobId' as [| c rest]; [discriminate |].
    cbn [negb Js.truthy] in Hr. injection Hr as <-.
    destruct (describe_shape (String c rest) job) as (Hs & Hr & He).
    split; [exact Hs |]. split; [exact Hr |]. split; [exact He |].
    discriminate.
  - intros filter r Hin.
    unfold JobService.getAllJobs in Hin.
    destruct (JobService.reachable broker); [| destruct Hin].
    cbn [negb] in Hin. apply list_elem_of_In in Hin.
    apply list_elem_of_omap in Hin as (job & Hjob & Hdescribe).
    destruct (JobService.id job) as [jobId' |] eqn:Hid; [| discriminate].
    injection Hdescribe as <-.
    exists job. split; [now apply list_elem_of_In |].
    split; [exact Hid |].
    intros broker' key Hreach Hget Hne.
    now apply getJobStatus_describe.
  - intros Hreach key filter.
    unfold JobService.getJobStatus, JobService.getAllJobs.
    rewrite Hreach. split; reflexivity.
Qed.

Lemma selectWorksheet_first (wb : Workbook) (sheet : option string)
  (ws : Worksheet) :
  selectWorksheet wb sheet = Some ws ->
  exists first, selectWorksheet wb None = Some first.
Proof.
  unfold selectWorksheet, getWorksheet.
  destruct wb as [| first rest]; [| intros _; now exists first].
  destruct sheet as [name |]; [| discriminate].
  destruct (Js.truthy name); discriminate.
Qed.

(** X30. From the upload to the first run of its job. When an upload is
    answered with 202, the job it queued finds its file when the worker
    runs it on the directory the upload left: the file is readable and has
    a first sheet, so the run raises only when the table check answers no,
    with [Table ... does not exist], and returns counts otherwise; either
    way the file is cleaned up by the run. *)
Theorem queued_job_first_run (repo : Repository) (db : DbClient)
  (eng : Js.Engine) (env : UploadController.Env)
  (req : UploadController.Request) (st : UploadController.State)
  (startTime endTime : Z) (w : World) :
  UploadController.statusCode
    (fst (UploadController.uploadFile repo eng env req st)) = 202 ->
  exists job upload,
    UploadController.file req = Some upload
    /\ UploadController.queue
         (snd (UploadController.uploadFile repo eng env req st))
       = UploadController.queue st ++ [job]
    /\ Fs.existsSync
         (UploadController.disk
            (snd (UploadController.uploadFile repo eng env req st)))
         (ImportWorker.filePath job) = true
    /\ (fst (tableExists db (UploadController.tableName (UploadController.body req)) w)
        = Ok false ->
        fst (fst (ImportWorker.processJob (connectedRepository db eng) eng
                    startTime endTime job w
                    (UploadController.disk
                       (snd (UploadController.uploadFile repo eng env req st)))))
        = Throw (JsError ("Table "
                          +:+ UploadController.tableName (UploadController.body req)
                          +:+ " does not exist")))
    /\ (fst (tableExists db (UploadController.tableName (UploadController.body req)) w)
        = Ok true ->
        Js.isOk
          (fst (fst (ImportWorker.processJob (connectedRepository db eng) eng
                       startTime endTime job w
                       (UploadController.disk
                          (snd (UploadController.uploadFile repo eng env req st))))))
        = true)
    /\ snd (ImportWorker.processJob (connectedRepository db eng) eng startTime
              endTime job w
              (UploadController.disk
                 (snd (UploadController.uploadFile repo eng env req st))))
       = Upload.cleanupFile (UploadController.disk st) (Upload.path upload).
Proof.
  intros Hstatus.
  destruct (uploadFile_queued repo eng env req st Hstatus)
    as (upload & rowCount & job & Hfile & Hcount & _ & Hpath & Htable & ->).
  exists job, upload. cbn [UploadController.queue UploadController.disk].
  split; [exact Hfile |]. split; [reflexivity |].
  apply getRowCount_ok in Hcount as (wb & ws & Hread & Hws & _).
  unfold Fs.readFile in Hread.
  destruct (Fs.files (UploadController.disk st) !! Upload.path upload)
    as [content |] eqn:Hdisk; [| discriminate].
  subst content.
  destruct (selectWorksheet_first wb _ ws Hws) as (first & Hfirst).
  assert (Hpresent : Fs.existsSync (UploadController.disk st)
                       (ImportWorker.filePath job) = true).
  { unfold Fs.existsSync. now rewrite Hpath, Hdisk. }
  split; [exact Hpresent |].
  assert (Hrows : getRowCount (Fs.readFile (UploadController.disk st))
                    (Upload.path upload) None 0
                  = Ok (Z.max 0 (Excel.rowCount first - 1))).
  { unfold getRowCount, Fs.readFile. rewrite Hdisk, Hfirst. reflexivity. }
  unfold ImportWorker.processJob. rewrite Hpresent. cbn [negb].
  rewrite Hpath, Htable.
  match goal with
  | |- context [ImportOver.processImport ?r ?e ?f ?s ?t ?p ?tb ?sh ?m ?k ?cb ?w0] =>
      pose proof (processImport_over_connected db e f s t p tb sh m k cb w0) as Hplain;
      destruct (ImportOver.processImport r e f s t p tb sh m k cb w0) as [outcome w']
  end.
  cbn [fst snd].
  assert (Houtcome :
            outcome
            = fst (processImport db eng (Fs.readFile (UploadController.disk st))
                     startTime endTime (Upload.path upload)
                     (UploadController.tableName (UploadController.body req)) None
                     (ImportWorker.columnMapping job) 0
                     (Some ImportWorker.onProgress) w))
    by (now rewrite <- Hplain).
  rewrite Houtcome, processImport_spec, Hrows.
  destruct (stream_within_rowCount eng (Fs.readFile (UploadController.disk st))
              (Upload.path upload) None 0 _ Hrows) as (batches & -> & _ & _).
  split; [intros ->; reflexivity |].
  split; [intros ->; reflexivity | reflexivity].
Qed.

Lemma queued_job_first_run_witness :
  exists job upload,
    UploadController.file Cases.importRequest = Some upload
    /\ UploadController.queue
         (snd (UploadController.uploadFile
                 (connectedRepository (Samples.healthyDb ["Name"]) Samples.engine)
                 Samples.engine Cases.calm Cases.importRequest Cases.fresh))
       = UploadController.queue Cases.fresh ++ [job]
    /\ Fs.existsSync
         (UploadController.disk
            (snd (UploadController.uploadFile
                    (connectedRepository (Samples.healthyDb ["Name"]) Samples.engine)
                    Samples.engine Cases.calm Cases.importRequest Cases.fresh)))
         (ImportWorker.filePath job) = true
    /\ (fst (tableExists (Samples.healthyDb ["Name"])
               (UploadController.tableName
                  (UploadController.body Cases.importRequest)) emptyWorld)
        = Ok false ->
        fst (fst (ImportWorker.processJob
                    (connectedRepository (Samples.healthyDb ["Name"]) Samples.engine)
                    Samples.engine 0 5 job emptyWorld
                    (UploadController.disk
                       (snd (UploadController.uploadFile
                               (connectedRepository (Samples.healthyDb ["Name"])
                                  Samples.engine)
                               Samples.engine Cases.calm Cases.importRequest
                               Cases.fresh)))))
        = Throw (JsError ("Table "
                          +:+ UploadController.tableName
                                (UploadController.body Cases.importRequest)
                          +:+ " does not exist")))
    /\ (fst (tableExists (Samples.healthyDb ["Name"])
               (UploadController.tableName
                  (UploadController.body Cases.importRequest)) emptyWorld)
        = Ok true ->
        Js.isOk
          (fst (fst (ImportWorker.processJob
                       (connectedRepository (Samples.healthyDb ["Name"])
                          Samples.engine)
                       Samples.engine 0 5 job emptyWorld
                       (UploadController.disk
                          (snd (UploadController.uploadFile
                                  (connectedRepository (Samples.healthyDb ["Name"])
                                     Samples.engine)
                                  Samples.engine Cases.calm Cases.importRequest
                                  Cases.fresh))))))
        = true)
    /\ snd (ImportWorker.processJob
              (connectedRepository (Samples.healthyDb ["Name"]) Samples.engine)
              Samples.engine 0 5 job emptyWorld
              (UploadController.disk
                 (snd (UploadController.uploadFile
                         (connectedRepository (Samples.healthyDb ["Name"])
                            Samples.engine)
                         Samples.engine Cases.calm Cases.importRequest
                         Cases.fresh))))
       = Upload.cleanupFile (UploadController.disk Cases.fresh)
           (Upload.path upload).
Proof.
  apply (queued_job_first_run
           (connectedRepository (Samples.healthyDb ["Name"]) Samples.engine)
           (Samples.healthyDb ["Name"]) Samples.engine Cases.calm
           Cases.importRequest Cases.fresh 0 5 emptyWorld).
  vm_compute. reflexivity.
Defined.
